(** * robot-appium-vision: the keyword library [appium_vision/keywords.py]

    A shallow embedding of the class [AppiumKeywords] and of the module
    function [_check_runtime_dependencies], followed by the properties of
    the session registry, of the coordinate, OCR and image keywords, of
    the shell keyword and of the dependency check, and then by further
    properties of these and of text verification, the gestures, the keys
    and the recording handle.

    - A keyword is a function from the library object to a result (a
      value or a raised exception) and the object afterwards.
    - What the keywords hand over to external libraries (the Appium
      driver, OpenCV, pytesseract, Robot Framework, the file system) is
      answered by a record of oracles, [World].  Every call to the driver,
      to a subprocess, to [find_spec] and to the logger is recorded in the
      trace of the object, in order: "no call was made" is a statement
      about that trace.
    - [int] is [Z], [float] is binary64 as specified by [SpecFloat], [str]
      is [string] read as code points below 256, [dict] is an association
      list in insertion order. *)

From Stdlib Require Import ZArith Lia Bool List Ascii String DecimalString DecimalPos Sorted.
From Stdlib Require Import SpecFloat PrimFloat FloatOps.
From stdpp Require Import base option list strings gmap.

Set Warnings "-register-all,-clear-no-such-hyp,-inexact-float".
Local Open Scope string_scope.
Local Open Scope Z_scope.

(** ** Python values and exceptions *)

Module Py.

(** Binary64 numbers, as Python's [float]. *)
Definition float64 : Type := spec_float.

(** The values that cross the keyword boundary: what [json.load] returns,
    what is sent to [driver.execute_script] and what it answers.  A [dict]
    is an association list in insertion order, keyed by [str]. *)
Inductive value : Type :=
| VNone
| VBool (b : bool)
| VInt (n : Z)
| VFloat (f : float64)
| VStr (s : string)
| VList (l : list value)
| VDict (d : list (string * value)).

(** The exception classes the keywords raise or let through.  All of them
    derive from [Exception].  [MissingDependency pkg] is the [RuntimeError]
    of [_check_runtime_dependencies], whose message names the package
    [pkg] twice.  [LibraryError] stands for an exception raised inside an
    external library (selenium's [WebDriverException], [cv2.error],
    [json.JSONDecodeError], ...), named by its class. *)
Inductive exn : Type :=
| Exception (msg : string)
| AssertionError (msg : string)
| AttributeError (msg : string)
| IndexError (msg : string)
| KeyError (key : string)
| TypeError (msg : string)
| ValueError (msg : string)
| OverflowError (msg : string)
| ZeroDivisionError (msg : string)
| MissingDependency (pkg_name : string)
| LibraryError (cls : string) (msg : string).

Inductive result (A : Type) : Type :=
| Ok (a : A)
| Raise (e : exn).
Arguments Ok {A} a.
Arguments Raise {A} e.

(** *** [str] methods

    A [string] is read as a sequence of code points below 256. *)

(** [str.isspace] on one character, for code points below 256:
    TAB LF VT FF CR, FS GS RS US, SPACE, NEL and NBSP. *)
Definition isspace (c : ascii) : bool :=
  let n := N_of_ascii c in
  ((9 <=? n) && (n <=? 13) || (28 <=? n) && (n <=? 32)
   || (n =? 133) || (n =? 160))%N.

Fixpoint lstrip (s : string) : string :=
  match s with
  | EmptyString => EmptyString
  | String c s' => if isspace c then lstrip s' else s
  end.

Fixpoint rstrip (s : string) : string :=
  match s with
  | EmptyString => EmptyString
  | String c s' =>
      match rstrip s' with
      | EmptyString => if isspace c then EmptyString else String c EmptyString
      | r => String c r
      end
  end.

(** [s.strip()] *)
Definition strip (s : string) : string := rstrip (lstrip s).

(** [s.split()] with no separator: the maximal runs of non-whitespace
    characters, in order.  [cur] is the run being read. *)
Fixpoint split_from (cur : string) (s : string) : list string :=
  match s with
  | EmptyString =>
      match cur with EmptyString => [] | _ => [cur] end
  | String c s' =>
      if isspace c then
        match cur with
        | EmptyString => split_from EmptyString s'
        | _ => cur :: split_from EmptyString s'
        end
      else split_from (cur +:+ String c EmptyString) s'
  end.

Definition split (s : string) : list string := split_from EmptyString s.

(** *** [dict] operations on association lists *)

Section Dict.
Context {V : Type}.

(** [d[k]] / [k in d] *)
Fixpoint dict_get (d : list (string * V)) (k : string) : option V :=
  match d with
  | [] => None
  | (k', v) :: d' => if String.eqb k' k then Some v else dict_get d' k
  end.

Definition dict_mem (d : list (string * V)) (k : string) : bool :=
  match dict_get d k with Some _ => true | None => false end.

(** [d[k] = v]: an existing key keeps its place, a new key goes last. *)
Fixpoint dict_set (d : list (string * V)) (k : string) (v : V)
  : list (string * V) :=
  match d with
  | [] => [(k, v)]
  | (k', v') :: d' =>
      if String.eqb k' k then (k', v) :: d' else (k', v') :: dict_set d' k v
  end.

(** [d.values()] *)
Definition dict_values (d : list (string * V)) : list V := map snd d.
Definition dict_keys (d : list (string * V)) : list string := map fst d.
End Dict.

(** *** Numbers *)

(** [a >= b] on floats; false as soon as one side is NaN. *)
Definition float_ge (a b : float64) : bool := SFleb b a.
(** [a < b] *)
Definition float_lt (a b : float64) : bool := SFltb a b.
(** [a == b] *)
Definition float_eq (a b : float64) : bool := SFeqb a b.

(** [float(n)] for an [int]: the nearest binary64 number, ties to even;
    [OverflowError] when there is none. *)
Definition float_of_int (n : Z) : result float64 :=
  match binary_normalize prec emax n 0 false with
  | S754_infinity _ => Raise (OverflowError "int too large to convert to float")
  | f => Ok f
  end.

(** [a / b] on two [int]s: the correctly rounded quotient. *)
Definition int_truediv (a b : Z) : result float64 :=
  match a, b with
  | _, Z0 => Raise (ZeroDivisionError "division by zero")
  | Z0, _ => Ok (S754_zero (b <? 0)%Z)
  | _, _ =>
      let '(m, e, l) := SFdiv_core_binary prec emax (Z.abs a) 0 (Z.abs b) 0 in
      match binary_round_aux prec emax (xorb (a <? 0)%Z (b <? 0)%Z) m e l with
      | S754_infinity _ =>
          Raise (OverflowError "integer division result too large for a float")
      | f => Ok f
      end
  end.

Definition float_add (a b : float64) : float64 := SFadd prec emax a b.
Definition float_mul (a b : float64) : float64 := SFmul prec emax a b.

(** [int(f)]: truncation towards zero. *)
Definition int_of_float (f : float64) : result Z :=
  match f with
  | S754_zero _ => Ok 0
  | S754_nan => Raise (ValueError "cannot convert float NaN to integer")
  | S754_infinity _ => Raise (OverflowError "cannot convert float infinity to integer")
  | S754_finite s m e =>
      let a := match e with
               | Zneg p => Z.shiftr (Zpos m) (Zpos p)
               | _ => Z.shiftl (Zpos m) e
               end in
      Ok (if s then - a else a)
  end.

(** Decimal digits of a natural number. *)
Definition digits (n : Z) : string :=
  NilEmpty.string_of_uint (N.to_uint (Z.to_N n)).

(** [str(n)] for an [int]. *)
Definition str_of_int (n : Z) : string :=
  if (n <? 0)%Z then "-" +:+ digits (- n) else digits n.

(** The three digits after the point. *)
Definition pad3 (n : Z) : string :=
  let s := digits n in
  match String.length s with
  | 1%nat => "00" +:+ s
  | 2%nat => "0" +:+ s
  | _ => s
  end.

(** [round(m * 2^e * 1000)], to nearest, ties to even, on the exact value. *)
Definition round_thousandths (m : positive) (e : Z) : Z :=
  match e with
  | Zneg p =>
      let n := Zpos m * 1000 in
      let d := Z.shiftl 1 (Zpos p) in
      let q := n / d in
      let r := n mod d in
      match Z.compare (2 * r) d with
      | Lt => q
      | Gt => q + 1
      | Eq => if Z.even q then q else q + 1
      end
  | _ => Z.shiftl (Zpos m * 1000) e
  end.

(** [format(f, ".3f")]: fixed point with three decimals, correctly
    rounded; the sign of a negative number is kept even when every
    printed digit is zero. *)
Definition format_3f (f : float64) : string :=
  match f with
  | S754_nan => "nan"
  | S754_infinity s => if s then "-inf" else "inf"
  | S754_zero s => if s then "-0.000" else "0.000"
  | S754_finite s m e =>
      let q := round_thousandths m e in
      (if s then "-" else EmptyString) +:+ digits (q / 1000) +:+ "." +:+ pad3 (q mod 1000)
  end.

End Py.
Import Py.

(** ** The world outside the library *)

(** A live [webdriver.Remote] instance, named by its object identity. *)
Definition Driver : Type := nat.

(** The options of one section of [configurations.ini]. *)
Definition Capabilities : Type := gmap string string.

(** [configparser.ConfigParser] after [read]: the sections by name and
    the options of the [DEFAULT] section, which every section inherits. *)
Record Config : Type := mkConfig {
  sections : gmap string Capabilities;
  defaults : Capabilities
}.

(** A decoded image ([numpy] array): its [shape[:2]] and its pixels, left
    abstract. *)
Record Image : Type := mkImage {
  img_height : Z;
  img_width : Z;
  img_pixels : N
}.

(** What [cv2.minMaxLoc] returns. *)
Record MinMax : Type := mkMinMax {
  min_val : float64;
  max_val : float64;
  min_loc : Z * Z;
  max_loc : Z * Z
}.

(** [pytesseract.image_to_data(..., output_type=Output.DICT)]: parallel
    lists, one entry per recognised box. *)
Record OcrData : Type := mkOcrData {
  ocr_text : list string;
  ocr_left : list Z;
  ocr_top : list Z;
  ocr_width : list Z;
  ocr_height : list Z
}.

(** A UI element found by the driver, and a process started by
    [subprocess.Popen], each named by its identity. *)
Definition Element : Type := nat.
Definition Process : Type := nat.

(** The messages the library logs through [robot.api.logger]. *)
Inductive log_message : Type :=
| DependencyCheckSkipped (e : exn)
| AllDependenciesInstalled
| AdbNotFound
| AdbDetected
| TesseractNotFound
| TesseractDetected (path : string)
| TextVerified (text : string)
| VideoNotFound (path : string)
| VideoEmbedded (path : string) (width : Z) (title : string).

Inductive log_level : Type := INFO | WARN.

(** What the library does to the outside, in the order it does it. *)
Inductive event : Type :=
| Connect (command_executor : string) (caps : Capabilities)
| Quit (d : Driver)
| ExecuteScript (d : Driver) (script : string) (args : value)
| SaveScreenshot (d : Driver) (path : string)
| FindElements (d : Driver) (by_ value : string)
| ElementText (d : Driver) (el : Element)
| GetWindowSize (d : Driver)
| Popen (args : list string)
| Terminate (proc : Process)
| Wait (proc : Process)
| Run (args : list string)
| FindSpec (import_name : string)
| Log (level : log_level) (msg : log_message).

(** The answers of the external libraries.  An answer of the driver or of
    the file system may depend on everything done so far. *)
Record World : Type := mkWorld {
  (* appium, selenium *)
  w_load_capabilities : Capabilities -> option exn;
  w_remote : list event -> Capabilities -> option exn;
  w_quit : list event -> Driver -> option exn;
  w_execute_script : list event -> Driver -> string -> value -> result value;
  w_save_screenshot : list event -> Driver -> string -> option exn;
  w_find_elements : list event -> Driver -> string -> string -> result (list Element);
  w_element_text : list event -> Driver -> Element -> result string;
  w_get_window_size : list event -> Driver -> result value;
  (* Robot Framework *)
  w_get_variable_value : string -> result (option string);
  (* os, json, time, builtins *)
  w_module_dir : string;
  w_path_join : list string -> string;
  w_isfile : string -> bool;
  w_json_load : string -> result value;
  w_time : list event -> string;
  w_now : list event -> string;
  w_exists : string -> bool;
  w_popen : list event -> list string -> option exn;
  w_run : list event -> list string -> option exn;
  w_getenv : string -> option string;
  w_which : string -> option string;
  w_find_spec : string -> bool;
  w_read_ini : string -> result Config;
  w_int_of_str : string -> option Z;
  (* OpenCV, pytesseract *)
  w_imread : list event -> string -> option Image;
  w_match_template : Image -> Image -> result MinMax;
  w_image_to_data : Image -> result OcrData
}.

(** ** The library object *)

(** The three attributes [start_screen_recording] sets, one after the
    other, once the recording process is started. *)
Record Recording : Type := mkRecording {
  _screen_proc : Process;
  _device_video_path : string;
  _device_id : string
}.

Record State : Type := mkState {
  drivers : list (string * Driver);   (* self.drivers *)
  config : Config;                    (* self.config *)
  recording : option Recording;       (* None: the attributes are not there *)
  tesseract_cmd : option string;      (* pytesseract.pytesseract.tesseract_cmd, when set *)
  next_object : nat;                  (* identity of the next object created *)
  trace : list event
}.

Definition set_drivers (ds : list (string * Driver)) (st : State) : State :=
  mkState ds (config st) (recording st) (tesseract_cmd st) (next_object st) (trace st).
Definition set_config (c : Config) (st : State) : State :=
  mkState (drivers st) c (recording st) (tesseract_cmd st) (next_object st) (trace st).
Definition set_recording (r : Recording) (st : State) : State :=
  mkState (drivers st) (config st) (Some r) (tesseract_cmd st) (next_object st) (trace st).
Definition set_tesseract_cmd (p : string) (st : State) : State :=
  mkState (drivers st) (config st) (recording st) (Some p) (next_object st) (trace st).
Definition new_object (st : State) : State :=
  mkState (drivers st) (config st) (recording st) (tesseract_cmd st) (S (next_object st))
    (trace st).
Definition record_event (ev : event) (st : State) : State :=
  mkState (drivers st) (config st) (recording st) (tesseract_cmd st) (next_object st)
    (trace st ++ [ev])%list.

(** Before [__init__] has run. *)
Definition blank : State :=
  mkState [] (mkConfig ∅ ∅) None None 0%nat [].

(** A keyword computes on the object and either returns or raises; what it
    did to the object before raising stays done. *)
Definition M (A : Type) : Type := State -> result A * State.

Definition ret {A} (a : A) : M A := fun st => (Ok a, st).
Definition raise {A} (e : exn) : M A := fun st => (Raise e, st).
Definition bind {A B} (m : M A) (k : A -> M B) : M B :=
  fun st =>
    match m st with
    | (Ok a, st') => k a st'
    | (Raise e, st') => (Raise e, st')
    end.
Definition get : M State := fun st => (Ok st, st).
Definition modify (f : State -> State) : M unit := fun st => (Ok tt, f st).
Definition lift {A} (r : result A) : M A := fun st => (r, st).
Definition check (o : option exn) : M unit :=
  match o with Some e => raise e | None => ret tt end.
Definition emit (ev : event) : M unit := modify (record_event ev).

(** [try: body  except Exception as e: handler e] *)
Definition try_except {A} (body : M A) (handler : exn -> M A) : M A :=
  fun st =>
    match body st with
    | (Ok a, st') => (Ok a, st')
    | (Raise e, st') => handler e st'
    end.

Notation "'let*' x ':=' m 'in' k" := (bind m (fun x => k))
  (at level 10, x name, m at level 100, k at level 200).

(** ** Decimal literals

    The binary64 number nearest to each decimal the source writes: the
    default thresholds and the fractions of the screen. *)

Definition f085 : float64 := Eval vm_compute in Prim2SF 0.85%float.
Definition f09 : float64 := Eval vm_compute in Prim2SF 0.9%float.
Definition f08 : float64 := Eval vm_compute in Prim2SF 0.8%float.
Definition f07 : float64 := Eval vm_compute in Prim2SF 0.7%float.
Definition f035 : float64 := Eval vm_compute in Prim2SF 0.35%float.
Definition f03 : float64 := Eval vm_compute in Prim2SF 0.3%float.
Definition f015 : float64 := Eval vm_compute in Prim2SF 0.15%float.
Definition f01 : float64 := Eval vm_compute in Prim2SF 0.1%float.

(** ** Operators of the language on [value]s *)

Definition type_name (v : value) : string :=
  match v with
  | VNone => "NoneType"
  | VBool _ => "bool"
  | VInt _ => "int"
  | VFloat _ => "float"
  | VStr _ => "str"
  | VList _ => "list"
  | VDict _ => "dict"
  end.

(** [sub in s] on two [str]. *)
Fixpoint str_contains (sub s : string) : bool :=
  String.prefix sub s ||
  match s with
  | EmptyString => false
  | String _ s' => str_contains sub s'
  end.

(** [key in data], for a [str] key. *)
Definition value_contains (data : value) (key : string) : result bool :=
  match data with
  | VDict d => Ok (dict_mem d key)
  | VList l =>
      Ok (existsb (fun v => match v with VStr s => String.eqb s key | _ => false end) l)
  | VStr s => Ok (str_contains key s)
  | _ => Raise (TypeError ("argument of type '" +:+ type_name data +:+ "' is not iterable"))
  end.

(** [data[key]], for a [str] key. *)
Definition value_getitem (data : value) (key : string) : result value :=
  match data with
  | VDict d =>
      match dict_get d key with
      | Some v => Ok v
      | None => Raise (KeyError key)
      end
  | VList _ => Raise (TypeError "list indices must be integers or slices, not str")
  | VStr _ => Raise (TypeError "string indices must be integers")
  | _ => Raise (TypeError ("'" +:+ type_name data +:+ "' object is not subscriptable"))
  end.

(** [v.strip()] *)
Definition value_strip (v : value) : result value :=
  match v with
  | VStr s => Ok (VStr (strip s))
  | _ => Raise (AttributeError ("'" +:+ type_name v +:+ "' object has no attribute 'strip'"))
  end.

(** [n * c] for an [int] [n] and a [float] [c]. *)
Definition int_mul_float (n : Z) (c : float64) : result float64 :=
  match float_of_int n with
  | Ok f => Ok (float_mul f c)
  | Raise e => Raise e
  end.

(** [v * c] for a [float] [c]. *)
Definition value_mul_float (v : value) (c : float64) : result float64 :=
  match v with
  | VInt n => int_mul_float n c
  | VBool b => int_mul_float (if b then 1 else 0) c
  | VFloat f => Ok (float_mul f c)
  | VStr _ | VList _ =>
      Raise (TypeError "can't multiply sequence by non-int of type 'float'")
  | _ => Raise (TypeError ("unsupported operand type(s) for *: '" +:+ type_name v
                           +:+ "' and 'float'"))
  end.

(** [l[i]] for [0 <= i]. *)
Definition list_index {A} (l : list A) (i : nat) : result A :=
  match l !! i with
  | Some a => Ok a
  | None => Raise (IndexError "list index out of range")
  end.

(** ** The class [AppiumKeywords] *)

Section Keywords.
Context (W : World).

(** [int(v)]; the reading of a decimal literal in a [str] is the
    interpreter's. *)
Definition value_int (v : value) : result Z :=
  match v with
  | VInt n => Ok n
  | VBool b => Ok (if b then 1 else 0)
  | VFloat f => int_of_float f
  | VStr s =>
      match w_int_of_str W s with
      | Some n => Ok n
      | None => Raise (ValueError ("invalid literal for int() with base 10: '" +:+ s +:+ "'"))
      end
  | _ => Raise (TypeError ("int() argument must be a string, a bytes-like object or a real number, not '"
                           +:+ type_name v +:+ "'"))
  end.

(** *** Calls into the external libraries *)

(** [webdriver.Remote(command_executor=..., options=...)]: one connection
    attempt; a new driver object when it succeeds. *)
Definition webdriver_Remote (command_executor : string) (caps : Capabilities)
  : M Driver :=
  let* st := get in
  let* _ := emit (Connect command_executor caps) in
  let* _ := check (w_remote W (trace st) caps) in
  let* _ := modify new_object in
  ret (next_object st).

Definition driver_quit (d : Driver) : M unit :=
  let* st := get in
  let* _ := emit (Quit d) in
  check (w_quit W (trace st) d).

Definition driver_execute_script (d : Driver) (script : string) (args : value)
  : M value :=
  let* st := get in
  let* _ := emit (ExecuteScript d script args) in
  lift (w_execute_script W (trace st) d script args).

Definition driver_save_screenshot (d : Driver) (path : string) : M unit :=
  let* st := get in
  let* _ := emit (SaveScreenshot d path) in
  check (w_save_screenshot W (trace st) d path).

Definition driver_find_elements (d : Driver) (by_ value : string)
  : M (list Element) :=
  let* st := get in
  let* _ := emit (FindElements d by_ value) in
  lift (w_find_elements W (trace st) d by_ value).

(** [el.text] *)
Definition element_text (d : Driver) (el : Element) : M string :=
  let* st := get in
  let* _ := emit (ElementText d el) in
  lift (w_element_text W (trace st) d el).

Definition driver_get_window_size (d : Driver) : M value :=
  let* st := get in
  let* _ := emit (GetWindowSize d) in
  lift (w_get_window_size W (trace st) d).

(** [subprocess.Popen(args, ...)]: a new process object when the program
    starts. *)
Definition subprocess_Popen (args : list string) : M Process :=
  let* st := get in
  let* _ := emit (Popen args) in
  let* _ := check (w_popen W (trace st) args) in
  let* _ := modify new_object in
  ret (next_object st).

(** [subprocess.run(args, check=True)] *)
Definition subprocess_run (args : list string) : M unit :=
  let* st := get in
  let* _ := emit (Run args) in
  check (w_run W (trace st) args).

(** [BuiltIn().get_variable_value(name)]: [None] when the variable is
    not set. *)
Definition get_variable_value (name : string) : M (option string) :=
  lift (w_get_variable_value W name).

(** [os.path.join(root, *parts)] *)
Definition os_path_join (root : option string) (parts : list string) : M string :=
  match root with
  | Some r => ret (w_path_join W (r :: parts))
  | None =>
      raise (TypeError "expected str, bytes or os.PathLike object, not NoneType")
  end.

Definition cv2_imread (path : string) : M (option Image) :=
  let* st := get in ret (w_imread W (trace st) path).

(** [cv2.minMaxLoc(cv2.matchTemplate(cvtColor(screen), cvtColor(ref),
    TM_CCOEFF_NORMED))]; [cvtColor] rejects [None]. *)
Definition cv2_match (screen ref : option Image) : M MinMax :=
  match screen, ref with
  | Some s, Some r => lift (w_match_template W s r)
  | _, _ => raise (LibraryError "cv2.error" "(-215:Assertion failed) !_src.empty() in function 'cvtColor'")
  end.

Definition image_to_data (img : option Image) : M OcrData :=
  match img with
  | Some i => lift (w_image_to_data W i)
  | None => raise (TypeError "Unsupported image object")
  end.

(** *** Session registry *)

(** [section in self.config] *)
Definition config_contains (c : Config) (section : string) : bool :=
  String.eqb section "DEFAULT" || bool_decide (is_Some (sections c !! section)).

(** [self.config[section]], for a section that is there: its own options
    over the inherited ones. *)
Definition config_getitem (c : Config) (section : string) : Capabilities :=
  match sections c !! section with
  | Some opts => opts ∪ defaults c
  | None => defaults c
  end.

Definition get_device_id (dut_name : string) : M Capabilities :=
  let section := "DUT." +:+ dut_name in
  let* st := get in
  if negb (config_contains (config st) section) then
    raise (Exception ("DUT section '" +:+ section +:+ "' not found"))
  else ret (config_getitem (config st) section).

Definition start_appium_session (dut_name : string) : M Driver :=
  let* st := get in
  match dict_get (drivers st) dut_name with
  | Some driver => ret driver
  | None =>
      let* caps := get_device_id dut_name in
      let* _ := check (w_load_capabilities W caps) in
      let* driver := webdriver_Remote "http://127.0.0.1:4723" caps in
      let* _ := modify (fun st' => set_drivers (dict_set (drivers st') dut_name driver) st') in
      ret driver
  end.

(** [for driver in ...: driver.quit()] *)
Fixpoint quit_each (ds : list Driver) : M unit :=
  match ds with
  | [] => ret tt
  | driver :: rest => let* _ := driver_quit driver in quit_each rest
  end.

Definition stop_appium_session : M unit :=
  let* st := get in
  let* _ := quit_each (dict_values (drivers st)) in
  modify (set_drivers []).

(** *** Coordinate tap *)

Definition tap_by_coordinates (json_name key_name dut_name : string) : M string :=
  let* driver := start_appium_session dut_name in
  let* project_root := get_variable_value "${EXECDIR}" in
  let* json_file := os_path_join project_root ["Resources"; "Coordinates"; json_name] in
  if negb (w_isfile W json_file) then
    raise (AssertionError ("JSON file not found: " +:+ json_file))
  else
    let* data := lift (w_json_load W json_file) in
    let* present := lift (value_contains data key_name) in
    if negb present then
      raise (AssertionError ("Key '" +:+ key_name +:+ "' not found"))
    else
      let* entry_x := lift (value_getitem data key_name) in
      let* raw_x := lift (value_getitem entry_x "x") in
      let* x := lift (value_int raw_x) in
      let* entry_y := lift (value_getitem data key_name) in
      let* raw_y := lift (value_getitem entry_y "y") in
      let* y := lift (value_int raw_y) in
      let* _ := driver_execute_script driver "mobile: clickGesture"
                  (VDict [("x", VInt x); ("y", VInt y)]) in
      ret ("Tapped at (" +:+ str_of_int x +:+ "," +:+ str_of_int y +:+ ") on " +:+ dut_name).

(** *** OCR tap *)

(** [int(a + b / 2)] on two [int]s. *)
Definition center (a b : Z) : result Z :=
  match int_truediv b 2 with
  | Raise e => Raise e
  | Ok half =>
      match float_of_int a with
      | Raise e => Raise e
      | Ok fa => int_of_float (float_add fa half)
      end
  end.

(** The body of the loop at index [i]. *)
Definition tap_box (driver : Driver) (ocr_data : OcrData) (i : nat) : M bool :=
  let* x := lift (list_index (ocr_left ocr_data) i) in
  let* y := lift (list_index (ocr_top ocr_data) i) in
  let* w := lift (list_index (ocr_width ocr_data) i) in
  let* h := lift (list_index (ocr_height ocr_data) i) in
  let* cx := lift (center x w) in
  let* cy := lift (center y h) in
  let* _ := driver_execute_script driver "mobile: clickGesture"
              (VDict [("x", VInt cx); ("y", VInt cy)]) in
  ret true.

(** [for i, text in enumerate(ocr_data["text"]): ...], from index [i] on,
    and the [raise] after the loop. *)
Fixpoint tap_first_match (driver : Driver) (expected_text : string)
    (ocr_data : OcrData) (i : nat) (texts : list string) : M bool :=
  match texts with
  | [] => raise (AssertionError ("Text '" +:+ expected_text +:+ "' not found via OCR"))
  | text :: rest =>
      if String.eqb (strip text) expected_text then tap_box driver ocr_data i
      else tap_first_match driver expected_text ocr_data (S i) rest
  end.

Definition tap_by_text (expected_text dut_name : string) : M bool :=
  let* driver := start_appium_session dut_name in
  let* output_dir := get_variable_value "${OUTPUTDIR}" in
  let* screenshot_path := os_path_join output_dir ["ocr_screen.png"] in
  let* _ := driver_save_screenshot driver screenshot_path in
  let* img := cv2_imread screenshot_path in
  let* ocr_data := image_to_data img in
  tap_first_match driver expected_text ocr_data 0 (ocr_text ocr_data).

(** *** Image verification and click *)

Definition time_time : M string :=
  let* st := get in ret (w_time W (trace st)).

Definition verify_image_element (image_name dut_name : string) (threshold : float64)
  : M bool :=
  let* driver := start_appium_session dut_name in
  let* project_root := get_variable_value "${EXECDIR}" in
  let* output_dir := get_variable_value "${OUTPUTDIR}" in
  let* ref_path := os_path_join project_root ["Resources"; "images"; image_name] in
  let* ref_img := cv2_imread ref_path in
  let* now := time_time in
  let* screenshot_path := os_path_join output_dir ["verify_" +:+ now +:+ ".png"] in
  let* _ := driver_save_screenshot driver screenshot_path in
  let* screen := cv2_imread screenshot_path in
  let* res := cv2_match screen ref_img in
  if float_ge (max_val res) threshold then ret true
  else raise (AssertionError ("Image match failed: score=" +:+ format_3f (max_val res))).

Definition click_by_image (image_name dut_name : string) (threshold : float64)
  : M string :=
  let* driver := start_appium_session dut_name in
  let* project_root := get_variable_value "${EXECDIR}" in
  let* output_dir := get_variable_value "${OUTPUTDIR}" in
  let* ref_path := os_path_join project_root ["Resources"; "images"; image_name] in
  let* ref := cv2_imread ref_path in
  let* now := time_time in
  let* screenshot := os_path_join output_dir ["click_" +:+ now +:+ ".png"] in
  let* _ := driver_save_screenshot driver screenshot in
  let* screen := cv2_imread screenshot in
  let* res := cv2_match screen ref in
  if float_lt (max_val res) threshold then raise (AssertionError "Image not found")
  else
    match ref with
    | None => raise (AttributeError "'NoneType' object has no attribute 'shape'")
    | Some r =>
        let h := img_height r in
        let w := img_width r in
        let x := fst (max_loc res) + w / 2 in
        let y := snd (max_loc res) + h / 2 in
        let* _ := driver_execute_script driver "mobile: clickGesture"
                    (VDict [("x", VInt x); ("y", VInt y)]) in
        ret ("Clicked image at (" +:+ str_of_int x +:+ "," +:+ str_of_int y +:+ ")")
    end.

(** *** Shell command *)

Definition run_command (command dut_name : string) (timeout_ms : value) : M value :=
  let* driver := start_appium_session dut_name in
  let parts := split command in
  let* head := lift (list_index parts 0) in
  let* result := driver_execute_script driver "mobile: shell"
                   (VDict [("command", VStr head);
                           ("args", VList (map VStr (tail parts)));
                           ("timeout", timeout_ms)]) in
  match result with
  | VDict d =>
      match dict_get d "stdout" with
      | Some out => lift (value_strip out)
      | None => lift (value_strip (VStr EmptyString))
      end
  | _ => lift (value_strip result)
  end.

(** *** Text verification *)

(** [[el.text.strip() for el in elements if el.text.strip()]] *)
Fixpoint visible_texts (driver : Driver) (elements : list Element) : M (list string) :=
  match elements with
  | [] => ret []
  | el :: rest =>
      let* shown := element_text driver el in
      match strip shown with
      | EmptyString => visible_texts driver rest
      | _ =>
          let* text := element_text driver el in
          let* more := visible_texts driver rest in
          ret (strip text :: more)
      end
  end.

Definition verify_text_appium_full (expected_text dut_name : string) : M bool :=
  let* driver := start_appium_session dut_name in
  let* elements := driver_find_elements driver "xpath" "//*[normalize-space(@text) != '']" in
  let* texts := visible_texts driver elements in
  if existsb (String.eqb expected_text) texts then
    let* _ := emit (Log INFO (TextVerified expected_text)) in
    ret true
  else raise (AssertionError ("Exact text '" +:+ expected_text +:+ "' not found")).

(** *** Keys and gestures *)

Definition press_key (keycode : Z) (dut_name : string) : M unit :=
  let* driver := start_appium_session dut_name in
  let* _ := driver_execute_script driver "mobile: shell"
              (VDict [("command", VStr "input");
                      ("args", VList [VStr "keyevent"; VStr (str_of_int keycode)])]) in
  ret tt.

(** [int(size[key] * factor)] *)
Definition scaled (size : value) (key : string) (factor : float64) : result Z :=
  match value_getitem size key with
  | Raise e => Raise e
  | Ok v =>
      match value_mul_float v factor with
      | Raise e => Raise e
      | Ok f => int_of_float f
      end
  end.

(** The [mobile: scrollGesture] both gesture keywords send, over the band
    of the screen given by the four fractions. *)
Definition scroll_gesture (driver : Driver) (direction : string) (percent : float64)
    (left top width height : float64) : M unit :=
  let* size := driver_get_window_size driver in
  let* l := lift (scaled size "width" left) in
  let* t := lift (scaled size "height" top) in
  let* w := lift (scaled size "width" width) in
  let* h := lift (scaled size "height" height) in
  let* _ := driver_execute_script driver "mobile: scrollGesture"
              (VDict [("direction", VStr direction); ("percent", VFloat percent);
                      ("left", VInt l); ("top", VInt t);
                      ("width", VInt w); ("height", VInt h)]) in
  ret tt.

Definition swipe_left_right (dut_name direction : string) (percent : float64) : M unit :=
  let* driver := start_appium_session dut_name in
  scroll_gesture driver direction percent f01 f035 f08 f03.

Definition scroll_top_bottom (dut_name direction : string) (percent : float64) : M unit :=
  let* driver := start_appium_session dut_name in
  scroll_gesture driver direction percent f01 f015 f08 f07.

(** *** Screen recording *)

Definition start_screen_recording (dut_name test_name : string) : M string :=
  let* caps := get_device_id dut_name in
  let device_id := caps !! "device_id" in
  let* st := get in
  let timestamp := w_now W (trace st) in
  let path := "/sdcard/" +:+ default "None" device_id +:+ "_" +:+ timestamp +:+ "_"
              +:+ test_name +:+ ".mp4" in
  match device_id with
  | None => raise (TypeError "expected str, bytes or os.PathLike object, not NoneType")
  | Some id =>
      let* proc := subprocess_Popen ["adb"; "-s"; id; "shell"; "screenrecord"; path] in
      let* _ := modify (set_recording (mkRecording proc path id)) in
      ret path
  end.

Definition stop_screen_recording (dut_name local_video_path : string) : M string :=
  let* st := get in
  match recording st with
  | None => raise (AttributeError "'AppiumKeywords' object has no attribute '_screen_proc'")
  | Some r =>
      let* _ := emit (Terminate (_screen_proc r)) in
      let* _ := emit (Wait (_screen_proc r)) in
      let* _ := subprocess_run ["adb"; "-s"; _device_id r; "pull"; _device_video_path r;
                                local_video_path] in
      ret local_video_path
  end.

Definition Test_Video (video_path : string) (width : Z) (title : string) : M unit :=
  if negb (w_exists W video_path) then emit (Log WARN (VideoNotFound video_path))
  else emit (Log INFO (VideoEmbedded video_path width title)).

(** *** Construction and the dependency check *)

(** [required_packages], in the order of the literal. *)
Definition required_packages : list (string * string) :=
  [("robotframework", "robot");
   ("appium-python-client", "appium");
   ("selenium", "selenium");
   ("opencv-python", "cv2");
   ("pytesseract", "pytesseract")].

(** [for pkg_name, import_name in ...: if find_spec(import_name) is None: raise] *)
Fixpoint check_packages (pkgs : list (string * string)) : M unit :=
  match pkgs with
  | [] => ret tt
  | (pkg_name, import_name) :: rest =>
      let* _ := emit (FindSpec import_name) in
      if negb (w_find_spec W import_name) then raise (MissingDependency pkg_name)
      else check_packages rest
  end.

(** Truth value of an optional [str]. *)
Definition truthy (o : option string) : bool :=
  match o with
  | Some (String _ _) => true
  | _ => false
  end.

(** The function [_check_runtime_dependencies(self)], defined at module
    level after the class. *)
Definition _check_runtime_dependencies : M unit :=
  let* _ := check_packages required_packages in
  let* _ := emit (Log INFO AllDependenciesInstalled) in
  let* _ := match w_which W "adb" with
            | None => emit (Log WARN AdbNotFound)
            | Some _ => emit (Log INFO AdbDetected)
            end in
  let tesseract_path :=
    if truthy (w_getenv W "TESSERACT_CMD") then w_getenv W "TESSERACT_CMD"
    else w_which W "tesseract" in
  match tesseract_path with
  | Some (String c p) =>
      let* _ := modify (set_tesseract_cmd (String c p)) in
      emit (Log INFO (TesseractDetected (String c p)))
  | _ => emit (Log WARN TesseractNotFound)
  end.

(** The names bound in the body of [class AppiumKeywords], in source
    order: the attributes an instance inherits from its class. *)
Definition class_namespace : list string :=
  ["__init__"; "get_device_id"; "start_appium_session"; "stop_appium_session";
   "verify_text_appium_full"; "tap_by_coordinates"; "tap_by_text";
   "verify_image_element"; "click_by_image"; "run_command"; "press_key";
   "swipe_left_right"; "scroll_top_bottom"; "start_screen_recording";
   "stop_screen_recording"; "Test_Video"].

(** The names [__init__] has assigned on [self] when it reaches the
    [try]. *)
Definition instance_namespace : list string := ["drivers"; "config"].

(** [self.<name>] for a name that [object] does not define: found on the
    instance or on the class, or [AttributeError]. *)
Definition getattr_self (name : string) : result unit :=
  if bool_decide (name ∈ instance_namespace) || bool_decide (name ∈ class_namespace)
  then Ok tt
  else Raise (AttributeError
                ("'AppiumKeywords' object has no attribute '" +:+ name +:+ "'")).

(** [AppiumKeywords.__init__] *)
Definition __init__ : M unit :=
  let* _ := modify (set_drivers []) in
  let base_path := w_module_dir W in
  let ini_path :=
    w_path_join W [base_path; ".."; "Configurations"; "configurations.ini"] in
  let* cfg := lift (w_read_ini W ini_path) in
  let* _ := modify (set_config cfg) in
  let tesseract_cmd := w_getenv W "TESSERACT_CMD" in
  let* _ := match tesseract_cmd with
            | Some (String c p) => modify (set_tesseract_cmd (String c p))
            | _ => ret tt
            end in
  try_except
    (let* _ := lift (getattr_self "_check_runtime_dependencies") in
     _check_runtime_dependencies)
    (fun e => emit (Log WARN (DependencyCheckSkipped e))).

(** *** A test run: construction, then keywords one after the other *)

Inductive call : Type :=
| Get_Device_Id (dut_name : string)
| Start_Appium_Session (dut_name : string)
| Stop_Appium_Session
| Tap_By_Coordinates (json_name key_name dut_name : string)
| Tap_By_Text (expected_text dut_name : string)
| Verify_Image_Element (image_name dut_name : string) (threshold : float64)
| Click_By_Image (image_name dut_name : string) (threshold : float64)
| Run_Command (command dut_name : string) (timeout_ms : value)
| Verify_Text_Appium_Full (expected_text dut_name : string)
| Press_Key (keycode : Z) (dut_name : string)
| Swipe_Left_Right (dut_name direction : string) (percent : float64)
| Scroll_Top_Bottom (dut_name direction : string) (percent : float64)
| Start_Screen_Recording (dut_name test_name : string)
| Stop_Screen_Recording (dut_name local_video_path : string)
| Test_Video_ (video_path : string) (width : Z) (title : string).

(** The object after the keyword, whether it returned or raised. *)
Definition after (c : call) (st : State) : State :=
  match c with
  | Get_Device_Id d => snd (get_device_id d st)
  | Start_Appium_Session d => snd (start_appium_session d st)
  | Stop_Appium_Session => snd (stop_appium_session st)
  | Tap_By_Coordinates j k d => snd (tap_by_coordinates j k d st)
  | Tap_By_Text t d => snd (tap_by_text t d st)
  | Verify_Image_Element i d t => snd (verify_image_element i d t st)
  | Click_By_Image i d t => snd (click_by_image i d t st)
  | Run_Command c d t => snd (run_command c d t st)
  | Verify_Text_Appium_Full t d => snd (verify_text_appium_full t d st)
  | Press_Key k d => snd (press_key k d st)
  | Swipe_Left_Right d dir p => snd (swipe_left_right d dir p st)
  | Scroll_Top_Bottom d dir p => snd (scroll_top_bottom d dir p st)
  | Start_Screen_Recording d t => snd (start_screen_recording d t st)
  | Stop_Screen_Recording d l => snd (stop_screen_recording d l st)
  | Test_Video_ v w t => snd (Test_Video v w t st)
  end.

Definition after_all (cs : list call) (st : State) : State :=
  fold_left (fun s c => after c s) cs st.

(** The states a library object can be in. *)
Definition reachable (st : State) : Prop :=
  exists st0 cs, __init__ blank = (Ok tt, st0) /\ st = after_all cs st0.

End Keywords.

(** ** Vocabulary of the statements *)

(** [frame st st']: from [st] to [st'] the registry and the
    configuration have not changed. *)
Definition frame (st st' : State) : Prop :=
  drivers st' = drivers st /\ config st' = config st.

(** A computation that leaves the registry alone, however it ends. *)
Definition keeps {A} (m : M A) : Prop := forall st, frame st (snd (m st)).

(** What must hold of the registry at any time: one entry per name, and
    only names that have a section. *)
Definition registry_ok (st : State) : Prop :=
  NoDup (dict_keys (drivers st)) /\
  forall k, k ∈ dict_keys (drivers st) ->
            config_contains (config st) ("DUT." +:+ k) = true.

(** What the lookup [self._check_runtime_dependencies] raises. *)
Definition no_check_attribute : exn :=
  AttributeError "'AppiumKeywords' object has no attribute '_check_runtime_dependencies'".

Section Constructed.
Context (W : World).

(** Where [__init__] looks for the configuration file. *)
Definition ini_path : string :=
  w_path_join W [w_module_dir W; ".."; "Configurations"; "configurations.ini"].

(** The object [__init__] builds once the configuration file is read. *)
Definition constructed (cfg : Config) : State :=
  mkState [] cfg None
    (match w_getenv W "TESSERACT_CMD" with
     | Some (String c p) => Some (String c p)
     | _ => None
     end)
    0%nat
    [Log WARN (DependencyCheckSkipped no_check_attribute)].

End Constructed.

Section Reaches.
Context (W : World).

(** [verify_image_element] (with [shot_prefix] "verify_") or
    [click_by_image] ("click_") gets as far as the comparison: the session
    is there, both Robot variables are set, the reference image and the
    screenshot are read, and template matching answers [res].  [st2] is
    the object at that point. *)
Definition reaches_match (shot_prefix image_name dut_name : string) (st : State)
    (driver : Driver) (ref : Image) (res : MinMax) (st2 : State) : Prop :=
  exists st1 root out screen,
    start_appium_session W dut_name st = (Ok driver, st1) /\
    w_get_variable_value W "${EXECDIR}" = Ok (Some root) /\
    w_get_variable_value W "${OUTPUTDIR}" = Ok (Some out) /\
    w_imread W (trace st1) (w_path_join W [root; "Resources"; "images"; image_name])
      = Some ref /\
    let shot := w_path_join W [out; shot_prefix +:+ w_time W (trace st1) +:+ ".png"] in
    w_save_screenshot W (trace st1) driver shot = None /\
    st2 = record_event (SaveScreenshot driver shot) st1 /\
    w_imread W (trace st2) shot = Some screen /\
    w_match_template W screen ref = Ok res.

(** [tap_by_text] gets as far as the loop over the OCR result
    [ocr_data]. *)
Definition reaches_ocr (dut_name : string) (st : State)
    (driver : Driver) (ocr_data : OcrData) (st2 : State) : Prop :=
  exists st1 out img,
    start_appium_session W dut_name st = (Ok driver, st1) /\
    w_get_variable_value W "${OUTPUTDIR}" = Ok (Some out) /\
    let shot := w_path_join W [out; "ocr_screen.png"] in
    w_save_screenshot W (trace st1) driver shot = None /\
    st2 = record_event (SaveScreenshot driver shot) st1 /\
    w_imread W (trace st2) shot = Some img /\
    w_image_to_data W img = Ok ocr_data.

(** The gesture both tap keywords and [click_by_image] send. *)
Definition click_gesture (driver : Driver) (x y : Z) : event :=
  ExecuteScript driver "mobile: clickGesture" (VDict [("x", VInt x); ("y", VInt y)]).

(** What a keyword returns after a last call to the driver: [r] if the
    call returned, the driver's exception otherwise. *)
Definition after_script {A} (st : State) (driver : Driver) (script : string)
    (args : value) (r : A) : result A * State :=
  (match w_execute_script W (trace st) driver script args with
   | Ok _ => Ok r
   | Raise e => Raise e
   end,
   record_event (ExecuteScript driver script args) st).

(** From [st] on the keyword made one more call, the click at [(x, y)],
    and returned [r] unless that call raised. *)
Definition clicks_at {A} (outcome : result A * State) (st : State)
    (driver : Driver) (x y : Z) (r : A) : Prop :=
  outcome = after_script st driver "mobile: clickGesture"
              (VDict [("x", VInt x); ("y", VInt y)]) r /\
  trace (snd outcome) = (trace st ++ [click_gesture driver x y])%list.

End Reaches.

(** The binary64 number of value [x * 2^e], for [0 < x < 2^53]: the
    mantissa is [x] moved up to 53 bits. *)
Definition normal (sx : bool) (x e : Z) : float64 :=
  S754_finite sx (Z.to_pos (x * 2 ^ (prec - Zdigits2 x))) (e + Zdigits2 x - prec).

(** The box [i] of an OCR result as [(text, left, top, width, height)]. *)
Definition ocr_box (o : OcrData) (i : nat) : option (string * Z * Z * Z * Z) :=
  match ocr_text o !! i, ocr_left o !! i, ocr_top o !! i,
        ocr_width o !! i, ocr_height o !! i with
  | Some t, Some x, Some y, Some w, Some h => Some (t, x, y, w, h)
  | _, _, _, _, _ => None
  end.

(** A command with a character that is not whitespace. *)
Fixpoint has_token (s : string) : bool :=
  match s with
  | EmptyString => false
  | String c s' => negb (isspace c) || has_token s'
  end.

(** A string without whitespace and not empty: what [split] yields. *)
Fixpoint no_space (s : string) : bool :=
  match s with
  | EmptyString => true
  | String c s' => negb (isspace c) && no_space s'
  end.
Definition is_token (s : string) : bool :=
  match s with EmptyString => false | _ => no_space s end.

(** ** A small installation, for examples

    One device, [Phone]; a coordinate file with one key; reference images
    of 60 by 40 pixels; an OCR result with four boxes.  The outcome of a
    connection, of a [quit], the match score and the answer of the device
    shell are left open. *)

Definition demo_caps : Capabilities :=
  {[ "platformname" := "Android"; "device_id" := "emulator-5554" ]}.

Definition demo_config : Config :=
  mkConfig {[ "DUT.Phone" := demo_caps ]} ∅.

Definition demo_coordinates : value :=
  VDict [("login_button", VDict [("x", VInt 100); ("y", VInt 200)])].

Definition demo_ocr : OcrData :=
  mkOcrData ["Sign"; " Login "; "Login"; EmptyString]
            [10; 40; 90; 0] [20; 20; 60; 0] [30; 41; 40; 0] [12; 12; 13; 0].

Definition demo_world_with (remote : list event -> option exn)
    (quit : Driver -> option exn) (score : float64) (shell_answer : value) : World :=
  {| w_load_capabilities := fun _ => None;
     w_remote := fun tr _ => remote tr;
     w_quit := fun _ d => quit d;
     w_execute_script := fun _ _ script _ =>
       if String.eqb script "mobile: shell" then Ok shell_answer else Ok VNone;
     w_save_screenshot := fun _ _ _ => None;
     w_find_elements := fun _ _ _ _ => Ok [0%nat; 1%nat];
     w_element_text := fun _ _ el => Ok (if Nat.eqb el 0 then " Login " else EmptyString);
     w_get_window_size := fun _ _ => Ok (VDict [("width", VInt 1080); ("height", VInt 1920)]);
     w_get_variable_value := fun name =>
       if String.eqb name "${EXECDIR}" then Ok (Some "/proj")
       else if String.eqb name "${OUTPUTDIR}" then Ok (Some "/out")
       else Ok None;
     w_module_dir := "/site-packages/appium_vision";
     w_path_join := String.concat "/";
     w_isfile := fun path => String.eqb path "/proj/Resources/Coordinates/home.json";
     w_json_load := fun _ => Ok demo_coordinates;
     w_time := fun _ => "1700000000.25";
     w_now := fun _ => "20240101_120000";
     w_exists := fun _ => false;
     w_popen := fun _ _ => None;
     w_run := fun _ _ => None;
     w_getenv := fun _ => None;
     w_which := fun _ => None;
     w_find_spec := fun _ => true;
     w_read_ini := fun _ => Ok demo_config;
     w_int_of_str := fun _ => None;
     w_imread := fun _ _ => Some (mkImage 40 60 0);
     w_match_template := fun _ _ => Ok (mkMinMax (S754_zero false) score (0, 0) (100, 200));
     w_image_to_data := fun _ => Ok demo_ocr |}.

Definition demo_world : World :=
  demo_world_with (fun _ => None) (fun _ => None) f085 (VStr "  42  ").

(** The server refuses every connection. *)
Definition server_down : exn :=
  LibraryError "WebDriverException" "connection refused".
Definition demo_world_server_down : World :=
  demo_world_with (fun _ => Some server_down) (fun _ => None) f085 VNone.

(** The library object of the installation, and the same with the
    session of [Phone] open. *)
Definition demo_object : State := constructed demo_world demo_config.
Definition demo_session : State :=
  snd (start_appium_session demo_world "Phone" demo_object).

(** The reference image and the match result of the installation, and
    the library object once a keyword has taken its screenshot. *)
Definition demo_ref : Image := mkImage 40 60 0.
Definition demo_match (score : float64) : MinMax :=
  mkMinMax (S754_zero false) score (0, 0) (100, 200).
Definition demo_after_shot (path : string) : State :=
  record_event (SaveScreenshot 0%nat path) demo_session.

(** ** Vocabulary of the further statements *)

(** The events that open a connection and those that end a recording
    process; the two together are the marks of a trace. *)
Definition is_connect (ev : event) : bool :=
  match ev with Connect _ _ => true | _ => false end.
Definition is_terminate (ev : event) : bool :=
  match ev with Terminate _ => true | _ => false end.
Definition is_mark (ev : event) : bool := is_connect ev || is_terminate ev.

Definition connects (tr : list event) : list event := List.filter is_connect tr.
Definition terminates (tr : list event) : list event := List.filter is_terminate tr.
Definition marks (tr : list event) : list event := List.filter is_mark tr.

(** [quiet st st']: from [st] to [st'] the registry, the configuration and
    the recording attributes are the same, objects may have been created,
    and the trace has grown by events that are not marks. *)
Definition quiet (st st' : State) : Prop :=
  drivers st' = drivers st /\ config st' = config st /\
  recording st' = recording st /\
  (next_object st <= next_object st')%nat /\
  marks (trace st') = marks (trace st).

Definition quietly {A} (m : M A) : Prop := forall st, quiet st (snd (m st)).

(** The drivers of the registry are in the order they were created, and
    all created already. *)
Definition registry_ordered (st : State) : Prop :=
  StronglySorted lt (dict_values (drivers st)) /\
  Forall (fun d => (d < next_object st)%nat) (dict_values (drivers st)).

(** The recording process, when there is one, and every process the trace
    says was terminated, are created already. *)
Definition processes_known (st : State) : Prop :=
  (forall r, recording st = Some r -> (_screen_proc r < next_object st)%nat) /\
  (forall p, Terminate p ∈ trace st -> (p < next_object st)%nat).

(** The process [p] is older than the one of the recording attributes and
    the trace does not show it terminated. *)
Definition orphaned (p : Process) (st : State) : Prop :=
  (p < next_object st)%nat /\
  (forall r, recording st = Some r -> (p < _screen_proc r)%nat) /\
  (Terminate p ∉ trace st).

(** The device a keyword asks a session for. *)
Definition session_of (c : call) : option string :=
  match c with
  | Start_Appium_Session d | Tap_By_Coordinates _ _ d | Tap_By_Text _ d
  | Verify_Image_Element _ d _ | Click_By_Image _ d _ | Run_Command _ d _
  | Verify_Text_Appium_Full _ d | Press_Key _ d
  | Swipe_Left_Right d _ _ | Scroll_Top_Bottom d _ _ => Some d
  | Get_Device_Id _ | Stop_Appium_Session | Start_Screen_Recording _ _
  | Stop_Screen_Recording _ _ | Test_Video_ _ _ _ => None
  end.

Definition is_start_recording (c : call) : bool :=
  match c with Start_Screen_Recording _ _ => true | _ => false end.
Definition is_stop_recording (c : call) : bool :=
  match c with Stop_Screen_Recording _ _ => true | _ => false end.

(** What [stop_screen_recording] runs for the recording [r]. *)
Definition pull_command (r : Recording) (local_video_path : string) : list string :=
  ["adb"; "-s"; _device_id r; "pull"; _device_video_path r; local_video_path].

(** The texts [verify_text_appium_full] compares with, when element [el]
    reads [text el]: stripped, the blank ones left out. *)
Definition shown_texts (text : Element -> string) (elements : list Element) : list string :=
  List.filter (fun t => negb (String.eqb t EmptyString)) (map (fun el => strip (text el)) elements).

(** The reads of [el.text] the comprehension makes: one for the test,
    and one more for an element that passes it. *)
Definition text_reads (driver : Driver) (text : Element -> string) (elements : list Element)
  : list event :=
  flat_map (fun el =>
              if String.eqb (strip (text el)) EmptyString then [ElementText driver el]
              else [ElementText driver el; ElementText driver el]) elements.

(** The object after the events [evs] were recorded, in order. *)
Definition record_events (evs : list event) (st : State) : State :=
  fold_left (fun s ev => record_event ev s) evs st.

(** [int(n * c)] for a screen size [n]. *)
Definition scaled_size (n : Z) (c : float64) : result Z :=
  scaled (VDict [("size", VInt n)]) "size" c.

(** [p] holds of the [count] integers from [n] on. *)
Fixpoint all_from (count : nat) (n : Z) (p : Z -> bool) : bool :=
  match count with
  | O => true
  | S count' => p n && all_from count' (n + 1) p
  end.

(** [int(n * c)] lies between [lo n] and [hi n]. *)
Definition scaled_between (c : float64) (lo hi : Z -> Z) (n : Z) : bool :=
  match scaled_size n c with
  | Ok z => (lo n <=? z)%Z && (z <=? hi n)%Z
  | Raise _ => false
  end.

(** ** A second installation, for examples

    Two devices, [Phone] and [Cluster].  What a [quit] does, the content
    of the coordinate file, the image files, the installed packages, the
    environment and the programs on [PATH] are left open. *)

Definition lab_config : Config :=
  mkConfig {[ "DUT.Phone" := {[ "device_id" := "emulator-5554" ]};
              "DUT.Cluster" := {[ "device_id" := "emulator-5556" ]} ]} ∅.

(** What the elements of the second installation read. *)
Definition lab_text (el : Element) : string :=
  match el with 0%nat => " Settings" | 1%nat => "  " | _ => "Wi-Fi " end.

Definition lab_world_with (quit : Driver -> option exn) (coordinates : value)
    (images : string -> option Image)
    (installed : string -> bool) (env path : string -> option string) : World :=
  {| w_load_capabilities := fun _ => None;
     w_remote := fun _ _ => None;
     w_quit := fun _ d => quit d;
     w_execute_script := fun _ _ _ _ => Ok VNone;
     w_save_screenshot := fun _ _ _ => None;
     w_find_elements := fun _ _ _ _ => Ok [0%nat; 1%nat; 2%nat];
     w_element_text := fun _ _ el => Ok (lab_text el);
     w_get_window_size := fun _ _ => Ok (VDict [("width", VInt 1080); ("height", VInt 1920)]);
     w_get_variable_value := fun name =>
       if String.eqb name "${EXECDIR}" then Ok (Some "/proj")
       else if String.eqb name "${OUTPUTDIR}" then Ok (Some "/out")
       else Ok None;
     w_module_dir := "/site-packages/appium_vision";
     w_path_join := String.concat "/";
     w_isfile := fun _ => true;
     w_json_load := fun _ => Ok coordinates;
     w_time := fun _ => "1700000000.25";
     w_now := fun _ => "20240101_120000";
     w_exists := fun _ => false;
     w_popen := fun _ _ => None;
     w_run := fun _ _ => None;
     w_getenv := env;
     w_which := path;
     w_find_spec := installed;
     w_read_ini := fun _ => Ok lab_config;
     w_int_of_str := fun _ => None;
     w_imread := fun _ path => images path;
     w_match_template := fun _ _ => Ok (mkMinMax (S754_zero false) f085 (0, 0) (100, 200));
     w_image_to_data := fun _ => Ok demo_ocr |}.

Definition lab_world : World :=
  lab_world_with (fun _ => None) demo_coordinates (fun _ => Some demo_ref)
    (fun _ => true) (fun _ => None) (fun _ => None).

(** The library object of the second installation, and the same with the
    sessions of [Phone] and [Cluster] open, in that order. *)
Definition lab_object : State := constructed lab_world lab_config.
Definition lab_sessions : State :=
  after_all lab_world [Start_Appium_Session "Phone"; Start_Appium_Session "Cluster"] lab_object.

(** The second driver refuses to quit. *)
Definition session_gone : exn :=
  LibraryError "InvalidSessionIdException" "session is terminated or not started".
Definition lab_world_quit_fails : World :=
  lab_world_with (fun d => if Nat.eqb d 1 then Some session_gone else None)
    demo_coordinates (fun _ => Some demo_ref) (fun _ => true) (fun _ => None) (fun _ => None).

(** A coordinate file whose entries are not all well formed. *)
Definition odd_coordinates : value :=
  VDict [("back", VDict [("y", VInt 40)]);
         ("menu", VDict [("x", VInt 30)]);
         ("home", VList [VInt 540; VInt 1800])].
Definition lab_world_odd_coordinates : World :=
  lab_world_with (fun _ => None) odd_coordinates (fun _ => Some demo_ref)
    (fun _ => true) (fun _ => None) (fun _ => None).

(** OpenCV is not installed. *)
Definition lab_world_no_cv2 : World :=
  lab_world_with (fun _ => None) demo_coordinates (fun _ => Some demo_ref)
    (fun import => negb (String.eqb import "cv2")) (fun _ => None) (fun _ => None).

(** Tesseract is on [PATH] and [TESSERACT_CMD] names another binary;
    [adb] is not installed. *)
Definition lab_world_tesseract : World :=
  lab_world_with (fun _ => None) demo_coordinates (fun _ => Some demo_ref) (fun _ => true)
    (fun name => if String.eqb name "TESSERACT_CMD" then Some "/opt/tesseract/bin/tesseract"
                 else None)
    (fun program => if String.eqb program "tesseract" then Some "/usr/bin/tesseract" else None).

(** The reference image [logo.png] is not on disk. *)
Definition lab_world_no_reference : World :=
  lab_world_with (fun _ => None) demo_coordinates
    (fun path => if String.eqb path "/proj/Resources/images/logo.png" then None
                 else Some demo_ref)
    (fun _ => true) (fun _ => None) (fun _ => None).

(** What [cv2.cvtColor] raises on [None]. *)
Definition cv2_empty_image : exn :=
  LibraryError "cv2.error" "(-215:Assertion failed) !_src.empty() in function 'cvtColor'".

(** What [v.strip()] raises when [v] is not a [str]. *)
Definition no_strip (v : value) : exn :=
  AttributeError ("'" +:+ type_name v +:+ "' object has no attribute 'strip'").

(** A [str]. *)
Definition is_str (v : value) : bool :=
  match v with VStr _ => true | _ => false end.

(** ** Association lists as dictionaries *)

Section DictFacts.
Context {V : Type}.
Implicit Types (d : list (string * V)) (k : string) (v : V).

Lemma dict_get_set_eq d k v : dict_get (dict_set d k v) k = Some v.
Proof.
  induction d as [|[k' v'] d IH]; simpl.
  - by rewrite String.eqb_refl.
  - destruct (String.eqb k' k) eqn:E; simpl; rewrite E; auto.
Qed.

Lemma dict_get_set_ne d k k' v :
  k <> k' -> dict_get (dict_set d k v) k' = dict_get d k'.
Proof.
  intros Hne. induction d as [|[k0 v0] d IH]; simpl.
  - destruct (String.eqb k k') eqn:E; auto.
    apply String.eqb_eq in E. contradiction.
  - destruct (String.eqb k0 k) eqn:E; simpl.
    + apply String.eqb_eq in E. subst k0.
      destruct (String.eqb k k') eqn:E'; auto.
      apply String.eqb_eq in E'. contradiction.
    + by rewrite IH.
Qed.

Lemma dict_get_None_keys d k : dict_get d k = None <-> k ∉ dict_keys d.
Proof.
  induction d as [|[k0 v0] d IH]; simpl.
  - split; [intros _; apply not_elem_of_nil | done].
  - rewrite not_elem_of_cons. destruct (String.eqb k0 k) eqn:E.
    + apply String.eqb_eq in E. subst. split; [done | intros [? _]; done].
    + apply String.eqb_neq in E. rewrite IH. split; [intros ?; split; auto | intros [_ ?]; done].
Qed.

Lemma dict_get_Some_keys d k v : dict_get d k = Some v -> k ∈ dict_keys d.
Proof.
  intros H. destruct (decide (k ∈ dict_keys d)) as [|Hn]; [done|].
  apply dict_get_None_keys in Hn. congruence.
Qed.

(** A new key goes to the end. *)
Lemma dict_set_fresh d k v : dict_get d k = None -> dict_set d k v = (d ++ [(k, v)])%list.
Proof.
  induction d as [|[k0 v0] d IH]; simpl; [done|].
  destruct (String.eqb k0 k); [done|]. intros H. by rewrite IH.
Qed.

Lemma dict_keys_set d k v :
  forall k', k' ∈ dict_keys (dict_set d k v) <-> k' = k \/ k' ∈ dict_keys d.
Proof.
  intros k'. induction d as [|[k0 v0] d IH]; simpl.
  - rewrite list_elem_of_singleton. split; [auto | intros [?|H]; [done | by apply elem_of_nil in H]].
  - destruct (String.eqb k0 k) eqn:E; simpl.
    + apply String.eqb_eq in E. subst k0. rewrite elem_of_cons. naive_solver.
    + rewrite !elem_of_cons, IH. naive_solver.
Qed.

(** Assignment never duplicates a key. *)
Lemma dict_set_NoDup d k v : NoDup (dict_keys d) -> NoDup (dict_keys (dict_set d k v)).
Proof.
  induction d as [|[k0 v0] d IH]; simpl; intros Hnd.
  - apply NoDup_singleton.
  - apply NoDup_cons in Hnd as [Hnotin Hnd].
    destruct (String.eqb k0 k) eqn:E; simpl.
    + apply NoDup_cons; done.
    + apply NoDup_cons. split; [|auto].
      rewrite dict_keys_set. intros [->|?]; [|done].
      by rewrite String.eqb_refl in E.
Qed.

End DictFacts.

(** ** How the keywords move the registry *)

Section Registry.
Context (W : World).

Lemma frame_refl st : frame st st.
Proof. by repeat split. Qed.

Lemma frame_trans st1 st2 st3 : frame st1 st2 -> frame st2 st3 -> frame st1 st3.
Proof. unfold frame. intros (?&?) (?&?). split; congruence. Qed.

Lemma keeps_ret {A} (a : A) : keeps (ret a).
Proof. intros st. apply frame_refl. Qed.

Lemma keeps_raise {A} e : keeps (@raise A e).
Proof. intros st. apply frame_refl. Qed.

Lemma keeps_lift {A} (r : result A) : keeps (lift r).
Proof. intros st. apply frame_refl. Qed.

Lemma keeps_get : keeps get.
Proof. intros st. apply frame_refl. Qed.

Lemma keeps_check o : keeps (check o).
Proof. destruct o; [apply keeps_raise | apply keeps_ret]. Qed.

Lemma keeps_emit ev : keeps (emit ev).
Proof. intros st. by repeat split. Qed.

Lemma keeps_bind {A B} (m : M A) (k : A -> M B) :
  keeps m -> (forall a, keeps (k a)) -> keeps (bind m k).
Proof.
  intros Hm Hk st. unfold bind. specialize (Hm st).
  destruct (m st) as [[a|e] st1]; simpl in *; [|done].
  eapply frame_trans; [exact Hm | apply Hk].
Qed.

Create HintDb keeps.
#[local] Hint Resolve keeps_ret keeps_raise keeps_lift keeps_get keeps_check
  keeps_emit : keeps.

Ltac keeps_step :=
  match goal with
  | |- keeps (bind _ _) => apply keeps_bind; [|intros ?]
  | |- keeps (match ?x with _ => _ end) => destruct x
  | |- keeps (if ?b then _ else _) => destruct b
  | |- keeps _ => solve [auto with keeps]
  | |- keeps _ => progress cbv zeta
  end.
Ltac keeps_auto := repeat keeps_step.

Lemma keeps_driver_quit d : keeps (driver_quit W d).
Proof. unfold driver_quit. keeps_auto. Qed.

Lemma keeps_driver_execute_script d script args :
  keeps (driver_execute_script W d script args).
Proof. unfold driver_execute_script. keeps_auto. Qed.

Lemma keeps_driver_save_screenshot d path : keeps (driver_save_screenshot W d path).
Proof. unfold driver_save_screenshot. keeps_auto. Qed.

Lemma keeps_driver_find_elements d by_ value : keeps (driver_find_elements W d by_ value).
Proof. unfold driver_find_elements. keeps_auto. Qed.

Lemma keeps_element_text d el : keeps (element_text W d el).
Proof. unfold element_text. keeps_auto. Qed.

Lemma keeps_driver_get_window_size d : keeps (driver_get_window_size W d).
Proof. unfold driver_get_window_size. keeps_auto. Qed.

Lemma keeps_new_object : keeps (modify new_object).
Proof. intros st. by split. Qed.

Lemma keeps_set_recording r : keeps (modify (set_recording r)).
Proof. intros st. by split. Qed.

Lemma keeps_get_variable_value name : keeps (get_variable_value W name).
Proof. unfold get_variable_value. keeps_auto. Qed.

Lemma keeps_os_path_join root parts : keeps (os_path_join W root parts).
Proof. unfold os_path_join. keeps_auto. Qed.

Lemma keeps_cv2_imread path : keeps (cv2_imread W path).
Proof. unfold cv2_imread. keeps_auto. Qed.

Lemma keeps_cv2_match screen ref : keeps (cv2_match W screen ref).
Proof. unfold cv2_match. keeps_auto. Qed.

Lemma keeps_image_to_data img : keeps (image_to_data W img).
Proof. unfold image_to_data. keeps_auto. Qed.

Lemma keeps_time_time : keeps (time_time W).
Proof. unfold time_time. keeps_auto. Qed.

Lemma keeps_quit_each ds : keeps (quit_each W ds).
Proof.
  induction ds as [|d ds IH]; simpl; [apply keeps_ret|].
  apply keeps_bind; [apply keeps_driver_quit | intros _; exact IH].
Qed.

Lemma keeps_get_device_id name : keeps (get_device_id name).
Proof. unfold get_device_id. keeps_auto. Qed.

#[local] Hint Resolve keeps_driver_quit keeps_driver_execute_script
  keeps_driver_find_elements keeps_element_text keeps_driver_get_window_size
  keeps_new_object keeps_set_recording
  keeps_driver_save_screenshot keeps_get_variable_value keeps_os_path_join
  keeps_cv2_imread keeps_cv2_match keeps_image_to_data keeps_time_time
  keeps_quit_each keeps_get_device_id : keeps.

Lemma keeps_tap_box d ocr i : keeps (tap_box W d ocr i).
Proof. unfold tap_box. keeps_auto. Qed.

Lemma keeps_tap_first_match d expected ocr texts :
  forall i, keeps (tap_first_match W d expected ocr i texts).
Proof.
  induction texts as [|t texts IH]; intros i; simpl; [apply keeps_raise|].
  destruct (String.eqb (strip t) expected); [apply keeps_tap_box | apply IH].
Qed.

Lemma keeps_visible_texts d els : keeps (visible_texts W d els).
Proof.
  induction els as [|el els IH]; simpl; [apply keeps_ret|].
  apply keeps_bind; [apply keeps_element_text | intros shown].
  destruct (strip shown); [exact IH|].
  apply keeps_bind; [apply keeps_element_text | intros text].
  apply keeps_bind; [exact IH | intros more; apply keeps_ret].
Qed.

Lemma keeps_scroll_gesture d direction percent l t w h :
  keeps (scroll_gesture W d direction percent l t w h).
Proof. unfold scroll_gesture. keeps_auto. Qed.

Lemma keeps_subprocess_Popen args : keeps (subprocess_Popen W args).
Proof. unfold subprocess_Popen. keeps_auto. Qed.

Lemma keeps_subprocess_run args : keeps (subprocess_run W args).
Proof. unfold subprocess_run. keeps_auto. Qed.

#[local] Hint Resolve keeps_tap_box keeps_tap_first_match keeps_visible_texts
  keeps_scroll_gesture keeps_subprocess_Popen keeps_subprocess_run : keeps.

Lemma keeps_start_screen_recording d t : keeps (start_screen_recording W d t).
Proof. unfold start_screen_recording. keeps_auto. Qed.

Lemma keeps_stop_screen_recording d l : keeps (stop_screen_recording W d l).
Proof. unfold stop_screen_recording. keeps_auto. Qed.

Lemma keeps_Test_Video v w t : keeps (Test_Video W v w t).
Proof. unfold Test_Video. keeps_auto. Qed.

(** *** [start_appium_session], case by case *)

Lemma start_cached st name d :
  dict_get (drivers st) name = Some d ->
  start_appium_session W name st = (Ok d, st).
Proof. intros H. unfold start_appium_session, bind, get. by rewrite H. Qed.

Lemma start_uncached st name :
  dict_get (drivers st) name = None ->
  start_appium_session W name st =
    let section := "DUT." +:+ name in
    let caps := config_getitem (config st) section in
    let st1 := record_event (Connect "http://127.0.0.1:4723" caps) st in
    if negb (config_contains (config st) section) then
      (Raise (Exception ("DUT section '" +:+ section +:+ "' not found")), st)
    else
      match w_load_capabilities W caps with
      | Some e => (Raise e, st)
      | None =>
          match w_remote W (trace st) caps with
          | Some e => (Raise e, st1)
          | None =>
              (Ok (next_object st),
               set_drivers (dict_set (drivers st) name (next_object st)) (new_object st1))
          end
      end.
Proof.
  intros H. unfold start_appium_session, bind, get. rewrite H.
  unfold get_device_id, bind, get; simpl.
  destruct (negb (config_contains _ _)); [done|]. simpl.
  destruct (w_load_capabilities W _); [done|]. simpl.
  unfold webdriver_Remote, bind, get, emit, modify; simpl.
  destruct (w_remote W _ _); done.
Qed.

Lemma frame_registry_ok st st' : frame st st' -> registry_ok st -> registry_ok st'.
Proof. intros (Hd & Hc) [? ?]. unfold registry_ok. rewrite Hd, Hc. done. Qed.

Lemma start_config st name : config (snd (start_appium_session W name st)) = config st.
Proof.
  destruct (dict_get (drivers st) name) as [d|] eqn:E.
  - by rewrite (start_cached _ _ _ E).
  - rewrite (start_uncached _ _ E). simpl.
    destruct (negb _); [done|]. destruct (w_load_capabilities W _); [done|].
    destruct (w_remote W _ _); done.
Qed.

Lemma start_registry_ok st name :
  registry_ok st -> registry_ok (snd (start_appium_session W name st)).
Proof.
  intros [Hnd Hcfg].
  destruct (dict_get (drivers st) name) as [d|] eqn:E.
  - by rewrite (start_cached _ _ _ E).
  - rewrite (start_uncached _ _ E). simpl.
    destruct (negb _) eqn:Ec; [done|]. destruct (w_load_capabilities W _); [done|].
    destruct (w_remote W _ _); [done|]. split; simpl.
    + by apply dict_set_NoDup.
    + intros k Hk. apply dict_keys_set in Hk as [->|Hk]; [|by apply Hcfg].
      by apply negb_false_iff in Ec.
Qed.

Lemma start_keeps_entry st name k d :
  dict_get (drivers st) k = Some d ->
  dict_get (drivers (snd (start_appium_session W name st))) k = Some d.
Proof.
  intros Hk.
  destruct (dict_get (drivers st) name) as [d'|] eqn:E.
  - by rewrite (start_cached _ _ _ E).
  - rewrite (start_uncached _ _ E). simpl.
    destruct (negb _); [done|]. destruct (w_load_capabilities W _); [done|].
    destruct (w_remote W _ _); [done|]. simpl.
    rewrite dict_get_set_ne; [done|]. intros ->. congruence.
Qed.

(** After a success the name is in the registry, bound to what was
    returned. *)
Lemma start_Ok_cached st name d st1 :
  start_appium_session W name st = (Ok d, st1) ->
  dict_get (drivers st1) name = Some d.
Proof.
  destruct (dict_get (drivers st) name) as [d'|] eqn:E.
  - rewrite (start_cached _ _ _ E). by intros [= <- <-].
  - rewrite (start_uncached _ _ E). simpl.
    destruct (negb _); [done|]. destruct (w_load_capabilities W _); [done|].
    destruct (w_remote W _ _); [done|]. intros [= <- <-]. simpl.
    apply dict_get_set_eq.
Qed.

(** *** The other keywords: a session first, then calls that leave the
    registry alone *)

Lemma bind_start_frame {B} name (k : Driver -> M B) st :
  (forall d, keeps (k d)) ->
  frame (snd (start_appium_session W name st))
        (snd (bind (start_appium_session W name) k st)).
Proof.
  intros Hk. unfold bind.
  destruct (start_appium_session W name st) as [[d|e] st1]; simpl.
  - apply Hk.
  - apply frame_refl.
Qed.

Lemma tap_by_coordinates_frame j k d st :
  frame (snd (start_appium_session W d st)) (after W (Tap_By_Coordinates j k d) st).
Proof. apply bind_start_frame. intros ?. keeps_auto. Qed.

Lemma tap_by_text_frame t d st :
  frame (snd (start_appium_session W d st)) (after W (Tap_By_Text t d) st).
Proof. apply bind_start_frame. intros ?. keeps_auto. Qed.

Lemma verify_image_element_frame i d t st :
  frame (snd (start_appium_session W d st)) (after W (Verify_Image_Element i d t) st).
Proof. apply bind_start_frame. intros ?. keeps_auto. Qed.

Lemma click_by_image_frame i d t st :
  frame (snd (start_appium_session W d st)) (after W (Click_By_Image i d t) st).
Proof. apply bind_start_frame. intros ?. keeps_auto. Qed.

Lemma run_command_frame c d t st :
  frame (snd (start_appium_session W d st)) (after W (Run_Command c d t) st).
Proof. apply bind_start_frame. intros ?. keeps_auto. Qed.

Lemma verify_text_appium_full_frame t d st :
  frame (snd (start_appium_session W d st)) (after W (Verify_Text_Appium_Full t d) st).
Proof. apply bind_start_frame. intros ?. keeps_auto. Qed.

Lemma press_key_frame k d st :
  frame (snd (start_appium_session W d st)) (after W (Press_Key k d) st).
Proof. apply bind_start_frame. intros ?. keeps_auto. Qed.

Lemma swipe_left_right_frame d dir p st :
  frame (snd (start_appium_session W d st)) (after W (Swipe_Left_Right d dir p) st).
Proof. apply bind_start_frame. intros ?. keeps_auto. Qed.

Lemma scroll_top_bottom_frame d dir p st :
  frame (snd (start_appium_session W d st)) (after W (Scroll_Top_Bottom d dir p) st).
Proof. apply bind_start_frame. intros ?. keeps_auto. Qed.

(** [stop_appium_session] empties the registry or leaves it as it was. *)
Lemma stop_drivers st :
  let st' := snd (stop_appium_session W st) in
  config st' = config st /\ (drivers st' = drivers st \/ drivers st' = []).
Proof.
  unfold stop_appium_session, bind, get. simpl.
  pose proof (keeps_quit_each (dict_values (drivers st)) st) as (Hd & Hc).
  destruct (quit_each W _ st) as [[[]|e] st1]; simpl in *; auto.
Qed.

(** Every keyword, in one statement: either the registry is as
    [start_appium_session] on some name left it, or as it was, or (after
    [stop_appium_session]) empty. *)
Lemma after_cases c st :
  let st' := after W c st in
  config st' = config st /\
  (drivers st' = drivers st
   \/ (exists d, drivers st' = drivers (snd (start_appium_session W d st)))
   \/ (c = Stop_Appium_Session /\ drivers st' = [])).
Proof.
  assert (Hvia : forall d st', frame (snd (start_appium_session W d st)) st' ->
            config st' = config st /\
            (drivers st' = drivers st
             \/ (exists d, drivers st' = drivers (snd (start_appium_session W d st)))
             \/ (c = Stop_Appium_Session /\ drivers st' = []))).
  { intros d st' (Hd & Hc). split; [by rewrite Hc, start_config|]. right; left. eauto. }
  destruct c; simpl.
  - pose proof (keeps_get_device_id dut_name st) as (Hd & Hc). auto.
  - split; [apply start_config|]. right; left. eauto.
  - destruct (stop_drivers st) as [Hc [Hd|Hd]]; auto.
  - eapply Hvia, tap_by_coordinates_frame.
  - eapply Hvia, tap_by_text_frame.
  - eapply Hvia, verify_image_element_frame.
  - eapply Hvia, click_by_image_frame.
  - eapply Hvia, run_command_frame.
  - eapply Hvia, verify_text_appium_full_frame.
  - eapply Hvia, press_key_frame.
  - eapply Hvia, swipe_left_right_frame.
  - eapply Hvia, scroll_top_bottom_frame.
  - pose proof (keeps_start_screen_recording dut_name test_name st) as (Hd & Hc). auto.
  - pose proof (keeps_stop_screen_recording dut_name local_video_path st) as (Hd & Hc). auto.
  - pose proof (keeps_Test_Video video_path width title st) as (Hd & Hc). auto.
Qed.

Lemma after_registry_ok c st : registry_ok st -> registry_ok (after W c st).
Proof.
  intros Hok. destruct (after_cases c st) as (Hc & [Hd | [[d Hd] | [_ Hd]]]);
    unfold registry_ok; rewrite Hc, Hd.
  - exact Hok.
  - pose proof (start_registry_ok st d Hok) as [? Hcfg]. by rewrite start_config in Hcfg.
  - split; [apply NoDup_nil_2 | intros k Hk; by apply elem_of_nil in Hk].
Qed.

Lemma after_keeps_entry c st k d :
  c <> Stop_Appium_Session ->
  dict_get (drivers st) k = Some d ->
  dict_get (drivers (after W c st)) k = Some d.
Proof.
  intros Hc Hk. destruct (after_cases c st) as (_ & [Hd | [[d' Hd] | [? _]]]);
    [by rewrite Hd | | done].
  rewrite Hd. by apply start_keeps_entry.
Qed.

Lemma after_all_registry_ok cs st : registry_ok st -> registry_ok (after_all W cs st).
Proof.
  revert st. induction cs as [|c cs IH]; intros st Hok; simpl; [done|].
  apply IH. by apply after_registry_ok.
Qed.

Lemma after_all_keeps_entry cs st k d :
  Stop_Appium_Session ∉ cs ->
  dict_get (drivers st) k = Some d ->
  dict_get (drivers (after_all W cs st)) k = Some d.
Proof.
  revert st. induction cs as [|c cs IH]; intros st Hcs Hk; simpl; [done|].
  apply not_elem_of_cons in Hcs as [Hc Hcs].
  apply IH; [done|]. apply after_keeps_entry; [congruence | done].
Qed.

End Registry.

(** ** Construction *)

Section Construction.
Context (W : World).

Lemma getattr_check : getattr_self "_check_runtime_dependencies" = Raise no_check_attribute.
Proof. reflexivity. Qed.

Lemma init_eq :
  __init__ W blank =
    match w_read_ini W (ini_path W) with
    | Ok cfg => (Ok tt, constructed W cfg)
    | Raise e => (Raise e, blank)
    end.
Proof.
  unfold __init__, bind, modify, lift, try_except. simpl. fold (ini_path W).
  destruct (w_read_ini W (ini_path W)) as [cfg|e]; [|done]. simpl.
  unfold constructed.
  destruct (w_getenv W "TESSERACT_CMD") as [[|c p]|]; reflexivity.
Qed.

Lemma init_registry_ok st0 : __init__ W blank = (Ok tt, st0) -> registry_ok st0.
Proof.
  rewrite init_eq. destruct (w_read_ini W (ini_path W)); [|done].
  intros [= <-]. split; simpl; [apply NoDup_nil_2 | intros k Hk; by apply elem_of_nil in Hk].
Qed.

Lemma reachable_registry_ok st : reachable W st -> registry_ok st.
Proof.
  intros (st0 & cs & Hinit & ->). apply after_all_registry_ok. by apply init_registry_ok.
Qed.

End Construction.
(** ** The session registry *)

Section RegistryTheorems.
Context (W : World).

(** C1.  On every library object the registry holds at most one entry per
    device name.  Once [start_appium_session] has returned a session for
    a name, a later call for that name (after any keywords but
    [stop_appium_session]) returns the same driver object and leaves the
    object as it found it: nothing is added to the trace, so no connection
    is opened. *)
Theorem start_appium_session_reuses_session st :
  reachable W st ->
  NoDup (dict_keys (drivers st)) /\
  forall name d st1,
    start_appium_session W name st = (Ok d, st1) ->
    forall cs, Stop_Appium_Session ∉ cs ->
      start_appium_session W name (after_all W cs st1) = (Ok d, after_all W cs st1).
Proof.
  intros Hreach. split.
  - by apply reachable_registry_ok in Hreach as [? _].
  - intros name d st1 Hstart cs Hcs.
    apply start_cached, after_all_keeps_entry; [done|].
    by eapply start_Ok_cached.
Qed.

(** A name without a section is not in the registry. *)
Lemma no_section_not_cached st name :
  registry_ok st ->
  config_contains (config st) ("DUT." +:+ name) = false ->
  dict_get (drivers st) name = None.
Proof.
  intros [_ Hcfg] Hno. apply dict_get_None_keys. intros Hin.
  apply Hcfg in Hin. congruence.
Qed.

(** C4.  When the configuration has no section [DUT.<name>], the lookup
    [get_device_id] raises, and so does [start_appium_session] and every
    keyword that asks for a session of that name, with that same
    exception; the object is left exactly as it was, trace included, so
    no connection was attempted and nothing was sent to the Appium
    server.  (The spec's [ConfigNotFound] is this [Exception].) *)
Theorem missing_section_raises_before_any_call st name :
  reachable W st ->
  config_contains (config st) ("DUT." +:+ name) = false ->
  let e := Exception ("DUT section 'DUT." +:+ name +:+ "' not found") in
  get_device_id name st = (Raise e, st) /\
  start_appium_session W name st = (Raise e, st) /\
  (forall j k, tap_by_coordinates W j k name st = (Raise e, st)) /\
  (forall t, tap_by_text W t name st = (Raise e, st)) /\
  (forall i t, verify_image_element W i name t st = (Raise e, st)) /\
  (forall i t, click_by_image W i name t st = (Raise e, st)) /\
  (forall c t, run_command W c name t st = (Raise e, st)) /\
  (forall t, verify_text_appium_full W t name st = (Raise e, st)) /\
  (forall k, press_key W k name st = (Raise e, st)) /\
  (forall d p, swipe_left_right W name d p st = (Raise e, st)) /\
  (forall d p, scroll_top_bottom W name d p st = (Raise e, st)) /\
  (forall t, start_screen_recording W name t st = (Raise e, st)).
Proof.
  intros Hreach Hno e.
  assert (Hstart : start_appium_session W name st = (Raise e, st)).
  { rewrite start_uncached.
    - simpl. by rewrite Hno.
    - apply no_section_not_cached; [by apply (reachable_registry_ok W) | done]. }
  assert (Hget : get_device_id name st = (Raise e, st)).
  { unfold get_device_id, bind, get. simpl. by rewrite Hno. }
  split; [exact Hget|]. split; [exact Hstart|].
  repeat split; intros;
    unfold tap_by_coordinates, tap_by_text, verify_image_element, click_by_image,
      run_command, verify_text_appium_full, press_key, swipe_left_right,
      scroll_top_bottom, start_screen_recording, bind;
    rewrite ?Hstart, ?Hget; reflexivity.
Qed.

(** C10.  When [start_appium_session] raises, the registry is as before
    and has no entry for the name.  Either nothing at all happened (the
    section was missing or its capabilities were refused), or the one
    thing that happened is the connection attempt that raised; in that
    case the next call for the name makes a connection attempt again. *)
Theorem failed_creation_is_not_cached st name e st1 :
  start_appium_session W name st = (Raise e, st1) ->
  let attempt :=
    Connect "http://127.0.0.1:4723" (config_getitem (config st) ("DUT." +:+ name)) in
  drivers st1 = drivers st /\
  dict_get (drivers st1) name = None /\
  (st1 = st \/
   (st1 = record_event attempt st /\
    trace (snd (start_appium_session W name st1)) = (trace st1 ++ [attempt])%list)).
Proof.
  intros Hstart attempt.
  destruct (dict_get (drivers st) name) as [d|] eqn:E.
  { rewrite (start_cached _ _ _ _ E) in Hstart. discriminate. }
  pose proof Hstart as Hfirst. rewrite (start_uncached _ _ _ E) in Hfirst. simpl in Hfirst.
  destruct (negb (config_contains _ _)) eqn:Ec; [injection Hfirst as <- <-; auto|].
  destruct (w_load_capabilities W _) eqn:El; [injection Hfirst as <- <-; auto|].
  destruct (w_remote W _ _) eqn:Er; [|discriminate].
  injection Hfirst as <- <-. simpl. repeat split; [done|].
  right. split; [done|].
  rewrite start_uncached by done. simpl. rewrite Ec, El.
  destruct (w_remote W (trace st ++ _)%list _); reflexivity.
Qed.

(** *** Teardown *)

Lemma quit_each_Ok ds st st' :
  quit_each W ds st = (Ok tt, st') ->
  trace st' = (trace st ++ map Quit ds)%list.
Proof.
  revert st. induction ds as [|d ds IH]; intros st; simpl.
  - intros [= <-]. by rewrite app_nil_r.
  - unfold bind at 1. unfold driver_quit, bind, get, emit, modify, check. simpl.
    destruct (w_quit W (trace st) d); [discriminate|]. simpl.
    intros H. apply IH in H. rewrite H. simpl. by rewrite <- app_assoc.
Qed.

Lemma quit_each_Raise ds st e st' :
  quit_each W ds st = (Raise e, st') ->
  exists before d rest,
    ds = (before ++ d :: rest)%list /\
    trace st' = (trace st ++ map Quit (before ++ [d]))%list /\
    w_quit W (trace st ++ map Quit before)%list d = Some e.
Proof.
  revert st. induction ds as [|d ds IH]; intros st; simpl; [discriminate|].
  unfold bind at 1. unfold driver_quit, bind, get, emit, modify, check. simpl.
  destruct (w_quit W (trace st) d) as [e'|] eqn:Eq; simpl.
  - intros [= <- <-]. exists [], d, ds. simpl. by rewrite app_nil_r.
  - intros H. apply IH in H as (before & d' & rest & -> & Htr & Hq). simpl in *.
    exists (d :: before), d', rest. simpl. rewrite <- !app_assoc in *. auto.
Qed.

(** C6.  [stop_appium_session] quits the cached drivers in the order of
    the registry.  If every [quit] returns, each driver was told to quit
    once and the registry is empty afterwards.  If a [quit] raises, the
    drivers after it are not told to quit, the exception goes to the
    caller, and the registry still holds every entry. *)
Theorem stop_appium_session_quits_then_clears st :
  match stop_appium_session W st with
  | (Ok _, st') =>
      drivers st' = [] /\
      trace st' = (trace st ++ map Quit (dict_values (drivers st)))%list
  | (Raise e, st') =>
      drivers st' = drivers st /\
      exists before d rest,
        dict_values (drivers st) = (before ++ d :: rest)%list /\
        trace st' = (trace st ++ map Quit (before ++ [d]))%list /\
        w_quit W (trace st ++ map Quit before)%list d = Some e
  end.
Proof.
  unfold stop_appium_session, bind, get. simpl.
  pose proof (keeps_quit_each W (dict_values (drivers st)) st) as (Hd & _).
  destruct (quit_each W _ st) as [[[]|e] st1] eqn:Eq; simpl in *.
  - split; [done|]. by apply quit_each_Ok.
  - split; [done|]. by apply quit_each_Raise.
Qed.

End RegistryTheorems.

(** ** Printing of scores *)

(** The part after the point has three characters. *)
Lemma pad3_length n : 0 <= n < 1000 -> String.length (pad3 n) = 3%nat.
Proof.
  intros Hn.
  assert (Hall : forallb (fun k => Nat.eqb (String.length (pad3 (Z.of_nat k))) 3)
                   (seq 0 1000) = true) by (vm_compute; reflexivity).
  rewrite forallb_forall in Hall.
  specialize (Hall (Z.to_nat n)). rewrite Z2Nat.id in Hall by lia.
  apply Nat.eqb_eq, Hall, in_seq. lia.
Qed.

(** The number of thousandths printed for [m * 2^e] is exact when the
    value is a whole number and at most half a thousandth off otherwise. *)
Lemma round_thousandths_nearest m e :
  let q := round_thousandths m e in
  (0 <= e -> q = Zpos m * 1000 * 2 ^ e) /\
  (e < 0 -> 2 * Z.abs (q * 2 ^ (- e) - Zpos m * 1000) <= 2 ^ (- e)).
Proof.
  intros q. subst q. split.
  - intros He. destruct e as [|p|p]; try lia; unfold round_thousandths.
    + rewrite Z.shiftl_0_r. simpl (2 ^ 0). lia.
    + by rewrite Z.shiftl_mul_pow2 by lia.
  - intros He. destruct e as [|p|p]; try lia. unfold round_thousandths.
    change (- Z.neg p) with (Z.pos p).
    rewrite Z.shiftl_mul_pow2 by lia. rewrite Z.mul_1_l.
    set (d := 2 ^ Z.pos p). set (n := Z.pos m * 1000).
    assert (Hd : 0 < d) by (apply Z.pow_pos_nonneg; lia).
    pose proof (Z.div_mod n d ltac:(lia)) as Hdm.
    pose proof (Z.mod_pos_bound n d Hd) as Hr.
    destruct (Z.compare_spec (2 * (n mod d)) d) as [Heq|Hlt|Hgt].
    + destruct (Z.even (n / d)); nia.
    + nia.
    + nia.
Qed.

(** A finite score is printed as sign, whole part, point and three
    digits. *)
Lemma format_3f_finite s m e :
  let q := round_thousandths m e in
  format_3f (S754_finite s m e)
    = (if s then "-" else EmptyString) +:+ digits (q / 1000) +:+ "." +:+ pad3 (q mod 1000)
  /\ String.length (pad3 (q mod 1000)) = 3%nat.
Proof.
  intros q. split; [reflexivity|]. apply pad3_length. apply Z.mod_pos_bound. lia.
Qed.

Example format_3f_examples :
  format_3f f085 = "0.850" /\ format_3f f09 = "0.900" /\
  format_3f (S754_zero true) = "-0.000" /\
  format_3f (S754_finite false 1 (-1)) = "0.500" /\
  format_3f (S754_finite false 1 (-4)) = "0.062" /\
  format_3f (S754_finite false 3 (-4)) = "0.188" /\
  format_3f (S754_finite true 1234567 0) = "-1234567.000".
Proof. repeat split; reflexivity. Qed.

(** ** Arithmetic of the tap point

    [int(a + b / 2)] goes through binary64.  For non-negative [a] and [b]
    with [2 * a + b < 2^53] every step is exact: the quotient, the
    conversion, the sum and the truncation. *)

Lemma Zdigits2_log2 m : 0 < m -> Zdigits2 m = Z.log2 m + 1.
Proof.
  destruct m as [|p|p]; try lia. intros _. simpl.
  induction p as [p IH|p IH|]; simpl; try reflexivity.
  - destruct p; simpl in *; lia.
  - destruct p; simpl in *; lia.
Qed.

Lemma Zdigits2_pos m : 0 < m -> 0 < Zdigits2 m.
Proof. intros H. rewrite Zdigits2_log2 by done. pose proof (Z.log2_nonneg m). lia. Qed.

Lemma Zdigits2_mul_pow2 m n : 0 < m -> 0 <= n -> Zdigits2 (m * 2 ^ n) = Zdigits2 m + n.
Proof.
  intros Hm Hn. rewrite !Zdigits2_log2; [|done|].
  - rewrite Z.log2_mul_pow2 by lia. lia.
  - apply Z.mul_pos_pos; [done|]. by apply Z.pow_pos_nonneg.
Qed.

Lemma Zdigits2_le m k : 0 < m -> 0 <= k -> m < 2 ^ k -> Zdigits2 m <= k.
Proof.
  intros Hm Hk Hlt. rewrite Zdigits2_log2 by done.
  apply Z.log2_lt_pow2 in Hlt; lia.
Qed.

Lemma iter_shr_1_exact p : forall k, 0 <= k ->
  SpecFloat.iter_pos shr_1 p (Build_shr_record (k * 2 ^ Zpos p) false false)
  = Build_shr_record k false false.
Proof.
  assert (H1 : forall k, 0 <= k ->
            shr_1 (Build_shr_record (k * 2) false false) = Build_shr_record k false false).
  { intros k Hk. destruct k as [|q|q]; [done| |lia]. simpl.
    by rewrite Pos.mul_comm. }
  induction p as [p IH|p IH|]; intros k Hk.
  - change (SpecFloat.iter_pos shr_1 p~1 ?x)
      with (SpecFloat.iter_pos shr_1 p (SpecFloat.iter_pos shr_1 p (shr_1 x))).
    replace (k * 2 ^ Z.pos p~1) with ((k * 2 ^ Z.pos p * 2 ^ Z.pos p) * 2).
    + rewrite H1 by (apply Z.mul_nonneg_nonneg; [apply Z.mul_nonneg_nonneg|]; lia).
      rewrite IH by (apply Z.mul_nonneg_nonneg; lia). by apply IH.
    + replace (Z.pos p~1) with (Z.pos p + Z.pos p + 1) by lia.
      rewrite !Z.pow_add_r by lia. change (2 ^ 1) with 2. ring.
  - change (SpecFloat.iter_pos shr_1 p~0 ?x)
      with (SpecFloat.iter_pos shr_1 p (SpecFloat.iter_pos shr_1 p x)).
    replace (k * 2 ^ Z.pos p~0) with ((k * 2 ^ Z.pos p) * 2 ^ Z.pos p).
    + rewrite IH by (apply Z.mul_nonneg_nonneg; lia). by apply IH.
    + replace (Z.pos p~0) with (Z.pos p + Z.pos p) by lia.
      rewrite !Z.pow_add_r by lia. ring.
  - change (2 ^ 1) with 2. by apply H1.
Qed.

Lemma shr_exact k e n :
  0 <= k -> 0 <= n ->
  shr (Build_shr_record (k * 2 ^ n) false false) e n
  = (Build_shr_record k false false, e + n).
Proof.
  intros Hk Hn. destruct n as [|p|p]; [|by unfold shr; rewrite iter_shr_1_exact|lia].
  unfold shr. change (2 ^ 0) with 1. by rewrite Z.mul_1_r, Z.add_0_r.
Qed.

Lemma to_pos_id k : 0 < k -> Z.pos (Z.to_pos k) = k.
Proof. intros. by rewrite Z2Pos.id. Qed.

(** Rounding a full-width mantissa followed by [n] zero bits drops the
    zeros and nothing else. *)
Lemma binary_round_aux_exact sx k n e :
  0 < k -> Zdigits2 k = prec -> 0 <= n ->
  emin <= e + n <= emax - prec ->
  binary_round_aux prec emax sx (k * 2 ^ n) e loc_Exact
  = S754_finite sx (Z.to_pos k) (e + n).
Proof.
  intros Hk Hd Hn He. unfold binary_round_aux, shr_fexp.
  rewrite Zdigits2_mul_pow2 by done. rewrite Hd.
  assert (Hf : fexp prec emax (prec + n + e) - e = n).
  { unfold fexp. unfold SpecFloat.emin, prec, emax in *. lia. }
  rewrite Hf. simpl shr_record_of_loc. rewrite shr_exact by lia.
  simpl round_nearest_even. rewrite Hd.
  assert (Hf' : fexp prec emax (prec + (e + n)) - (e + n) = 0).
  { unfold fexp. unfold SpecFloat.emin, prec, emax in *. lia. }
  rewrite Hf'. simpl. destruct k as [|q|q]; try lia.
  assert (Hle : (e + n <=? emax - prec) = true) by (apply Z.leb_le; lia).
  by rewrite Hle.
Qed.

(** The same for any [x] of at most 53 bits followed by enough zeros. *)
Lemma binary_round_aux_normal sx x j e :
  0 < x -> Zdigits2 x <= prec -> prec - Zdigits2 x <= j ->
  emin <= e + j + Zdigits2 x - prec <= emax - prec ->
  binary_round_aux prec emax sx (x * 2 ^ j) e loc_Exact = normal sx x (e + j).
Proof.
  intros Hx Hd Hj He. pose proof (Zdigits2_pos x Hx) as Hdp.
  set (s := prec - Zdigits2 x) in *.
  replace (x * 2 ^ j) with ((x * 2 ^ s) * 2 ^ (j - s)).
  - rewrite binary_round_aux_exact.
    + unfold normal. fold s. f_equal. lia.
    + apply Z.mul_pos_pos; [done|]. apply Z.pow_pos_nonneg; lia.
    + rewrite Zdigits2_mul_pow2 by lia. lia.
    + lia.
    + lia.
  - rewrite <- Z.mul_assoc, <- Z.pow_add_r by lia. do 2 f_equal. lia.
Qed.

Lemma pos_iter_xO m p : Z.pos (Pos.iter xO m p) = Z.pos m * 2 ^ Z.pos p.
Proof.
  revert m. induction p as [|p IH] using Pos.peano_ind; intros m.
  - simpl. lia.
  - rewrite Pos.iter_succ, Pos2Z.inj_xO, IH, Pos2Z.inj_succ, Z.pow_succ_r by lia. lia.
Qed.

Lemma shl_align_value m e e' :
  e' <= e ->
  Z.pos (fst (shl_align m e e')) = Z.pos m * 2 ^ (e - e') /\
  snd (shl_align m e e') = e'.
Proof.
  intros Hle. unfold shl_align. destruct (e' - e) as [|d|d] eqn:E; simpl.
  - replace (e - e') with 0 by lia. simpl. lia.
  - lia.
  - rewrite pos_iter_xO. replace (e - e') with (Z.pos d) by lia. done.
Qed.

(** Rounding [x * 2^j * 2^e] for [x] of at most 53 bits is exact. *)
Lemma binary_round_normal sx x j e :
  0 < x -> Zdigits2 x <= prec -> 0 <= j ->
  emin <= e + j + Zdigits2 x - prec <= emax - prec ->
  binary_round prec emax sx (Z.to_pos (x * 2 ^ j)) e = normal sx x (e + j).
Proof.
  intros Hx Hd Hj He. pose proof (Zdigits2_pos x Hx) as Hdp.
  assert (Hy : 0 < x * 2 ^ j) by (apply Z.mul_pos_pos; [done | by apply Z.pow_pos_nonneg]).
  unfold binary_round.
  change (Z.pos (digits2_pos (Z.to_pos (x * 2 ^ j))))
    with (Zdigits2 (Z.pos (Z.to_pos (x * 2 ^ j)))).
  rewrite to_pos_id by done. rewrite Zdigits2_mul_pow2 by done.
  set (e' := fexp prec emax (Zdigits2 x + j + e)).
  assert (He' : e' = Zdigits2 x + j + e - prec).
  { unfold e', fexp. unfold SpecFloat.emin, prec, emax in *. lia. }
  destruct (Z.le_gt_cases e' e) as [Hle|Hgt].
  - pose proof (shl_align_value (Z.to_pos (x * 2 ^ j)) e e' Hle) as [Hm He2].
    destruct (shl_align _ e e') as [mz ez]. simpl in *. subst ez.
    rewrite Hm, to_pos_id by done.
    rewrite <- Z.mul_assoc, <- Z.pow_add_r by lia.
    rewrite binary_round_aux_normal by lia.
    f_equal. lia.
  - unfold shl_align. destruct (e' - e) as [|d|d] eqn:E; try lia.
    rewrite to_pos_id by done.
    rewrite binary_round_aux_normal by lia. done.
Qed.

Lemma float_of_int_normal a :
  0 < a -> Zdigits2 a <= prec -> float_of_int a = Ok (normal false a 0).
Proof.
  intros Ha Hd. pose proof (Zdigits2_pos a Ha) as Hdp.
  unfold float_of_int. destruct a as [|p|p]; try lia. unfold binary_normalize.
  pose proof (binary_round_normal false (Z.pos p) 0 0 Ha Hd ltac:(lia)) as H.
  change (2 ^ 0) with 1 in H. rewrite Z.mul_1_r in H. simpl Z.to_pos in H.
  rewrite H; [done|]. unfold SpecFloat.emin, prec, emax in *. lia.
Qed.

Lemma int_truediv_half b :
  0 < b -> Zdigits2 b <= prec -> int_truediv b 2 = Ok (normal false b (-1)).
Proof.
  intros Hb Hd. pose proof (Zdigits2_pos b Hb) as Hdp.
  unfold int_truediv. destruct b as [|p|p]; try lia.
  unfold SFdiv_core_binary. rewrite !Z.abs_eq by lia.
  change (Zdigits2 2) with 2. rewrite !Z.add_0_r. change (0 - 0) with 0.
  set (d := Zdigits2 (Z.pos p)) in *.
  assert (He : Z.min (fexp prec emax (d - 2)) 0 = d - 55).
  { unfold fexp. unfold SpecFloat.emin, prec, emax in *. lia. }
  rewrite He. destruct (0 - (d - 55)) as [|s|s] eqn:Es; try (unfold prec in Hd; lia).
  rewrite Z.shiftl_mul_pow2 by lia.
  assert (Hdiv : Z.div_eucl (Z.pos p * 2 ^ Z.pos s) 2 = (Z.pos p * 2 ^ (Z.pos s - 1), 0)).
  { assert (Hm : Z.pos p * 2 ^ Z.pos s = 2 * (Z.pos p * 2 ^ (Z.pos s - 1)) + 0).
    { replace (Z.pos s) with (Z.succ (Z.pos s - 1)) at 1 by lia.
      rewrite Z.pow_succ_r by (unfold prec in Hd; lia). ring. }
    rewrite Hm at 1.
    pose proof (Z.div_eucl_eq (2 * (Z.pos p * 2 ^ (Z.pos s - 1)) + 0) 2 ltac:(lia)) as Hq.
    pose proof (Z.mod_pos_bound (2 * (Z.pos p * 2 ^ (Z.pos s - 1)) + 0) 2 ltac:(lia)) as Hr.
    unfold Z.modulo in Hr.
    destruct (Z.div_eucl _ 2) as [q r]. simpl in Hr. f_equal; lia. }
  rewrite Hdiv. change (new_location 2 0) with loc_Exact.
  change (xorb (Z.pos p <? 0) (2 <? 0)) with false.
  assert (Hd55 : d - 55 + (Z.pos s - 1) = -1) by lia.
  rewrite binary_round_aux_normal; fold d.
  - by rewrite Hd55.
  - done.
  - done.
  - unfold prec in *. lia.
  - unfold SpecFloat.emin, prec, emax in *. lia.
Qed.

Lemma float_add_normal a b :
  0 < a -> 0 < b -> Zdigits2 (2 * a + b) <= prec ->
  float_add (normal false a 0) (normal false b (-1)) = normal false (2 * a + b) (-1).
Proof.
  intros Ha Hb Hd.
  pose proof (Zdigits2_pos a Ha) as Hda. pose proof (Zdigits2_pos b Hb) as Hdb.
  assert (Hab : Zdigits2 a < Zdigits2 (2 * a + b) /\ Zdigits2 b <= Zdigits2 (2 * a + b)).
  { rewrite !Zdigits2_log2 by lia. split.
    - assert (Z.log2 (2 * a) <= Z.log2 (2 * a + b)) by (apply Z.log2_le_mono; lia).
      rewrite Z.log2_double in H by lia. lia.
    - assert (Z.log2 b <= Z.log2 (2 * a + b)) by (apply Z.log2_le_mono; lia). lia. }
  unfold float_add, normal, SFadd. simpl cond_Zopp.
  set (ea := 0 + Zdigits2 a - prec). set (eb := -1 + Zdigits2 b - prec).
  set (ez := Z.min ea eb).
  set (ma := Z.to_pos (a * 2 ^ (prec - Zdigits2 a))).
  set (mb := Z.to_pos (b * 2 ^ (prec - Zdigits2 b))).
  destruct (shl_align_value ma ea ez ltac:(lia)) as [Hma _].
  destruct (shl_align_value mb eb ez ltac:(lia)) as [Hmb _].
  rewrite Hma, Hmb. unfold ma, mb.
  rewrite !to_pos_id by (apply Z.mul_pos_pos; [done|]; apply Z.pow_pos_nonneg; unfold prec in *; lia).
  rewrite <- !Z.mul_assoc, <- !Z.pow_add_r by (unfold ea, eb, ez, prec in *; lia).
  assert (Hsum : a * 2 ^ (prec - Zdigits2 a + (ea - ez)) + b * 2 ^ (prec - Zdigits2 b + (eb - ez))
                 = (2 * a + b) * 2 ^ (-1 - ez)).
  { replace (prec - Zdigits2 a + (ea - ez)) with (Z.succ (-1 - ez)) by (unfold ea; lia).
    replace (prec - Zdigits2 b + (eb - ez)) with (-1 - ez) by (unfold eb; lia).
    rewrite Z.pow_succ_r by (unfold ea, eb, ez, prec in *; lia). ring. }
  rewrite Hsum.
  assert (Hpos : 0 < (2 * a + b) * 2 ^ (-1 - ez)).
  { apply Z.mul_pos_pos; [lia|]. apply Z.pow_pos_nonneg; unfold ea, eb, ez, prec in *; lia. }
  unfold binary_normalize.
  destruct ((2 * a + b) * 2 ^ (-1 - ez)) as [|s|s] eqn:Es; try lia.
  pose proof (binary_round_normal false (2 * a + b) (-1 - ez) ez ltac:(lia) Hd) as H.
  rewrite Es in H. simpl Z.to_pos in H. rewrite H.
  - unfold normal. f_equal. lia.
  - unfold ea, eb, ez, prec in *; lia.
  - unfold SpecFloat.emin, ea, eb, ez, prec, emax in *. lia.
Qed.

Lemma int_of_float_normal x e :
  0 < x -> Zdigits2 x <= prec -> -1 <= e <= 0 ->
  int_of_float (normal false x e) = Ok (x / 2 ^ (- e)).
Proof.
  intros Hx Hd He. pose proof (Zdigits2_pos x Hx) as Hdp.
  unfold normal, int_of_float.
  assert (Hy : 0 < x * 2 ^ (prec - Zdigits2 x))
    by (apply Z.mul_pos_pos; [done|]; apply Z.pow_pos_nonneg; lia).
  rewrite to_pos_id by done.
  destruct (e + Zdigits2 x - prec) as [|s|s] eqn:Es.
  - rewrite Z.shiftl_0_r. replace (prec - Zdigits2 x) with 0 by lia.
    replace e with 0 by (unfold prec in *; lia).
    change (2 ^ 0) with 1. change (2 ^ (-0)) with 1. by rewrite Z.mul_1_r, Z.div_1_r.
  - unfold prec in *. lia.
  - rewrite Z.shiftr_div_pow2 by lia. f_equal.
    replace (Z.pos s) with ((prec - Zdigits2 x) + (- e)) by lia.
    rewrite Z.pow_add_r by lia.
    rewrite (Z.mul_comm (2 ^ (prec - Zdigits2 x))).
    rewrite Z.div_mul_cancel_r; [done| |]; apply Z.pow_nonzero; lia.
Qed.

(** On screen coordinates the centre is computed without rounding. *)
Lemma center_exact a b :
  0 <= a -> 0 <= b -> 2 * a + b < 2 ^ 53 -> center a b = Ok (a + b / 2).
Proof.
  intros Ha Hb Hlt. unfold center.
  assert (Hdig : forall x, 0 < x -> x <= 2 * a + b -> Zdigits2 x <= prec).
  { intros x Hx Hle. apply Zdigits2_le; [done | done | unfold prec; lia]. }
  destruct (Z.eq_dec b 0) as [->|Hb0].
  - change (int_truediv 0 2) with (Ok (S754_zero false)). cbv iota beta.
    destruct (Z.eq_dec a 0) as [->|Ha0]; [done|].
    rewrite float_of_int_normal by (try apply Hdig; lia). cbv iota beta.
    change (float_add (normal false a 0) (S754_zero false)) with (normal false a 0).
    rewrite int_of_float_normal by (try apply Hdig; lia).
    change (2 ^ (-0)) with 1. rewrite Z.div_1_r. f_equal. change (0 / 2) with 0. lia.
  - rewrite int_truediv_half by (try apply Hdig; lia). cbv iota beta.
    destruct (Z.eq_dec a 0) as [->|Ha0].
    + change (float_of_int 0) with (Ok (S754_zero false)). cbv iota beta.
      change (float_add (S754_zero false) (normal false b (-1))) with (normal false b (-1)).
      rewrite int_of_float_normal by (try apply Hdig; lia). done.
    + rewrite float_of_int_normal by (try apply Hdig; lia). cbv iota beta.
      rewrite float_add_normal by (try apply Hdig; lia).
      rewrite int_of_float_normal by (try apply Hdig; lia).
      f_equal. change (2 ^ (- -1)) with 2.
      rewrite Z.mul_comm, Z.div_add_l by lia. done.
Qed.

(** Beyond that range the sum is rounded before it is truncated, and
    Python's conversions raise for numbers without a binary64
    neighbour. *)
Example center_examples :
  center 40 41 = Ok 60 /\ center 20 12 = Ok 26 /\ center (-10) 5 = Ok (-7) /\
  center (2 ^ 53) 1 = Ok (2 ^ 53) /\
  center (2 ^ 1024) 0 = Raise (OverflowError "int too large to convert to float").
Proof. repeat split; reflexivity. Qed.

(** ** Comparison of scores *)

Lemma SFcompare_antisym (x y : float64) :
  SFcompare y x = option_map CompOpp (SFcompare x y).
Proof.
  destruct x as [sx|sx| |sx mx ex], y as [sy|sy| |sy my ey]; simpl;
    try reflexivity; try (destruct sx; reflexivity); try (destruct sy; reflexivity);
    try (destruct sx, sy; reflexivity).
  change PosDef.Pos.compare_cont with Pos.compare_cont.
  destruct sx, sy; simpl; try reflexivity;
    rewrite (Z.compare_antisym ex ey); destruct (ex ?= ey); simpl; try reflexivity;
    rewrite (Pos.compare_cont_antisym mx my Eq); reflexivity.
Qed.

(** [s == t] gives [s >= t]. *)
Lemma float_eq_ge s t : float_eq s t = true -> float_ge s t = true.
Proof.
  unfold float_eq, float_ge, SFeqb, SFleb. rewrite (SFcompare_antisym s t).
  destruct (SFcompare s t) as [[]|]; simpl; done.
Qed.

(** [s < t] is never [s >= t]. *)
Lemma float_lt_not_ge s t : float_lt s t = true -> float_ge s t = false.
Proof.
  unfold float_lt, float_ge, SFltb, SFleb. rewrite (SFcompare_antisym s t).
  destruct (SFcompare s t) as [[]|]; simpl; done.
Qed.

Lemma float_ge_not_lt s t : float_ge s t = true -> float_lt s t = false.
Proof.
  intros H. destruct (float_lt s t) eqn:E; [|done].
  apply float_lt_not_ge in E. congruence.
Qed.

(** ** The keywords, once they hold a session *)

Ltac run_monad :=
  unfold get_variable_value, os_path_join, cv2_imread, cv2_match, image_to_data,
    time_time, driver_save_screenshot, driver_execute_script, after_script,
    bind, get, lift, ret, raise, emit, modify, check; simpl.

Section KeywordTheorems.
Context (W : World).

Lemma clicks_at_intro {A} (outcome : result A * State) st driver x y r :
  outcome = after_script W st driver "mobile: clickGesture"
              (VDict [("x", VInt x); ("y", VInt y)]) r ->
  clicks_at W outcome st driver x y r.
Proof. intros ->. split; reflexivity. Qed.

Lemma verify_image_element_eq image dut t st driver ref res st2 :
  reaches_match W "verify_" image dut st driver ref res st2 ->
  verify_image_element W image dut t st =
    if float_ge (max_val res) t then (Ok true, st2)
    else (Raise (AssertionError ("Image match failed: score=" +:+ format_3f (max_val res))),
          st2).
Proof.
  intros (st1 & root & out & screen & Hs & Hr & Ho & Href & Hshot & -> & Hscreen & Hm).
  unfold verify_image_element. unfold bind at 1. rewrite Hs.
  run_monad. rewrite Hr, Ho. simpl. rewrite Href, Hshot. simpl.
  simpl in Hscreen. rewrite Hscreen, Hm.
  destruct (float_ge (max_val res) t); reflexivity.
Qed.

(** C2.  Once the keyword has the match score [s] of the screenshot
    against the reference image, [verify_image_element] returns [True]
    exactly when [s >= threshold]; it does so when the two are equal; and
    when [s < threshold], as whenever [s >= threshold] is false, it raises
    an [AssertionError] (the spec's [MatchBelowThreshold]) whose message
    carries the score printed with three decimals. *)
Theorem verify_image_element_succeeds_iff image dut threshold st driver ref res st2 :
  reaches_match W "verify_" image dut st driver ref res st2 ->
  let s := max_val res in
  let outcome := verify_image_element W image dut threshold st in
  let failure := AssertionError ("Image match failed: score=" +:+ format_3f s) in
  (outcome = (Ok true, st2) <-> float_ge s threshold = true) /\
  (float_eq s threshold = true -> outcome = (Ok true, st2)) /\
  (float_lt s threshold = true -> outcome = (Raise failure, st2)) /\
  (float_ge s threshold = false -> outcome = (Raise failure, st2)).
Proof.
  intros Hreach s outcome failure. subst outcome.
  rewrite (verify_image_element_eq _ _ threshold _ _ _ _ _ Hreach). fold s.
  split; [|split; [|split]].
  - destruct (float_ge s threshold); split; intros H; done.
  - intros H. by rewrite (float_eq_ge _ _ H).
  - intros H. by rewrite (float_lt_not_ge _ _ H).
  - by intros ->.
Qed.

(** C8.  When the best score meets the threshold, [click_by_image] sends
    one click gesture, at the best match's top-left corner moved right by
    half the reference image's width and down by half its height, both
    halves by floor division, and reports that point. *)
Theorem click_by_image_taps_center image dut threshold st driver ref res st2 :
  reaches_match W "click_" image dut st driver ref res st2 ->
  float_ge (max_val res) threshold = true ->
  let x := fst (max_loc res) + img_width ref / 2 in
  let y := snd (max_loc res) + img_height ref / 2 in
  clicks_at W (click_by_image W image dut threshold st) st2 driver x y
    ("Clicked image at (" +:+ str_of_int x +:+ "," +:+ str_of_int y +:+ ")").
Proof.
  intros (st1 & root & out & screen & Hs & Hr & Ho & Href & Hshot & -> & Hscreen & Hm) Hge x y.
  apply clicks_at_intro.
  unfold click_by_image. unfold bind at 1. rewrite Hs.
  run_monad. rewrite Hr, Ho. simpl. rewrite Href, Hshot. simpl.
  simpl in Hscreen. rewrite Hscreen, Hm.
  rewrite (float_ge_not_lt _ _ Hge). simpl. fold x y.
  destruct (w_execute_script W _ _ _ _); reflexivity.
Qed.

(** *** OCR tap *)

Lemma tap_first_match_none driver expected ocr texts :
  (forall t, t ∈ texts -> strip t <> expected) ->
  forall i st,
    tap_first_match W driver expected ocr i texts st =
      (Raise (AssertionError ("Text '" +:+ expected +:+ "' not found via OCR")), st).
Proof.
  induction texts as [|t texts IH]; intros Hno i st; simpl; [done|].
  destruct (String.eqb (strip t) expected) eqn:E.
  - apply String.eqb_eq in E. exfalso. eapply Hno; [apply list_elem_of_here | done].
  - apply IH. intros t' Ht'. apply Hno. by apply list_elem_of_further.
Qed.

Lemma tap_first_match_at driver expected ocr texts :
  forall k t, texts !! k = Some t -> strip t = expected ->
    (forall j t', (j < k)%nat -> texts !! j = Some t' -> strip t' <> expected) ->
    forall i st,
      tap_first_match W driver expected ocr i texts st = tap_box W driver ocr (i + k) st.
Proof.
  induction texts as [|t0 texts IH]; intros k t Hk Ht Hbefore i st; [done|].
  simpl. destruct k as [|k]; simpl in Hk.
  - injection Hk as ->. rewrite Ht, String.eqb_refl. by rewrite Nat.add_0_r.
  - destruct (String.eqb (strip t0) expected) eqn:E.
    + apply String.eqb_eq in E. exfalso.
      apply (Hbefore 0%nat t0); [lia | done | done].
    + rewrite (IH k t Hk Ht); [f_equal; lia|].
      intros j t' Hj Hj'. apply (Hbefore (S j) t'); [lia | done].
Qed.

Lemma tap_box_eq driver ocr i t x y w h cx cy st :
  ocr_box ocr i = Some (t, x, y, w, h) ->
  center x w = Ok cx -> center y h = Ok cy ->
  tap_box W driver ocr i st =
    after_script W st driver "mobile: clickGesture"
      (VDict [("x", VInt cx); ("y", VInt cy)]) true.
Proof.
  unfold ocr_box. intros Hbox Hcx Hcy.
  destruct (ocr_text ocr !! i); [|done].
  destruct (ocr_left ocr !! i) as [x'|] eqn:Ex; [|done].
  destruct (ocr_top ocr !! i) as [y'|] eqn:Ey; [|done].
  destruct (ocr_width ocr !! i) as [w'|] eqn:Ew; [|done].
  destruct (ocr_height ocr !! i) as [h'|] eqn:Eh; [|done].
  injection Hbox as -> -> -> -> ->.
  unfold tap_box, list_index. rewrite Ex, Ey, Ew, Eh. run_monad.
  rewrite Hcx, Hcy. simpl.
  destruct (w_execute_script W _ _ _ _); reflexivity.
Qed.

Lemma tap_by_text_eq expected dut st driver ocr st2 :
  reaches_ocr W dut st driver ocr st2 ->
  tap_by_text W expected dut st =
    tap_first_match W driver expected ocr 0 (ocr_text ocr) st2.
Proof.
  intros (st1 & out & img & Hs & Ho & Hshot & -> & Himg & Hocr).
  unfold tap_by_text. unfold bind at 1. rewrite Hs.
  run_monad. rewrite Ho. simpl. rewrite Hshot. simpl.
  simpl in Himg. rewrite Himg. simpl. by rewrite Hocr.
Qed.

(** C3.  Once [tap_by_text] has the OCR result of the screenshot: if no
    entry's stripped text equals the target it raises an [AssertionError]
    (the spec's [NotFound]) and sends no gesture; otherwise, for the first
    index [i] whose stripped text equals the target, it sends one click
    gesture at [(int(left + width / 2), int(top + height / 2))] of box [i]
    and returns [True].  For a box of non-negative numbers with
    [2 * left + width] and [2 * top + height] below [2^53], as on any
    screen, that point is [(left + width // 2, top + height // 2)]. *)
Theorem tap_by_text_taps_first_exact_match expected dut st driver ocr st2 :
  reaches_ocr W dut st driver ocr st2 ->
  let outcome := tap_by_text W expected dut st in
  ((forall t, t ∈ ocr_text ocr -> strip t <> expected) ->
   outcome = (Raise (AssertionError ("Text '" +:+ expected +:+ "' not found via OCR")), st2)) /\
  (forall i t x y w h,
     ocr_box ocr i = Some (t, x, y, w, h) ->
     strip t = expected ->
     (forall j t', (j < i)%nat -> ocr_text ocr !! j = Some t' -> strip t' <> expected) ->
     (forall cx cy, center x w = Ok cx -> center y h = Ok cy ->
                    clicks_at W outcome st2 driver cx cy true) /\
     (0 <= x -> 0 <= w -> 2 * x + w < 2 ^ 53 ->
      0 <= y -> 0 <= h -> 2 * y + h < 2 ^ 53 ->
      clicks_at W outcome st2 driver (x + w / 2) (y + h / 2) true)).
Proof.
  intros Hreach outcome. subst outcome.
  rewrite (tap_by_text_eq expected _ _ _ _ _ Hreach). split.
  - intros Hno. by apply tap_first_match_none.
  - intros i t x y w h Hbox Ht Hfirst.
    assert (Hi : ocr_text ocr !! i = Some t).
    { unfold ocr_box in Hbox. destruct (ocr_text ocr !! i); [|done].
      destruct (ocr_left ocr !! i), (ocr_top ocr !! i), (ocr_width ocr !! i),
        (ocr_height ocr !! i); try done. by injection Hbox as ->. }
    rewrite (tap_first_match_at _ _ _ _ i t Hi Ht Hfirst). simpl.
    assert (Hgen : forall cx cy, center x w = Ok cx -> center y h = Ok cy ->
              clicks_at W (tap_box W driver ocr i st2) st2 driver cx cy true).
    { intros cx cy Hcx Hcy. apply clicks_at_intro. by eapply tap_box_eq. }
    split; [exact Hgen|].
    intros Hx Hw Hxw Hy Hh Hyh. apply Hgen; by apply center_exact.
Qed.

(** *** Coordinate tap *)

(** C5.  With a session at hand and [${EXECDIR}] set: when the
    coordinate file is not there, or is a JSON object without the key,
    [tap_by_coordinates] raises an [AssertionError] (the spec's
    [ConfigNotFound]) and the object stays as the session lookup left it,
    so no gesture is sent; when the key holds an object with integer [x]
    and [y], one click gesture is sent, at exactly [(x, y)]. *)
Theorem tap_by_coordinates_lookup json_name key_name dut st driver st1 root :
  start_appium_session W dut st = (Ok driver, st1) ->
  w_get_variable_value W "${EXECDIR}" = Ok (Some root) ->
  let json_file := w_path_join W [root; "Resources"; "Coordinates"; json_name] in
  let outcome := tap_by_coordinates W json_name key_name dut st in
  (w_isfile W json_file = false ->
   outcome = (Raise (AssertionError ("JSON file not found: " +:+ json_file)), st1)) /\
  (forall d,
     w_isfile W json_file = true ->
     w_json_load W json_file = Ok (VDict d) ->
     dict_get d key_name = None ->
     outcome = (Raise (AssertionError ("Key '" +:+ key_name +:+ "' not found")), st1)) /\
  (forall d entry x y,
     w_isfile W json_file = true ->
     w_json_load W json_file = Ok (VDict d) ->
     dict_get d key_name = Some (VDict entry) ->
     dict_get entry "x" = Some (VInt x) ->
     dict_get entry "y" = Some (VInt y) ->
     clicks_at W outcome st1 driver x y
       ("Tapped at (" +:+ str_of_int x +:+ "," +:+ str_of_int y +:+ ") on " +:+ dut)).
Proof.
  intros Hs Hr json_file outcome. subst outcome.
  unfold tap_by_coordinates. run_monad. rewrite Hs, Hr. simpl. fold json_file.
  split; [|split].
  - by intros ->.
  - intros d -> -> Hk. simpl. unfold dict_mem. by rewrite Hk.
  - intros d entry x y -> -> Hk Hx Hy. apply clicks_at_intro. simpl.
    unfold dict_mem. rewrite Hk. simpl. rewrite Hx. simpl. rewrite Hy. simpl.
    unfold after_script. destruct (w_execute_script W _ _ _ _); done.
Qed.

(** *** Shell command *)

Lemma append_cons c s t : String c s +:+ t = String c (s +:+ t).
Proof. reflexivity. Qed.

Lemma append_empty_r s : s +:+ EmptyString = s.
Proof. induction s as [|a s IH]; [done|]. by rewrite append_cons, IH. Qed.

Lemma append_snoc s c t : (s +:+ String c EmptyString) +:+ t = s +:+ String c t.
Proof. induction s as [|a s IH]; [done|]. by rewrite !append_cons, IH. Qed.

(** Leading whitespace is dropped. *)
Lemma split_space c s : isspace c = true -> split (String c s) = split s.
Proof. intros H. unfold split. simpl. by rewrite H. Qed.

Lemma split_from_app cur t s :
  no_space t = true ->
  split_from cur (t +:+ s) = split_from (cur +:+ t) s.
Proof.
  revert cur. induction t as [|c t IH]; intros cur Ht; simpl in *.
  - by rewrite append_empty_r.
  - apply andb_true_iff in Ht as [Hc Ht]. apply negb_true_iff in Hc. rewrite Hc.
    rewrite IH by done. by rewrite append_snoc.
Qed.

(** A token followed by whitespace, or by the end, is the next item. *)
Lemma split_token t s :
  is_token t = true ->
  match s with EmptyString => True | String c _ => isspace c = true end ->
  split (t +:+ s) = t :: split s.
Proof.
  intros Ht Hs. unfold split at 1.
  assert (Hns : no_space t = true) by (by destruct t).
  rewrite (split_from_app EmptyString t s Hns). simpl.
  destruct s as [|c s]; simpl.
  - by destruct t.
  - rewrite Hs. destruct t; [done|]. by rewrite (split_space c s Hs).
Qed.

Lemma split_from_nonempty cur s :
  cur <> EmptyString -> split_from cur s <> [].
Proof.
  revert cur. induction s as [|c s IH]; intros cur Hcur; simpl.
  - by destruct cur.
  - destruct (isspace c).
    + by destruct cur.
    + apply IH. by destruct cur.
Qed.

(** [split] yields something exactly when some character is not
    whitespace. *)
Lemma split_has_token s : has_token s = true <-> split s <> [].
Proof.
  unfold split. induction s as [|c s IH]; simpl; [done|].
  destruct (isspace c); simpl; [exact IH|].
  split; [|done]. intros _. by apply split_from_nonempty.
Qed.

Lemma split_from_tokens cur s :
  no_space cur = true ->
  Forall (fun t => is_token t = true) (split_from cur s).
Proof.
  revert cur. induction s as [|c s IH]; intros cur Hcur; simpl.
  - destruct cur; [constructor | by repeat constructor].
  - destruct (isspace c) eqn:E.
    + destruct cur; [by apply IH | constructor; [done | by apply IH]].
    + apply IH. clear IH. induction cur as [|a cur IHc]; simpl in *.
      * by rewrite E.
      * apply andb_true_iff in Hcur as [-> Hcur]. simpl. by apply IHc.
Qed.

(** Every item of [split] is a non-empty run without whitespace. *)
Lemma split_tokens s : Forall (fun t => is_token t = true) (split s).
Proof. by apply split_from_tokens. Qed.

(** C9, as the code has it.  With a session at hand and a command that
    has a character other than whitespace, [run_command] splits the
    command into its whitespace-separated tokens, sends the first as
    [command] and the others as [args] in one [mobile: shell] call, and
    returns the answer stripped: the answer itself when it is a [str], its
    [stdout] entry when it is a [dict]. *)
Theorem run_command_sends_tokens command dut timeout_ms st driver st1 :
  start_appium_session W dut st = (Ok driver, st1) ->
  has_token command = true ->
  exists head args,
    split command = head :: args /\
    Forall (fun t => is_token t = true) (head :: args) /\
    let request :=
      VDict [("command", VStr head); ("args", VList (map VStr args));
             ("timeout", timeout_ms)] in
    let answer := w_execute_script W (trace st1) driver "mobile: shell" request in
    let outcome := run_command W command dut timeout_ms st in
    snd outcome = record_event (ExecuteScript driver "mobile: shell" request) st1 /\
    (forall out, answer = Ok (VStr out) -> fst outcome = Ok (VStr (strip out))) /\
    (forall d out, answer = Ok (VDict d) -> dict_get d "stdout" = Some (VStr out) ->
                   fst outcome = Ok (VStr (strip out))) /\
    (forall d, answer = Ok (VDict d) -> dict_get d "stdout" = None ->
               fst outcome = Ok (VStr EmptyString)).
Proof.
  intros Hs Htok. apply split_has_token in Htok.
  pose proof (split_tokens command) as Hall.
  destruct (split command) as [|head args] eqn:E; [done|].
  exists head, args. split; [done|]. split; [done|].
  unfold run_command. run_monad. rewrite Hs, E. simpl.
  split; [|split; [|split]].
  - destruct (w_execute_script W _ _ _ _) as [[| | | | |l|d]|e]; simpl; try done.
    by destruct (dict_get d "stdout") as [[]|].
  - by intros out ->.
  - intros d out -> Hout. by rewrite Hout.
  - intros d -> Hout. by rewrite Hout.
Qed.

End KeywordTheorems.

(** C9, as stated, fails on a command made of whitespace only: the
    command is not empty, there are no tokens, nothing is sent to the
    device and the keyword raises [IndexError]. *)
Lemma run_command_whitespace_only :
  " " <> EmptyString /\
  split " " = [] /\
  run_command demo_world " " "Phone" (VInt 5000) demo_session
    = (Raise (IndexError "list index out of range"), demo_session).
Proof. split; [done|]. split; reflexivity. Qed.

(** ** The dependency check *)

Section DependencyCheck.
Context (W : World).

Lemma check_packages_trace pkgs st :
  exists names, trace (snd (check_packages W pkgs st)) = (trace st ++ map FindSpec names)%list.
Proof.
  revert st. induction pkgs as [|[pkg import] pkgs IH]; intros st; simpl.
  - exists []. simpl. by rewrite app_nil_r.
  - unfold bind, emit, modify. simpl.
    destruct (w_find_spec W import); simpl.
    + destruct (IH (record_event (FindSpec import) st)) as [names Hn].
      exists (import :: names). rewrite Hn. simpl. by rewrite <- app_assoc.
    + exists [import]. reflexivity.
Qed.

(** Called by hand, the function does check: it looks up the five
    imports in turn and raises for the first that is missing. *)
Lemma check_packages_missing pkgs st :
  (exists pkg import, (pkg, import) ∈ pkgs /\ w_find_spec W import = false) ->
  exists pkg import,
    (pkg, import) ∈ pkgs /\ w_find_spec W import = false /\
    fst (check_packages W pkgs st) = Raise (MissingDependency pkg).
Proof.
  revert st. induction pkgs as [|[pkg import] pkgs IH]; intros st (p & i & Hin & Hmiss).
  - by apply elem_of_nil in Hin.
  - simpl. unfold bind, emit, modify. simpl.
    destruct (w_find_spec W import) eqn:E; simpl.
    + apply elem_of_cons in Hin as [[= -> ->]|Hin]; [congruence|].
      destruct (IH (record_event (FindSpec import) st)) as (p' & i' & ? & ? & ?); [eauto|].
      exists p', i'. split; [by apply list_elem_of_further | done].
    + exists pkg, import. split; [apply list_elem_of_here | done].
Qed.

Lemma check_raises_when_missing st :
  (exists pkg import, (pkg, import) ∈ required_packages /\ w_find_spec W import = false) ->
  exists pkg, fst (_check_runtime_dependencies W st) = Raise (MissingDependency pkg).
Proof.
  intros H. destruct (check_packages_missing required_packages st H) as (pkg & i & _ & _ & Hr).
  exists pkg. unfold _check_runtime_dependencies. unfold bind at 1.
  destruct (check_packages W required_packages st) as [[[]|e] st']; simpl in *; congruence.
Qed.

(** C7, on the code.  Whatever is installed, constructing the library
    never looks up one of the five imports and never logs that the
    dependencies are there: [_check_runtime_dependencies] is defined
    outside the class, [self._check_runtime_dependencies] raises
    [AttributeError], and [__init__] logs that as the only warning.
    Construction fails only if reading the configuration file does. *)
Theorem init_never_runs_the_dependency_check :
  let outcome := __init__ W blank in
  (forall import_name, FindSpec import_name ∉ trace (snd outcome)) /\
  (Log INFO AllDependenciesInstalled ∉ trace (snd outcome)) /\
  outcome =
    match w_read_ini W (ini_path W) with
    | Ok cfg => (Ok tt, constructed W cfg)
    | Raise e => (Raise e, blank)
    end /\
  trace (snd outcome) =
    match w_read_ini W (ini_path W) with
    | Ok _ => [Log WARN (DependencyCheckSkipped no_check_attribute)]
    | Raise _ => []
    end.
Proof.
  intros outcome. subst outcome. rewrite init_eq.
  destruct (w_read_ini W (ini_path W)) as [cfg|e]; simpl.
  - split; [|split; [|done]].
    + intros name H. apply list_elem_of_singleton in H. discriminate.
    + intros H. apply list_elem_of_singleton in H. discriminate.
  - split; [|split; [|done]].
    + intros name H. by apply elem_of_nil in H.
    + intros H. by apply elem_of_nil in H.
Qed.

End DependencyCheck.



(** ** The statements on the small installation *)

(** The object of the installation is one [__init__] builds. *)
Lemma demo_object_reachable : reachable demo_world demo_object.
Proof. exists demo_object, []. split; reflexivity. Defined.

(** C1 on the installation: [Phone] keeps its driver over an OCR tap and a
    shell command. *)
Lemma start_appium_session_reuses_session_witness :
  let cs := [Tap_By_Text "Login" "Phone";
             Run_Command "input tap 1 2" "Phone" (VInt 5000)] in
  reachable demo_world demo_object /\
  start_appium_session demo_world "Phone" demo_object = (Ok 0%nat, demo_session) /\
  start_appium_session demo_world "Phone" (after_all demo_world cs demo_session)
    = (Ok 0%nat, after_all demo_world cs demo_session).
Proof.
  intros cs. split; [exact demo_object_reachable|]. split; [reflexivity|].
  apply (proj2 (start_appium_session_reuses_session demo_world demo_object
                  demo_object_reachable) "Phone" 0%nat demo_session eq_refl cs).
  intros H. apply elem_of_cons in H as [H|H]; [discriminate|].
  apply elem_of_cons in H as [H|H]; [discriminate|].
  by apply elem_of_nil in H.
Defined.

(** C4 on the installation: there is no section [DUT.Tablet]. *)
Lemma missing_section_raises_before_any_call_witness :
  config_contains (config demo_object) "DUT.Tablet" = false /\
  start_appium_session demo_world "Tablet" demo_object
    = (Raise (Exception "DUT section 'DUT.Tablet' not found"), demo_object).
Proof.
  split; [reflexivity|].
  exact (proj1 (proj2 (missing_section_raises_before_any_call demo_world demo_object
                         "Tablet" demo_object_reachable eq_refl))).
Defined.

(** C10 on the installation, with the server down. *)
Lemma failed_creation_is_not_cached_witness :
  let st1 := record_event (Connect "http://127.0.0.1:4723" demo_caps) demo_object in
  start_appium_session demo_world_server_down "Phone" demo_object
    = (Raise server_down, st1) /\
  drivers st1 = [] /\
  dict_get (drivers st1) "Phone" = None.
Proof.
  intros st1. split; [reflexivity|].
  destruct (failed_creation_is_not_cached demo_world_server_down demo_object "Phone"
              server_down st1 eq_refl) as (Hd & Hn & _).
  split; [exact Hd | exact Hn].
Defined.

(** Both image keywords get to the comparison, whatever the score. *)
Lemma demo_reaches_match shot_prefix image score :
  reaches_match (demo_world_with (fun _ => None) (fun _ => None) score VNone)
    shot_prefix image "Phone" demo_object 0%nat demo_ref (demo_match score)
    (demo_after_shot (String.concat "/" ["/out"; shot_prefix +:+ "1700000000.25" +:+ ".png"])).
Proof.
  exists demo_session, "/proj", "/out", demo_ref. repeat split; reflexivity.
Defined.

(** C2 on the installation: score [0.85] against threshold [0.9]. *)
Lemma verify_image_element_succeeds_iff_witness :
  verify_image_element (demo_world_with (fun _ => None) (fun _ => None) f085 VNone)
      "logo.png" "Phone" f09 demo_object
    = (Raise (AssertionError "Image match failed: score=0.850"),
       demo_after_shot "/out/verify_1700000000.25.png").
Proof.
  destruct (verify_image_element_succeeds_iff _ "logo.png" "Phone" f09 demo_object _ _ _ _
              (demo_reaches_match "verify_" "logo.png" f085)) as (_ & _ & Hlt & _).
  exact (Hlt eq_refl).
Defined.

(** C8 on the installation: best match at [(100, 200)], reference image of
    60 by 40 pixels, score equal to the threshold. *)
Lemma click_by_image_taps_center_witness :
  float_ge f085 f085 = true /\
  trace (snd (click_by_image (demo_world_with (fun _ => None) (fun _ => None) f085 VNone)
                "logo.png" "Phone" f085 demo_object))
    = (trace (demo_after_shot "/out/click_1700000000.25.png")
       ++ [click_gesture 0%nat 130 220])%list.
Proof.
  split; [reflexivity|].
  exact (proj2 (click_by_image_taps_center _ "logo.png" "Phone" f085 demo_object _ _ _ _
                  (demo_reaches_match "click_" "logo.png" f085) eq_refl)).
Defined.

(** [tap_by_text] gets to the loop. *)
Lemma demo_reaches_ocr :
  reaches_ocr demo_world "Phone" demo_object 0%nat demo_ocr
    (demo_after_shot "/out/ocr_screen.png").
Proof. exists demo_session, "/out", demo_ref. repeat split; reflexivity. Defined.

(** C3 on the installation: the second box is the first that reads
    [Login] once stripped. *)
Lemma tap_by_text_taps_first_exact_match_witness :
  ocr_box demo_ocr 1 = Some (" Login ", 40, 20, 41, 12) /\
  trace (snd (tap_by_text demo_world "Login" "Phone" demo_object))
    = (trace (demo_after_shot "/out/ocr_screen.png") ++ [click_gesture 0%nat 60 26])%list.
Proof.
  split; [reflexivity|].
  assert (Hfirst : forall j t', (j < 1)%nat -> ocr_text demo_ocr !! j = Some t' ->
                                strip t' <> "Login").
  { intros j t' Hj Hlook. destruct j as [|j]; [|lia].
    injection Hlook as <-. discriminate. }
  destruct (proj2 (tap_by_text_taps_first_exact_match demo_world "Login" "Phone"
                     demo_object _ _ _ demo_reaches_ocr)
              1%nat " Login " 40 20 41 12 eq_refl eq_refl Hfirst) as [_ Hscreen].
  apply Hscreen; lia.
Defined.

(** C5 on the installation: the key that is there, a file that is not, a
    key that is not. *)
Lemma tap_by_coordinates_lookup_witness :
  trace (snd (tap_by_coordinates demo_world "home.json" "login_button" "Phone" demo_object))
    = (trace demo_session ++ [click_gesture 0%nat 100 200])%list /\
  tap_by_coordinates demo_world "away.json" "login_button" "Phone" demo_object
    = (Raise (AssertionError "JSON file not found: /proj/Resources/Coordinates/away.json"),
       demo_session) /\
  tap_by_coordinates demo_world "home.json" "logout" "Phone" demo_object
    = (Raise (AssertionError "Key 'logout' not found"), demo_session).
Proof.
  split; [|split].
  - destruct (tap_by_coordinates_lookup demo_world "home.json" "login_button" "Phone"
                demo_object 0%nat demo_session "/proj" eq_refl eq_refl) as (_ & _ & H).
    exact (proj2 (H _ _ 100 200 eq_refl eq_refl eq_refl eq_refl eq_refl)).
  - destruct (tap_by_coordinates_lookup demo_world "away.json" "login_button" "Phone"
                demo_object 0%nat demo_session "/proj" eq_refl eq_refl) as (H & _).
    exact (H eq_refl).
  - destruct (tap_by_coordinates_lookup demo_world "home.json" "logout" "Phone"
                demo_object 0%nat demo_session "/proj" eq_refl eq_refl) as (_ & H & _).
    exact (H _ eq_refl eq_refl eq_refl).
Defined.

(** C9 on the installation: a command with blanks around and between its
    tokens. *)
Lemma run_command_sends_tokens_witness :
  has_token " input  tap 1 2 " = true /\
  exists head args,
    split " input  tap 1 2 " = head :: args /\
    snd (run_command demo_world " input  tap 1 2 " "Phone" (VInt 5000) demo_object)
      = record_event
          (ExecuteScript 0%nat "mobile: shell"
             (VDict [("command", VStr head); ("args", VList (map VStr args));
                     ("timeout", VInt 5000)]))
          demo_session.
Proof.
  split; [reflexivity|].
  destruct (run_command_sends_tokens demo_world " input  tap 1 2 " "Phone" (VInt 5000)
              demo_object 0%nat demo_session eq_refl eq_refl)
    as (head & args & Hsplit & _ & Hsnd & _).
  exists head, args. split; [exact Hsplit | exact Hsnd].
Defined.

(** ** Keywords that leave the object alone *)

Lemma marks_app tr tr' : marks (tr ++ tr') = (marks tr ++ marks tr')%list.
Proof. apply List.filter_app. Qed.

Lemma connects_marks tr : connects (marks tr) = connects tr.
Proof.
  induction tr as [|ev tr IH]; simpl; [done|].
  unfold is_mark. destruct (is_connect ev) eqn:E; simpl; rewrite ?E.
  - by rewrite IH.
  - destruct (is_terminate ev); simpl; rewrite ?E; exact IH.
Qed.

Lemma terminates_marks tr : terminates (marks tr) = terminates tr.
Proof.
  induction tr as [|ev tr IH]; simpl; [done|].
  unfold is_mark. destruct (is_terminate ev) eqn:E; simpl; rewrite ?orb_true_r; simpl; rewrite ?E.
  - by rewrite IH.
  - rewrite orb_false_r. destruct (is_connect ev); simpl; rewrite ?E; exact IH.
Qed.

Lemma terminates_elem p tr : Terminate p ∈ tr <-> Terminate p ∈ terminates tr.
Proof.
  unfold terminates. rewrite !list_elem_of_In, List.filter_In. simpl. tauto.
Qed.

Section Quiet.
Context (W : World).

Lemma quiet_refl st : quiet st st.
Proof. by repeat split. Qed.

Lemma quiet_trans st1 st2 st3 : quiet st1 st2 -> quiet st2 st3 -> quiet st1 st3.
Proof.
  unfold quiet. intros (?&?&?&?&?) (?&?&?&?&?).
  repeat split; try congruence. lia.
Qed.

Lemma quietly_ret {A} (a : A) : quietly (ret a).
Proof. intros st. apply quiet_refl. Qed.

Lemma quietly_raise {A} e : quietly (@raise A e).
Proof. intros st. apply quiet_refl. Qed.

Lemma quietly_lift {A} (r : result A) : quietly (lift r).
Proof. intros st. apply quiet_refl. Qed.

Lemma quietly_get : quietly get.
Proof. intros st. apply quiet_refl. Qed.

Lemma quietly_check o : quietly (check o).
Proof. destruct o; [apply quietly_raise | apply quietly_ret]. Qed.

Lemma quietly_emit ev : is_mark ev = false -> quietly (emit ev).
Proof.
  intros Hev st. repeat split; simpl; [lia|].
  rewrite marks_app. simpl. rewrite Hev. apply app_nil_r.
Qed.

Lemma quietly_new_object : quietly (modify new_object).
Proof. intros st. repeat split; simpl. lia. Qed.

Lemma quietly_bind {A B} (m : M A) (k : A -> M B) :
  quietly m -> (forall a, quietly (k a)) -> quietly (bind m k).
Proof.
  intros Hm Hk st. unfold bind. specialize (Hm st).
  destruct (m st) as [[a|e] st1]; simpl in *; [|done].
  eapply quiet_trans; [exact Hm | apply Hk].
Qed.

Ltac quietly_step :=
  match goal with
  | |- quietly (bind _ _) => apply quietly_bind; [|intros ?]
  | |- quietly (emit _) => apply quietly_emit; reflexivity
  | |- quietly (ret _) => apply quietly_ret
  | |- quietly (raise _) => apply quietly_raise
  | |- quietly (lift _) => apply quietly_lift
  | |- quietly get => apply quietly_get
  | |- quietly (check _) => apply quietly_check
  | |- quietly (modify new_object) => apply quietly_new_object
  | |- quietly (match ?x with _ => _ end) => destruct x
  | |- quietly (if ?b then _ else _) => destruct b
  | |- quietly _ => assumption
  | |- quietly _ => progress cbv zeta
  end.
Ltac quietly_auto :=
  unfold driver_quit, driver_execute_script, driver_save_screenshot,
    driver_find_elements, element_text, driver_get_window_size, subprocess_Popen,
    subprocess_run, get_variable_value, os_path_join, cv2_imread, cv2_match,
    image_to_data, time_time;
  repeat quietly_step.

Lemma quietly_quit_each ds : quietly (quit_each W ds).
Proof.
  induction ds as [|d ds IH]; simpl; [apply quietly_ret|]. quietly_auto.
Qed.

Lemma quietly_visible_texts d els : quietly (visible_texts W d els).
Proof.
  induction els as [|el els IH]; simpl; [apply quietly_ret|]. quietly_auto.
Qed.

Lemma quietly_tap_first_match d expected ocr texts :
  forall i, quietly (tap_first_match W d expected ocr i texts).
Proof.
  induction texts as [|t texts IH]; intros i; simpl; [apply quietly_raise|].
  destruct (String.eqb (strip t) expected); [|apply IH].
  unfold tap_box. quietly_auto.
Qed.

Lemma quietly_get_device_id name : quietly (get_device_id name).
Proof. unfold get_device_id. quietly_auto. Qed.

Lemma quietly_Test_Video v w t : quietly (Test_Video W v w t).
Proof. unfold Test_Video. quietly_auto. Qed.

(** What a keyword does once it has its session is quiet. *)
Lemma bind_start_quiet {B} name (k : Driver -> M B) st :
  (forall d, quietly (k d)) ->
  quiet (snd (start_appium_session W name st))
        (snd (bind (start_appium_session W name) k st)).
Proof.
  intros Hk. unfold bind.
  destruct (start_appium_session W name st) as [[d|e] st1]; simpl.
  - apply Hk.
  - apply quiet_refl.
Qed.

Lemma session_keyword_quiet c name st :
  session_of c = Some name ->
  quiet (snd (start_appium_session W name st)) (after W c st).
Proof.
  pose proof quietly_tap_first_match as Htap.
  pose proof quietly_visible_texts as Hvis.
  destruct c; simpl; intros [= <-]; try apply quiet_refl;
    apply bind_start_quiet; intros ?;
    unfold scroll_gesture; quietly_auto; first [apply Htap | apply Hvis].
Qed.

End Quiet.

(** ** What each keyword may change *)

Section Effects.
Context (W : World).

(** [start_appium_session] leaves the recording alone, creates at most
    one object and terminates nothing. *)
Lemma start_effect st name :
  let st' := snd (start_appium_session W name st) in
  recording st' = recording st /\ (next_object st <= next_object st')%nat /\
  terminates (trace st') = terminates (trace st).
Proof.
  destruct (dict_get (drivers st) name) as [d|] eqn:E.
  - rewrite (start_cached _ _ _ _ E). simpl. split; [done | split; [lia | done]].
  - rewrite (start_uncached _ _ _ E). simpl.
    destruct (negb _); [simpl; split; [done | split; [lia | done]]|].
    destruct (w_load_capabilities W _); [simpl; split; [done | split; [lia | done]]|].
    destruct (w_remote W _ _); simpl; (split; [done | split; [lia|]]);
      unfold terminates; rewrite List.filter_app; simpl; apply app_nil_r.
Qed.

(** A new session goes to the end of the registry and takes the next
    identity. *)
Lemma start_ordered st name :
  registry_ordered st -> registry_ordered (snd (start_appium_session W name st)).
Proof.
  intros [Hs Hb].
  destruct (dict_get (drivers st) name) as [d|] eqn:E.
  - by rewrite (start_cached _ _ _ _ E).
  - rewrite (start_uncached _ _ _ E). simpl.
    destruct (negb _); [done|]. destruct (w_load_capabilities W _); [done|].
    destruct (w_remote W _ _); [done|].
    unfold registry_ordered. simpl. rewrite (dict_set_fresh _ _ _ E).
    unfold dict_values in *. rewrite map_app. simpl. split.
    + clear E. induction (map snd (drivers st)) as [|x l IH]; simpl.
      * repeat constructor.
      * apply StronglySorted_inv in Hs as [Hs Hx].
        apply Forall_cons in Hb as [Hxb Hb].
        constructor; [by apply IH|].
        apply Forall_app. split; [done|]. by repeat constructor.
    + apply Forall_app. split.
      * eapply Forall_impl; [exact Hb|]. simpl. intros; lia.
      * repeat constructor.
Qed.

Lemma quiet_ordered st st' : quiet st st' -> registry_ordered st -> registry_ordered st'.
Proof.
  intros (Hd & _ & _ & Hn & _) [Hs Hb]. unfold registry_ordered. rewrite Hd.
  split; [done|]. eapply Forall_impl; [exact Hb|]. simpl. intros; lia.
Qed.

Lemma stop_effect st :
  let st' := snd (stop_appium_session W st) in
  (drivers st' = drivers st \/ drivers st' = []) /\
  config st' = config st /\ recording st' = recording st /\
  (next_object st <= next_object st')%nat /\
  marks (trace st') = marks (trace st).
Proof.
  unfold stop_appium_session, bind, get. simpl.
  pose proof (quietly_quit_each W (dict_values (drivers st)) st) as (Hd & Hc & Hr & Hn & Ht).
  destruct (quit_each W _ st) as [[[]|e] st1]; simpl in *; auto 10.
Qed.

Lemma start_screen_recording_effect st name test :
  let st' := snd (start_screen_recording W name test st) in
  drivers st' = drivers st /\ config st' = config st /\
  (next_object st <= next_object st')%nat /\
  marks (trace st') = marks (trace st).
Proof.
  unfold start_screen_recording, get_device_id, bind, get. simpl.
  destruct (negb _); [simpl; repeat split; lia|]. simpl.
  destruct (config_getitem _ _ !! "device_id") as [id|]; [|simpl; repeat split; lia].
  unfold subprocess_Popen, bind, get, emit, modify, check. simpl.
  destruct (w_popen W _ _); simpl; repeat split; try lia;
    rewrite marks_app; simpl; apply app_nil_r.
Qed.

(** [stop_screen_recording], in full. *)
Lemma stop_screen_recording_eq st dut local :
  stop_screen_recording W dut local st =
    match recording st with
    | None =>
        (Raise (AttributeError "'AppiumKeywords' object has no attribute '_screen_proc'"), st)
    | Some r =>
        let st1 := record_event (Wait (_screen_proc r))
                     (record_event (Terminate (_screen_proc r)) st) in
        (match w_run W (trace st1) (pull_command r local) with
         | None => Ok local
         | Some e => Raise e
         end,
         record_event (Run (pull_command r local)) st1)
    end.
Proof.
  unfold stop_screen_recording, bind, get. simpl.
  destruct (recording st) as [r|]; [|done].
  unfold subprocess_run, bind, get, emit, modify, check. simpl.
  unfold pull_command. by destruct (w_run W _ _).
Qed.

Lemma stop_screen_recording_effect st dut local :
  let st' := snd (stop_screen_recording W dut local st) in
  drivers st' = drivers st /\ config st' = config st /\ recording st' = recording st /\
  next_object st' = next_object st /\
  marks (trace st') =
    (marks (trace st) ++
     match recording st with Some r => [Terminate (_screen_proc r)] | None => [] end)%list.
Proof.
  rewrite stop_screen_recording_eq. destruct (recording st) as [r|] eqn:E; simpl; rewrite ?E.
  - repeat split. unfold marks. rewrite !List.filter_app. simpl. by rewrite !app_nil_r.
  - repeat split. by rewrite app_nil_r.
Qed.

Lemma after_ordered c st : registry_ordered st -> registry_ordered (after W c st).
Proof.
  intros Hok. destruct (session_of c) as [name|] eqn:Hc.
  - eapply quiet_ordered; [by apply session_keyword_quiet|]. by apply start_ordered.
  - destruct c; try discriminate; simpl.
    + eapply quiet_ordered; [apply quietly_get_device_id | done].
    + destruct (stop_effect st) as ([Hd|Hd] & _ & _ & Hn & _);
        destruct Hok as [Hs Hb]; unfold registry_ordered; rewrite Hd.
      * split; [done|]. eapply Forall_impl; [exact Hb|]. simpl. intros; lia.
      * split; constructor.
    + destruct (start_screen_recording_effect st dut_name test_name) as (Hd & _ & Hn & _).
      destruct Hok as [Hs Hb]. unfold registry_ordered. rewrite Hd.
      split; [done|]. eapply Forall_impl; [exact Hb|]. simpl. intros; lia.
    + destruct (stop_screen_recording_effect st dut_name local_video_path) as (Hd & _ & _ & Hn & _).
      destruct Hok as [Hs Hb]. unfold registry_ordered. rewrite Hd, Hn. done.
    + eapply quiet_ordered; [apply quietly_Test_Video | done].
Qed.

Lemma after_all_ordered cs st :
  registry_ordered st -> registry_ordered (after_all W cs st).
Proof.
  revert st. induction cs as [|c cs IH]; intros st Hok; simpl; [done|].
  apply IH. by apply after_ordered.
Qed.

Lemma after_next_object c st : (next_object st <= next_object (after W c st))%nat.
Proof.
  destruct (session_of c) as [name|] eqn:Hc.
  - pose proof (session_keyword_quiet W c name st Hc) as (_ & _ & _ & Hn & _).
    pose proof (start_effect st name) as (_ & Hs & _). simpl in Hs. lia.
  - destruct c; try discriminate; simpl.
    + apply (quietly_get_device_id dut_name st).
    + apply (stop_effect st).
    + apply (start_screen_recording_effect st dut_name test_name).
    + destruct (stop_screen_recording_effect st dut_name local_video_path) as (_ & _ & _ & Hn & _).
      simpl in Hn. lia.
    + apply (quietly_Test_Video W video_path width title st).
Qed.

Lemma after_all_next_object cs st :
  (next_object st <= next_object (after_all W cs st))%nat.
Proof.
  revert st. induction cs as [|c cs IH]; intros st; simpl; [lia|].
  etrans; [apply (after_next_object c) | apply IH].
Qed.

Lemma after_recording c st :
  is_start_recording c = false -> recording (after W c st) = recording st.
Proof.
  intros Hrec. destruct (session_of c) as [name|] eqn:Hc.
  - pose proof (session_keyword_quiet W c name st Hc) as (_ & _ & Hr & _).
    rewrite Hr. apply (start_effect st name).
  - destruct c; try discriminate; simpl.
    + apply (quietly_get_device_id dut_name st).
    + apply (stop_effect st).
    + apply (stop_screen_recording_effect st dut_name local_video_path).
    + apply (quietly_Test_Video W video_path width title st).
Qed.

Lemma after_all_recording cs st :
  forallb (fun c => negb (is_start_recording c)) cs = true ->
  recording (after_all W cs st) = recording st.
Proof.
  revert st. induction cs as [|c cs IH]; intros st Hcs; simpl in *; [done|].
  apply andb_true_iff in Hcs as [Hc Hcs]. apply negb_true_iff in Hc.
  rewrite IH by done. by apply after_recording.
Qed.

(** With its session open, or with none to ask for, a keyword opens no
    connection. *)
Lemma after_connects c st :
  (forall name, session_of c = Some name -> is_Some (dict_get (drivers st) name)) ->
  connects (trace (after W c st)) = connects (trace st).
Proof.
  intros Hcached. rewrite <- (connects_marks (trace (after W c st))), <- (connects_marks (trace st)).
  destruct (session_of c) as [name|] eqn:Hc.
  - destruct (Hcached name eq_refl) as [d Hd].
    pose proof (session_keyword_quiet W c name st Hc) as (_ & _ & _ & _ & Ht).
    rewrite (start_cached _ _ _ _ Hd) in Ht. simpl in Ht. by rewrite Ht.
  - destruct c; try discriminate; simpl.
    + by destruct (quietly_get_device_id dut_name st) as (_ & _ & _ & _ & ->).
    + by destruct (stop_effect st) as (_ & _ & _ & _ & ->).
    + by destruct (start_screen_recording_effect st dut_name test_name) as (_ & _ & _ & ->).
    + destruct (stop_screen_recording_effect st dut_name local_video_path)
        as (_ & _ & _ & _ & ->).
      unfold connects. rewrite List.filter_app.
      destruct (recording st); simpl; by rewrite app_nil_r.
    + by destruct (quietly_Test_Video W video_path width title st) as (_ & _ & _ & _ & ->).
Qed.

(** Only [stop_screen_recording] terminates a process, and only the one
    of the recording attributes. *)
Lemma after_terminates c st :
  terminates (trace (after W c st)) =
    (terminates (trace st) ++
     match recording st with
     | Some r => if is_stop_recording c then [Terminate (_screen_proc r)] else []
     | None => []
     end)%list.
Proof.
  assert (Hnil : forall tr : list event,
            (tr ++ match recording st with
                   | Some r => if false then [Terminate (_screen_proc r)] else []
                   | None => []
                   end)%list = tr).
  { intros tr. destruct (recording st); apply app_nil_r. }
  rewrite <- (terminates_marks (trace (after W c st))), <- (terminates_marks (trace st)).
  destruct (session_of c) as [name|] eqn:Hc.
  - pose proof (session_keyword_quiet W c name st Hc) as (_ & _ & _ & _ & Ht).
    rewrite Ht, !terminates_marks.
    destruct (start_effect st name) as (_ & _ & ->).
    destruct c; try discriminate; simpl; by rewrite Hnil.
  - destruct c; try discriminate; simpl; rewrite ?Hnil.
    + by destruct (quietly_get_device_id dut_name st) as (_ & _ & _ & _ & ->).
    + by destruct (stop_effect st) as (_ & _ & _ & _ & ->).
    + by destruct (start_screen_recording_effect st dut_name test_name) as (_ & _ & _ & ->).
    + destruct (stop_screen_recording_effect st dut_name local_video_path)
        as (_ & _ & _ & _ & ->).
      unfold terminates at 1. rewrite List.filter_app. fold (terminates (marks (trace st))).
      by destruct (recording st).
    + by destruct (quietly_Test_Video W video_path width title st) as (_ & _ & _ & _ & ->).
Qed.

End Effects.

(** ** Sessions are distinct objects *)

Lemma StronglySorted_lt_NoDup (l : list nat) : StronglySorted lt l -> NoDup l.
Proof.
  induction 1 as [|x l Hs IH Hx]; [apply NoDup_nil_2|].
  apply NoDup_cons_2; [|done].
  intros Hin. rewrite Forall_forall in Hx. specialize (Hx x Hin). lia.
Qed.

Lemma dict_get_lookup {V} (d : list (string * V)) k v :
  dict_get d k = Some v -> exists i, d !! i = Some (k, v).
Proof.
  induction d as [|[k' v'] d IH]; simpl; [done|].
  destruct (String.eqb k' k) eqn:E.
  - apply String.eqb_eq in E as ->. intros [= ->]. by exists 0%nat.
  - intros H. destruct (IH H) as [i Hi]. by exists (S i).
Qed.

Lemma dict_values_get {V} (d : list (string * V)) v :
  NoDup (dict_keys d) -> v ∈ dict_values d -> exists k, dict_get d k = Some v.
Proof.
  induction d as [|[k' v'] d IH]; simpl; intros Hnd Hin.
  - by apply elem_of_nil in Hin.
  - apply NoDup_cons in Hnd as [Hk' Hnd].
    apply elem_of_cons in Hin as [->|Hin].
    + exists k'. by rewrite String.eqb_refl.
    + destruct (IH Hnd Hin) as [k Hk]. exists k.
      destruct (String.eqb k' k) eqn:E; [|done].
      apply String.eqb_eq in E as ->. by apply dict_get_Some_keys in Hk.
Qed.

Section Sessions.
Context (W : World).

Lemma init_ordered st0 :
  __init__ W blank = (Ok tt, st0) ->
  registry_ordered st0 /\ recording st0 = None /\ trace st0 = [Log WARN (DependencyCheckSkipped no_check_attribute)].
Proof.
  rewrite init_eq. destruct (w_read_ini W (ini_path W)); [|done].
  intros [= <-]. repeat split; constructor.
Qed.

Lemma reachable_ordered st : reachable W st -> registry_ordered st.
Proof.
  intros (st0 & cs & Hinit & ->). apply after_all_ordered. by apply init_ordered.
Qed.

(** X1.  On every library object the drivers of the registry are in the
    order they were created: the registry lists them by increasing
    identity, each is an object created before now, and two device names
    never share a driver. *)
Theorem sessions_are_distinct_objects st :
  reachable W st ->
  StronglySorted lt (dict_values (drivers st)) /\
  (forall d, d ∈ dict_values (drivers st) -> (d < next_object st)%nat) /\
  forall name1 name2 d1 d2,
    dict_get (drivers st) name1 = Some d1 ->
    dict_get (drivers st) name2 = Some d2 ->
    name1 <> name2 -> d1 <> d2.
Proof.
  intros Hreach. destruct (reachable_ordered st Hreach) as [Hs Hb].
  split; [done|]. split.
  - intros d Hd. rewrite Forall_forall in Hb. by apply Hb.
  - intros name1 name2 d1 d2 H1 H2 Hne ->.
    apply dict_get_lookup in H1 as [i Hi]. apply dict_get_lookup in H2 as [j Hj].
    assert (Hij : i = j).
    { apply (NoDup_lookup (dict_values (drivers st)) i j d2).
      - by apply StronglySorted_lt_NoDup.
      - unfold dict_values. by rewrite list_lookup_fmap, Hi.
      - unfold dict_values. by rewrite list_lookup_fmap, Hj. }
    subst j. congruence.
Qed.

Lemma stop_Ok st st1 :
  stop_appium_session W st = (Ok tt, st1) ->
  drivers st1 = [] /\ config st1 = config st /\ (next_object st <= next_object st1)%nat.
Proof.
  intros Hstop. pose proof (stop_effect W st) as (_ & Hc & _ & Hn & _).
  rewrite Hstop in Hc, Hn. simpl in *. split; [|done].
  unfold stop_appium_session, bind, get in Hstop. simpl in Hstop.
  destruct (quit_each W _ st) as [[[]|e] st']; [|done].
  by injection Hstop as <-.
Qed.

(** X2.  After a teardown that returned, the next request for a device
    opens a new connection, and the driver it returns is a new object:
    none of the drivers that were told to quit.  It is then the only
    entry of the registry. *)
Theorem session_after_teardown_is_new st st1 name d st2 :
  reachable W st ->
  stop_appium_session W st = (Ok tt, st1) ->
  start_appium_session W name st1 = (Ok d, st2) ->
  (d ∉ dict_values (drivers st)) /\
  drivers st2 = [(name, d)] /\
  trace st2 =
    (trace st1 ++ [Connect "http://127.0.0.1:4723"
                     (config_getitem (config st) ("DUT." +:+ name))])%list.
Proof.
  intros Hreach Hstop Hstart.
  destruct (stop_Ok _ _ Hstop) as (Hd & Hc & Hn).
  destruct (reachable_ordered st Hreach) as [_ Hb].
  rewrite start_uncached in Hstart by (by rewrite Hd). simpl in Hstart.
  destruct (negb _); [done|]. destruct (w_load_capabilities W _); [done|].
  destruct (w_remote W _ _); [done|]. injection Hstart as <- <-. simpl.
  rewrite Hd, Hc. split; [|done].
  intros Hin. rewrite Forall_forall in Hb. specialize (Hb _ Hin). lia.
Qed.

(** X3.  After a teardown that raised, every session is still in the
    registry, the one whose [quit] raised included, and the last thing
    done was that [quit]; whatever keywords come next, short of another
    teardown, a request for one of these devices returns the driver it
    had, without a new connection. *)
Theorem failed_teardown_keeps_sessions st e st1 :
  reachable W st ->
  stop_appium_session W st = (Raise e, st1) ->
  (exists name d, dict_get (drivers st1) name = Some d /\ last (trace st1) = Some (Quit d)) /\
  forall name d cs,
    dict_get (drivers st) name = Some d ->
    Stop_Appium_Session ∉ cs ->
    start_appium_session W name (after_all W cs st1) = (Ok d, after_all W cs st1).
Proof.
  intros Hreach Hstop.
  assert (Hd : drivers st1 = drivers st /\
               exists before d rest,
                 dict_values (drivers st) = (before ++ d :: rest)%list /\
                 trace st1 = (trace st ++ map Quit (before ++ [d]))%list).
  { unfold stop_appium_session, bind, get in Hstop. simpl in Hstop.
    pose proof (keeps_quit_each W (dict_values (drivers st)) st) as (Hd & _).
    destruct (quit_each W _ st) as [[[]|e'] st'] eqn:Eq; [done|].
    injection Hstop as <- <-. split; [done|].
    apply quit_each_Raise in Eq as (before & d & rest & ? & ? & _). eauto. }
  destruct Hd as (Hd & before & d & rest & Hvals & Htr). split.
  - destruct (dict_values_get (drivers st) d) as [name Hname].
    + by apply (reachable_registry_ok W).
    + rewrite Hvals. apply elem_of_app. right. apply list_elem_of_here.
    + exists name, d. rewrite Hd. split; [done|].
      rewrite Htr, map_app, app_assoc. simpl. apply last_snoc.
  - intros name d' cs Hname Hcs.
    apply start_cached, after_all_keeps_entry; [done|]. by rewrite Hd.
Qed.

(** X4.  Keywords that ask for devices whose session is open, or for
    none, open no connection, however many they are: the connections the
    trace shows are those it showed before. *)
Theorem open_sessions_are_not_reconnected st cs :
  Stop_Appium_Session ∉ cs ->
  (forall c name, c ∈ cs -> session_of c = Some name -> is_Some (dict_get (drivers st) name)) ->
  connects (trace (after_all W cs st)) = connects (trace st).
Proof.
  revert st. induction cs as [|c cs IH]; intros st Hstop Hopen; simpl; [done|].
  apply not_elem_of_cons in Hstop as [Hc Hstop].
  rewrite IH; [| done |].
  - apply after_connects. intros name Hname. apply (Hopen c); [apply list_elem_of_here | done].
  - intros c' name Hc' Hname.
    destruct (Hopen c' name) as [d Hd]; [by apply list_elem_of_further | done|].
    exists d. apply after_keeps_entry; [congruence | done].
Qed.

End Sessions.

(** ** The recording handle *)

Section RecordingHandle.
Context (W : World).

(** [start_screen_recording], when it returns. *)
Lemma start_screen_recording_Ok st name test path st1 :
  start_screen_recording W name test st = (Ok path, st1) ->
  exists id,
    config_getitem (config st) ("DUT." +:+ name) !! "device_id" = Some id /\
    path = "/sdcard/" +:+ id +:+ "_" +:+ w_now W (trace st) +:+ "_" +:+ test +:+ ".mp4" /\
    st1 = set_recording (mkRecording (next_object st) path id)
            (new_object
               (record_event (Popen ["adb"; "-s"; id; "shell"; "screenrecord"; path]) st)).
Proof.
  unfold start_screen_recording, get_device_id, bind, get. simpl.
  destruct (negb _); [done|]. simpl.
  destruct (config_getitem _ _ !! "device_id") as [id|]; [|done].
  unfold subprocess_Popen, bind, get, emit, modify, check. simpl.
  destruct (w_popen W _ _); [done|]. simpl.
  intros [= <- <-]. by exists id.
Qed.

(** X5.  On an object on which [start_screen_recording] was never called,
    whatever else was, [stop_screen_recording] raises [AttributeError]:
    it terminates nothing and runs no [adb pull]. *)
Theorem stop_screen_recording_needs_a_start st0 cs dut local :
  __init__ W blank = (Ok tt, st0) ->
  forallb (fun c => negb (is_start_recording c)) cs = true ->
  stop_screen_recording W dut local (after_all W cs st0) =
    (Raise (AttributeError "'AppiumKeywords' object has no attribute '_screen_proc'"),
     after_all W cs st0).
Proof.
  intros Hinit Hcs. rewrite stop_screen_recording_eq, (after_all_recording W) by done.
  by destruct (init_ordered W st0 Hinit) as (_ & -> & _).
Qed.


Lemma init_processes_known st0 : __init__ W blank = (Ok tt, st0) -> processes_known st0.
Proof.
  intros Hinit. destruct (init_ordered W st0 Hinit) as (_ & Hr & Ht). split.
  - intros r. by rewrite Hr.
  - intros p. rewrite Ht. intros H. apply list_elem_of_singleton in H. discriminate.
Qed.

Lemma after_processes_known c st : processes_known st -> processes_known (after W c st).
Proof.
  intros [Hr Ht]. pose proof (after_next_object W c st) as Hn. split.
  - intros r. destruct (is_start_recording c) eqn:Ec.
    + destruct c; try discriminate. simpl in *.
      destruct (start_screen_recording W dut_name test_name st) as [[path|e] st1] eqn:Es.
      * apply start_screen_recording_Ok in Es as (id & _ & _ & ->). simpl.
        intros [= <-]. simpl. lia.
      * pose proof (after_recording W) as Hsame.
        unfold start_screen_recording, get_device_id, bind, get in Es. simpl in Es.
        destruct (negb _); [injection Es as <- <-; simpl; intros Hrec; apply Hr in Hrec; lia|].
        simpl in Es.
        destruct (config_getitem _ _ !! "device_id") as [id|];
          [|injection Es as <- <-; simpl; intros Hrec; apply Hr in Hrec; lia].
        unfold subprocess_Popen, bind, get, emit, modify, check in Es. simpl in Es.
        destruct (w_popen W _ _); [|done]. injection Es as <- <-. simpl.
        intros Hrec. apply Hr in Hrec. lia.
    + rewrite (after_recording W) by done. intros Hrec. apply Hr in Hrec. lia.
  - intros p. rewrite terminates_elem, after_terminates, elem_of_app, <- terminates_elem.
    intros [Hp|Hp]; [apply Ht in Hp; lia|].
    destruct (recording st) as [r|] eqn:Er; [|by apply elem_of_nil in Hp].
    destruct (is_stop_recording c); [|by apply elem_of_nil in Hp].
    apply list_elem_of_singleton in Hp. injection Hp as ->.
    specialize (Hr r eq_refl). lia.
Qed.

Lemma reachable_processes_known st : reachable W st -> processes_known st.
Proof.
  intros (st0 & cs & Hinit & ->). apply init_processes_known in Hinit.
  revert st0 Hinit. induction cs as [|c cs IH]; intros st0 Hk; simpl; [done|].
  apply IH. by apply after_processes_known.
Qed.

Lemma after_orphaned p c st : orphaned p st -> orphaned p (after W c st).
Proof.
  intros (Hn & Hr & Ht). pose proof (after_next_object W c st) as Hle.
  split; [lia|]. split.
  - intros r. destruct (is_start_recording c) eqn:Ec.
    + destruct c; try discriminate. simpl in *.
      destruct (start_screen_recording W dut_name test_name st) as [[path|e] st1] eqn:Es.
      * apply start_screen_recording_Ok in Es as (id & _ & _ & ->). simpl.
        intros [= <-]. simpl. lia.
      * unfold start_screen_recording, get_device_id, bind, get in Es. simpl in Es.
        destruct (negb _); [injection Es as <- <-; simpl; apply Hr|].
        simpl in Es.
        destruct (config_getitem _ _ !! "device_id") as [id|];
          [|injection Es as <- <-; simpl; apply Hr].
        unfold subprocess_Popen, bind, get, emit, modify, check in Es. simpl in Es.
        destruct (w_popen W _ _); [|done]. injection Es as <- <-. simpl. apply Hr.
    + rewrite (after_recording W) by done. apply Hr.
  - rewrite terminates_elem, after_terminates, elem_of_app, <- terminates_elem.
    intros [Hp|Hp]; [done|].
    destruct (recording st) as [r|] eqn:Er; [|by apply elem_of_nil in Hp].
    destruct (is_stop_recording c); [|by apply elem_of_nil in Hp].
    apply list_elem_of_singleton in Hp. injection Hp as ->.
    specialize (Hr r eq_refl). lia.
Qed.

Lemma after_all_orphaned p cs st : orphaned p st -> orphaned p (after_all W cs st).
Proof.
  revert st. induction cs as [|c cs IH]; intros st Horph; simpl; [done|].
  apply IH. by apply after_orphaned.
Qed.

(** Keywords other than [stop_screen_recording] terminate nothing. *)
Lemma after_all_no_terminate p cs st :
  forallb (fun c => negb (is_stop_recording c)) cs = true ->
  Terminate p ∉ trace st -> Terminate p ∉ trace (after_all W cs st).
Proof.
  revert st. induction cs as [|c cs IH]; intros st Hcs Hno; simpl in *; [done|].
  apply andb_true_iff in Hcs as [Hc Hcs]. apply negb_true_iff in Hc.
  apply IH; [done|].
  rewrite terminates_elem, after_terminates, Hc.
  destruct (recording st); by rewrite app_nil_r, <- terminates_elem.
Qed.

(** X7.  There is one recording handle for all devices.  When
    [start_screen_recording] returns a second time before
    [stop_screen_recording] was called, the first recording process is
    lost: it is another process than the second, which the handle now
    names, and whatever keywords follow, the library never terminates
    it. *)
Theorem second_recording_orphans_first st name1 test1 path1 st1 cs name2 test2 path2 st2 :
  reachable W st ->
  start_screen_recording W name1 test1 st = (Ok path1, st1) ->
  forallb (fun c => negb (is_stop_recording c)) cs = true ->
  start_screen_recording W name2 test2 (after_all W cs st1) = (Ok path2, st2) ->
  let first := next_object st in
  let second := next_object (after_all W cs st1) in
  first <> second /\
  (exists r, recording st2 = Some r /\ _screen_proc r = second) /\
  forall cs', Terminate first ∉ trace (after_all W cs' st2).
Proof.
  intros Hreach Hs1 Hcs Hs2 first second.
  apply start_screen_recording_Ok in Hs1 as (id1 & _ & _ & Hst1).
  apply start_screen_recording_Ok in Hs2 as (id2 & _ & _ & Hst2).
  assert (Hn1 : next_object st1 = S first) by (by rewrite Hst1).
  pose proof (after_all_next_object W cs st1) as Hle. fold second in Hle.
  assert (Hno1 : Terminate first ∉ trace st1).
  { rewrite Hst1. simpl. intros Hin. apply elem_of_app in Hin as [Hin|Hin].
    - destruct (reachable_processes_known st Hreach) as [_ Ht].
      apply Ht in Hin. subst first. lia.
    - apply list_elem_of_singleton in Hin. discriminate. }
  split; [lia|]. split; [rewrite Hst2; by eexists|].
  intros cs'. apply after_all_orphaned.
  rewrite Hst2. split; [simpl; fold second; lia|]. split.
  - simpl. intros r [= <-]. simpl. fold second. lia.
  - simpl. intros Hin. apply elem_of_app in Hin as [Hin|Hin].
    + revert Hin. by apply after_all_no_terminate.
    + apply list_elem_of_singleton in Hin. discriminate.
Qed.

End RecordingHandle.

(** ** Text verification *)

Lemma record_events_app evs evs' st :
  record_events (evs ++ evs') st = record_events evs' (record_events evs st).
Proof. apply fold_left_app. Qed.

Lemma record_events_trace evs st : trace (record_events evs st) = (trace st ++ evs)%list.
Proof.
  revert st. induction evs as [|ev evs IH]; intros st; simpl.
  - by rewrite app_nil_r.
  - rewrite IH. simpl. by rewrite <- app_assoc.
Qed.

Lemma existsb_eqb_elem s (l : list string) : existsb (String.eqb s) l = true <-> s ∈ l.
Proof.
  rewrite existsb_exists, list_elem_of_In. split.
  - intros (x & Hx & E). apply String.eqb_eq in E. by subst.
  - intros H. exists s. split; [done | apply String.eqb_refl].
Qed.

(** *** [strip] strips once and for all *)

Lemma lstrip_head s :
  match lstrip s with EmptyString => True | String c _ => isspace c = false end.
Proof.
  induction s as [|c s IH]; simpl; [done|]. destruct (isspace c) eqn:E; [exact IH | done].
Qed.

Lemma lstrip_id s :
  match s with EmptyString => True | String c _ => isspace c = false end -> lstrip s = s.
Proof. destruct s as [|c s]; simpl; [done|]. by intros ->. Qed.

Lemma rstrip_head c s : isspace c = false -> rstrip (String c s) = String c (rstrip s).
Proof. intros H. simpl. rewrite H. by destruct (rstrip s). Qed.

Lemma rstrip_rstrip s : rstrip (rstrip s) = rstrip s.
Proof.
  induction s as [|c s IH]; simpl; [done|].
  destruct (rstrip s) as [|c' r] eqn:E.
  - destruct (isspace c) eqn:Ec; simpl; [done|]. by rewrite Ec.
  - simpl. simpl in IH. by rewrite IH.
Qed.

Lemma strip_strip s : strip (strip s) = strip s.
Proof.
  unfold strip. pose proof (lstrip_head s) as Hh.
  destruct (lstrip s) as [|c s'] eqn:E; [done|].
  rewrite (rstrip_head c s' Hh), (lstrip_id (String c (rstrip s')) Hh).
  rewrite <- (rstrip_head c s' Hh). apply rstrip_rstrip.
Qed.

Section TextVerification.
Context (W : World).

(** When every read of an element's text gives the same answer, the
    comprehension yields the stripped texts that are not blank, after one
    read per element and one more per element kept. *)
Lemma visible_texts_eq driver text elements :
  (forall tr el, el ∈ elements -> w_element_text W tr driver el = Ok (text el)) ->
  forall st,
    visible_texts W driver elements st =
      (Ok (shown_texts text elements), record_events (text_reads driver text elements) st).
Proof.
  induction elements as [|el els IH]; intros Htext st; [done|].
  assert (Hel : forall tr, w_element_text W tr driver el = Ok (text el)).
  { intros tr. apply Htext, list_elem_of_here. }
  assert (Hels : forall tr el', el' ∈ els -> w_element_text W tr driver el' = Ok (text el')).
  { intros tr el' Hin. by apply Htext, list_elem_of_further. }
  simpl. unfold bind at 1. unfold element_text at 1. unfold bind, get, emit, modify, lift.
  simpl. rewrite Hel. unfold shown_texts, text_reads. simpl.
  destruct (strip (text el)) as [|c s] eqn:E; simpl.
  - rewrite (IH Hels). reflexivity.
  - unfold element_text, bind, get, emit, modify, lift. simpl. rewrite Hel.
    rewrite (IH Hels). simpl. by rewrite E.
Qed.

(** What the comprehension yields is stripped already, whatever the reads
    answer. *)
Lemma visible_texts_stripped driver elements :
  forall st texts st',
    visible_texts W driver elements st = (Ok texts, st') ->
    Forall (fun t => strip t = t) texts.
Proof.
  induction elements as [|el els IH]; intros st texts st'; simpl.
  - intros [= <- <-]. constructor.
  - unfold bind at 1.
    destruct (element_text W driver el st) as [[shown|e] st1]; [|done].
    destruct (strip shown).
    + apply IH.
    + unfold bind at 1.
      destruct (element_text W driver el st1) as [[t|e] st2]; [|done].
      unfold bind at 1.
      destruct (visible_texts W driver els st2) as [[more|e] st3] eqn:Em; [|done].
      intros [= <- <-]. constructor; [apply strip_strip | by eapply IH].
Qed.

(** X8.  With a session at hand, once the driver has answered the query
    for the elements that carry text, and when reading an element's text
    gives the same answer each time: [verify_text_appium_full] returns
    [True] exactly when the target is not empty and equals the stripped
    text of one of these elements, and raises [AssertionError] otherwise.
    On the way it reads the text of each element once, and once more when
    it is not blank. *)
Theorem verify_text_appium_full_iff expected dut st driver st1 elements text :
  start_appium_session W dut st = (Ok driver, st1) ->
  let query := FindElements driver "xpath" "//*[normalize-space(@text) != '']" in
  w_find_elements W (trace st1) driver "xpath" "//*[normalize-space(@text) != '']"
    = Ok elements ->
  (forall tr el, el ∈ elements -> w_element_text W tr driver el = Ok (text el)) ->
  let outcome := verify_text_appium_full W expected dut st in
  let found := expected <> EmptyString /\ exists el, el ∈ elements /\ strip (text el) = expected in
  let st2 := record_events (query :: text_reads driver text elements) st1 in
  (found -> outcome = (Ok true, record_event (Log INFO (TextVerified expected)) st2)) /\
  (~ found ->
   outcome = (Raise (AssertionError ("Exact text '" +:+ expected +:+ "' not found")), st2)).
Proof.
  intros Hs query Hfind Htext outcome found st2.
  assert (Hfound : found <-> expected ∈ shown_texts text elements).
  { unfold found, shown_texts. rewrite list_elem_of_In, List.filter_In, <- list_elem_of_In.
    rewrite list_elem_of_fmap. split.
    - intros (Hne & el & Hel & <-). split; [eauto|].
      apply negb_true_iff, String.eqb_neq. done.
    - intros ((el & -> & Hel) & Hne). apply negb_true_iff, String.eqb_neq in Hne. eauto. }
  assert (Hout : outcome =
            if existsb (String.eqb expected) (shown_texts text elements)
            then (Ok true, record_event (Log INFO (TextVerified expected)) st2)
            else (Raise (AssertionError ("Exact text '" +:+ expected +:+ "' not found")), st2)).
  { subst outcome. unfold verify_text_appium_full. unfold bind at 1. rewrite Hs.
    unfold bind at 1. unfold driver_find_elements, bind, get, emit, modify, lift. simpl.
    rewrite Hfind. rewrite (visible_texts_eq driver text elements Htext).
    by destruct (existsb _ _). }
  rewrite Hout. split.
  - intros H. apply Hfound, existsb_eqb_elem in H. by rewrite H.
  - intros H. destruct (existsb _ _) eqn:E; [|done].
    apply existsb_eqb_elem, Hfound in E. done.
Qed.

(** X9.  A target with whitespace at either end is never found: whatever
    is on the screen and whatever the driver and the OCR answer, neither
    [verify_text_appium_full] nor [tap_by_text] returns; and once
    [tap_by_text] has its OCR result it raises its [AssertionError]
    without a gesture. *)
Theorem padded_target_is_never_found expected dut st :
  strip expected <> expected ->
  (forall b, fst (verify_text_appium_full W expected dut st) <> Ok b) /\
  (forall b, fst (tap_by_text W expected dut st) <> Ok b) /\
  (forall driver ocr st2,
     reaches_ocr W dut st driver ocr st2 ->
     tap_by_text W expected dut st =
       (Raise (AssertionError ("Text '" +:+ expected +:+ "' not found via OCR")), st2)).
Proof.
  intros Hpad.
  assert (Hnone : forall driver ocr i texts st',
            tap_first_match W driver expected ocr i texts st' =
              (Raise (AssertionError ("Text '" +:+ expected +:+ "' not found via OCR")), st')).
  { intros driver ocr i texts st'. apply tap_first_match_none.
    intros t _ Ht. apply Hpad. rewrite <- Ht. apply strip_strip. }
  split; [|split].
  - intros b. unfold verify_text_appium_full. unfold bind at 1.
    destruct (start_appium_session W dut st) as [[driver|e] st1]; [|done].
    unfold bind at 1.
    destruct (driver_find_elements W driver _ _ st1) as [[els|e] st2]; [|done].
    unfold bind at 1.
    destruct (visible_texts W driver els st2) as [[texts|e] st3] eqn:Ev; [|done].
    destruct (existsb _ _) eqn:E; [|done].
    apply existsb_eqb_elem in E. apply visible_texts_stripped in Ev.
    rewrite Forall_forall in Ev. by apply Ev in E.
  - intros b. unfold tap_by_text. unfold bind at 1.
    destruct (start_appium_session W dut st) as [[driver|e] st1]; [|done].
    unfold bind at 1. destruct (get_variable_value W _ st1) as [[out|e] st2]; [|done].
    unfold bind at 1. destruct (os_path_join W out _ st2) as [[shot|e] st3]; [|done].
    unfold bind at 1. destruct (driver_save_screenshot W driver shot st3) as [[[]|e] st4]; [|done].
    unfold bind at 1. destruct (cv2_imread W shot st4) as [[img|e] st5]; [|done].
    unfold bind at 1. destruct (image_to_data W img st5) as [[ocr|e] st6]; [|done].
    by rewrite Hnone.
  - intros driver ocr st2 Hreach. rewrite (tap_by_text_eq W expected _ _ _ _ _ Hreach).
    apply Hnone.
Qed.

End TextVerification.

(** ** Image click *)

(** Two floats that do not compare: one of them is NaN. *)
Lemma SFcompare_None s t : SFcompare s t = None <-> s = S754_nan \/ t = S754_nan.
Proof.
  split.
  - intros H. destruct s, t; simpl in H; auto; exfalso; revert H;
      repeat match goal with
             | |- context [match ?x with _ => _ end] => destruct x
             end; discriminate.
  - intros [-> | ->]; [reflexivity|]. by destruct s as [[]|[]| |[] ? ?].
Qed.

Section ImageClick.
Context (W : World).

Lemma click_by_image_eq image dut t st driver ref res st2 :
  reaches_match W "click_" image dut st driver ref res st2 ->
  click_by_image W image dut t st =
    if float_lt (max_val res) t then (Raise (AssertionError "Image not found"), st2)
    else
      let x := fst (max_loc res) + img_width ref / 2 in
      let y := snd (max_loc res) + img_height ref / 2 in
      after_script W st2 driver "mobile: clickGesture" (VDict [("x", VInt x); ("y", VInt y)])
        ("Clicked image at (" +:+ str_of_int x +:+ "," +:+ str_of_int y +:+ ")").
Proof.
  intros (st1 & root & out & screen & Hs & Hr & Ho & Href & Hshot & -> & Hscreen & Hm).
  unfold click_by_image. unfold bind at 1. rewrite Hs.
  run_monad. rewrite Hr, Ho. simpl. rewrite Href, Hshot. simpl.
  simpl in Hscreen. rewrite Hscreen, Hm.
  destruct (float_lt (max_val res) t); [done|]. simpl.
  destruct (w_execute_script W _ _ _ _); reflexivity.
Qed.

(** X10.  Once [click_by_image] has the match score [s]: it raises
    [AssertionError "Image not found"] exactly when [s < threshold], and
    then the object is as the screenshot left it, so no gesture is sent;
    in every other case it sends its click. *)
Theorem click_by_image_below_threshold image dut threshold st driver ref res st2 :
  reaches_match W "click_" image dut st driver ref res st2 ->
  let s := max_val res in
  let outcome := click_by_image W image dut threshold st in
  let x := fst (max_loc res) + img_width ref / 2 in
  let y := snd (max_loc res) + img_height ref / 2 in
  (outcome = (Raise (AssertionError "Image not found"), st2) <-> float_lt s threshold = true) /\
  (float_lt s threshold = false ->
   clicks_at W outcome st2 driver x y
     ("Clicked image at (" +:+ str_of_int x +:+ "," +:+ str_of_int y +:+ ")")).
Proof.
  intros Hreach s outcome x y. subst outcome.
  rewrite (click_by_image_eq _ _ threshold _ _ _ _ _ Hreach). fold s. split.
  - destruct (float_lt s threshold); [done|]. split; [|done].
    unfold after_script. intros [= _ Hst]. exfalso.
    apply (f_equal (fun st => length (trace st))) in Hst. simpl in Hst.
    rewrite length_app in Hst. simpl in Hst. lia.
  - intros ->. by apply clicks_at_intro.
Qed.

(** X11.  On a score or a threshold that is NaN the two image keywords
    part ways: [verify_image_element] raises, printing the score, while
    [click_by_image] sends its click. *)
Theorem nan_score_fails_verify_but_clicks image dut threshold st driver ref
    res_v st_v res_c st_c :
  reaches_match W "verify_" image dut st driver ref res_v st_v ->
  reaches_match W "click_" image dut st driver ref res_c st_c ->
  SFcompare (max_val res_v) threshold = None ->
  SFcompare (max_val res_c) threshold = None ->
  let x := fst (max_loc res_c) + img_width ref / 2 in
  let y := snd (max_loc res_c) + img_height ref / 2 in
  verify_image_element W image dut threshold st =
    (Raise (AssertionError ("Image match failed: score=" +:+ format_3f (max_val res_v))), st_v) /\
  clicks_at W (click_by_image W image dut threshold st) st_c driver x y
    ("Clicked image at (" +:+ str_of_int x +:+ "," +:+ str_of_int y +:+ ")").
Proof.
  intros Hv Hc Hnv Hnc x y. split.
  - rewrite (verify_image_element_eq _ _ _ threshold _ _ _ _ _ Hv).
    unfold float_ge, SFleb. rewrite SFcompare_antisym, Hnv. reflexivity.
  - apply clicks_at_intro. rewrite (click_by_image_eq _ _ threshold _ _ _ _ _ Hc).
    unfold float_lt, SFltb. rewrite Hnc. reflexivity.
Qed.

End ImageClick.

(** ** Coordinate tap *)

Section CoordinateTap.
Context (W : World).

(** X12.  When [tap_by_coordinates] returns, it has sent one click
    gesture, as the last thing it did, to the driver of the device's
    session, and the point in the message it returns is the point of
    that gesture; the coordinate file was there. *)
Theorem tap_by_coordinates_reports_its_tap json_name key_name dut st msg st' :
  tap_by_coordinates W json_name key_name dut st = (Ok msg, st') ->
  exists driver st1 root x y,
    start_appium_session W dut st = (Ok driver, st1) /\
    w_isfile W (w_path_join W [root; "Resources"; "Coordinates"; json_name]) = true /\
    st' = record_event (click_gesture driver x y) st1 /\
    msg = "Tapped at (" +:+ str_of_int x +:+ "," +:+ str_of_int y +:+ ") on " +:+ dut.
Proof.
  unfold tap_by_coordinates. unfold bind at 1.
  destruct (start_appium_session W dut st) as [[driver|e] st1]; [|done].
  unfold get_variable_value, os_path_join, driver_execute_script, bind, get, lift, emit,
    modify, raise, ret. simpl.
  destruct (w_get_variable_value W "${EXECDIR}") as [[root|]|e]; [| done | done]. simpl.
  destruct (w_isfile W _) eqn:Efile; [|done]. simpl.
  destruct (w_json_load W _) as [data|e]; [|done]. simpl.
  destruct (value_contains data key_name) as [[|]|e]; [| done | done]. simpl.
  destruct (value_getitem data key_name) as [entry|e]; [|done]. simpl.
  destruct (value_getitem entry "x") as [raw_x|e]; [|done]. simpl.
  destruct (value_int W raw_x) as [x|e]; [|done]. simpl.
  destruct (value_getitem entry "y") as [raw_y|e]; [|done]. simpl.
  destruct (value_int W raw_y) as [y|e]; [|done]. simpl.
  destruct (w_execute_script W _ _ _ _) as [v|e]; [|done].
  intros [= <- <-]. exists driver, st1, root, x, y. done.
Qed.

(** X13.  With a session at hand and the coordinate file read as a JSON
    object that has the key: when the entry is an object without ["x"],
    or with an integer ["x"] but without ["y"], the keyword raises
    [KeyError] for the missing name, and when the entry is a list it
    raises [TypeError]; each time the object stays as the session lookup
    left it, so no gesture is sent. *)
Theorem tap_by_coordinates_malformed_entry json_name key_name dut st driver st1 root d :
  start_appium_session W dut st = (Ok driver, st1) ->
  w_get_variable_value W "${EXECDIR}" = Ok (Some root) ->
  let json_file := w_path_join W [root; "Resources"; "Coordinates"; json_name] in
  w_isfile W json_file = true ->
  w_json_load W json_file = Ok (VDict d) ->
  let outcome := tap_by_coordinates W json_name key_name dut st in
  (forall entry, dict_get d key_name = Some (VDict entry) ->
     dict_get entry "x" = None -> outcome = (Raise (KeyError "x"), st1)) /\
  (forall entry x, dict_get d key_name = Some (VDict entry) ->
     dict_get entry "x" = Some (VInt x) -> dict_get entry "y" = None ->
     outcome = (Raise (KeyError "y"), st1)) /\
  (forall l, dict_get d key_name = Some (VList l) ->
     outcome = (Raise (TypeError "list indices must be integers or slices, not str"), st1)).
Proof.
  intros Hs Hr json_file Hfile Hload outcome. subst outcome.
  unfold tap_by_coordinates. run_monad. rewrite Hs, Hr. simpl. fold json_file.
  rewrite Hfile, Hload. simpl. unfold dict_mem.
  split; [|split].
  - intros entry Hk Hx. rewrite Hk. simpl. by rewrite Hx.
  - intros entry x Hk Hx Hy. rewrite Hk. simpl. rewrite Hx. simpl. by rewrite Hy.
  - intros l Hk. by rewrite Hk.
Qed.

End CoordinateTap.

(** ** Gestures *)

Lemma all_from_spec count p : forall a n,
  all_from count a p = true -> a <= n < a + Z.of_nat count -> p n = true.
Proof.
  induction count as [|count IH]; intros a n Hall Hn; [lia|].
  simpl in Hall. apply andb_true_iff in Hall as [Ha Hall].
  destruct (Z.eq_dec n a) as [->|Hne]; [done|].
  apply (IH (a + 1)); [done | lia].
Qed.

Lemma all_from_range count p n :
  all_from (Z.to_nat count) 0 p = true -> 0 <= n < count -> p n = true.
Proof.
  intros Hall Hn. apply (all_from_spec _ _ 0 n Hall). rewrite Z2Nat.id; lia.
Qed.

Lemma scaled_between_spec c lo hi n :
  all_from (Z.to_nat 16384) 0 (scaled_between c lo hi) = true -> 0 <= n < 16384 ->
  exists z, scaled_size n c = Ok z /\ lo n <= z <= hi n.
Proof.
  intros Hall Hn. pose proof (all_from_range 16384 _ n Hall Hn) as H. clear Hall.
  unfold scaled_between in H.
  destruct (scaled_size n c) as [z|e]; [|done].
  exists z. split; [done|]. lia.
Qed.

Lemma scaled_lookup size key n c :
  dict_get size key = Some (VInt n) -> scaled (VDict size) key c = scaled_size n c.
Proof. intros H. unfold scaled_size, scaled. simpl. by rewrite H. Qed.

(** The fractions of the screen, for every size below 16384: a tenth,
    four fifths, three tenths and three twentieths come out as the whole
    part of the exact product; 0.35 and 0.7, which binary64 rounds
    downwards, come out as that or one less. *)
Lemma tenth_of_size : all_from (Z.to_nat 16384) 0 (scaled_between f01 (fun n => n / 10) (fun n => n / 10)) = true.
Proof. vm_compute. reflexivity. Qed.

Lemma four_fifths_of_size :
  all_from (Z.to_nat 16384) 0 (scaled_between f08 (fun n => 4 * n / 5) (fun n => 4 * n / 5)) = true.
Proof. vm_compute. reflexivity. Qed.

Lemma three_tenths_of_size :
  all_from (Z.to_nat 16384) 0 (scaled_between f03 (fun n => 3 * n / 10) (fun n => 3 * n / 10)) = true.
Proof. vm_compute. reflexivity. Qed.

Lemma three_twentieths_of_size :
  all_from (Z.to_nat 16384) 0 (scaled_between f015 (fun n => 3 * n / 20) (fun n => 3 * n / 20)) = true.
Proof. vm_compute. reflexivity. Qed.

Lemma seven_twentieths_of_size :
  all_from (Z.to_nat 16384) 0 (scaled_between f035 (fun n => Z.max 0 (7 * n / 20 - 1)) (fun n => 7 * n / 20)) = true.
Proof. vm_compute. reflexivity. Qed.

Lemma seven_tenths_of_size :
  all_from (Z.to_nat 16384) 0 (scaled_between f07 (fun n => Z.max 0 (7 * n / 10 - 1)) (fun n => 7 * n / 10)) = true.
Proof. vm_compute. reflexivity. Qed.

(** The product is not always the whole part of the exact one. *)
Example seven_tenths_of_90 :
  scaled_size 90 f07 = Ok 62 /\ scaled_size 180 f035 = Ok 62.
Proof. split; reflexivity. Qed.

Section Gestures.
Context (W : World).

Lemma scroll_gesture_eq driver direction percent fl ft fw fh st size sw sh l t w h :
  w_get_window_size W (trace st) driver = Ok (VDict size) ->
  dict_get size "width" = Some (VInt sw) ->
  dict_get size "height" = Some (VInt sh) ->
  scaled_size sw fl = Ok l -> scaled_size sh ft = Ok t ->
  scaled_size sw fw = Ok w -> scaled_size sh fh = Ok h ->
  scroll_gesture W driver direction percent fl ft fw fh st =
    after_script W (record_event (GetWindowSize driver) st) driver "mobile: scrollGesture"
      (VDict [("direction", VStr direction); ("percent", VFloat percent);
              ("left", VInt l); ("top", VInt t); ("width", VInt w); ("height", VInt h)]) tt.
Proof.
  intros Hsize Hw Hh Hl Ht Hwd Hht.
  unfold scroll_gesture, driver_get_window_size, driver_execute_script, after_script,
    bind, get, emit, modify, lift, ret. simpl. rewrite Hsize.
  rewrite !(scaled_lookup _ _ _ _ Hw), !(scaled_lookup _ _ _ _ Hh), Hl, Ht, Hwd, Hht.
  by destruct (w_execute_script W _ _ _ _).
Qed.

(** X14.  With a session at hand and a screen of [sw] by [sh] pixels,
    both below 16384: [swipe_left_right] asks for the screen size once
    and sends one scroll gesture, with the direction and the distance it
    was given, over a box that lies within the screen: it starts at a
    tenth of the width and spans four fifths of it, and it starts at
    7/20 of the height, or one pixel above, and spans 3/10 of it. *)
Theorem swipe_left_right_band dut direction percent st driver st1 size sw sh :
  start_appium_session W dut st = (Ok driver, st1) ->
  w_get_window_size W (trace st1) driver = Ok (VDict size) ->
  dict_get size "width" = Some (VInt sw) ->
  dict_get size "height" = Some (VInt sh) ->
  0 <= sw < 16384 -> 0 <= sh < 16384 ->
  exists top,
    let left := sw / 10 in
    let width := 4 * sw / 5 in
    let height := 3 * sh / 10 in
    swipe_left_right W dut direction percent st =
      after_script W (record_event (GetWindowSize driver) st1) driver "mobile: scrollGesture"
        (VDict [("direction", VStr direction); ("percent", VFloat percent);
                ("left", VInt left); ("top", VInt top);
                ("width", VInt width); ("height", VInt height)]) tt /\
    7 * sh / 20 - 1 <= top <= 7 * sh / 20 /\
    0 <= left /\ left + width <= sw /\ 0 <= top /\ top + height <= sh.
Proof.
  intros Hs Hsize Hw Hh Hsw Hsh.
  destruct (scaled_between_spec _ _ _ sw tenth_of_size Hsw) as (l & Hl & Hlb).
  destruct (scaled_between_spec _ _ _ sh seven_twentieths_of_size Hsh) as (t & Ht & Htb).
  destruct (scaled_between_spec _ _ _ sw four_fifths_of_size Hsw) as (w & Hwd & Hwb).
  destruct (scaled_between_spec _ _ _ sh three_tenths_of_size Hsh) as (h & Hht & Hhb).
  cbv beta in *.
  assert (l = sw / 10) as -> by lia. assert (w = 4 * sw / 5) as -> by lia.
  assert (h = 3 * sh / 10) as -> by lia.
  exists t. split.
  - unfold swipe_left_right. unfold bind at 1. rewrite Hs.
    by apply (scroll_gesture_eq _ _ _ _ _ _ _ _ size sw sh).
  - pose proof (Z.div_mod sw 10 ltac:(lia)). pose proof (Z.mod_pos_bound sw 10 ltac:(lia)).
    pose proof (Z.div_mod (4 * sw) 5 ltac:(lia)).
    pose proof (Z.mod_pos_bound (4 * sw) 5 ltac:(lia)).
    pose proof (Z.div_mod (7 * sh) 20 ltac:(lia)).
    pose proof (Z.mod_pos_bound (7 * sh) 20 ltac:(lia)).
    pose proof (Z.div_mod (3 * sh) 10 ltac:(lia)).
    pose proof (Z.mod_pos_bound (3 * sh) 10 ltac:(lia)).
    lia.
Qed.

(** X15.  Likewise [scroll_top_bottom], over a taller box within the
    screen: from a tenth of the width over four fifths of it, and from
    3/20 of the height over 7/10 of it, or one pixel less. *)
Theorem scroll_top_bottom_band dut direction percent st driver st1 size sw sh :
  start_appium_session W dut st = (Ok driver, st1) ->
  w_get_window_size W (trace st1) driver = Ok (VDict size) ->
  dict_get size "width" = Some (VInt sw) ->
  dict_get size "height" = Some (VInt sh) ->
  0 <= sw < 16384 -> 0 <= sh < 16384 ->
  exists height,
    let left := sw / 10 in
    let top := 3 * sh / 20 in
    let width := 4 * sw / 5 in
    scroll_top_bottom W dut direction percent st =
      after_script W (record_event (GetWindowSize driver) st1) driver "mobile: scrollGesture"
        (VDict [("direction", VStr direction); ("percent", VFloat percent);
                ("left", VInt left); ("top", VInt top);
                ("width", VInt width); ("height", VInt height)]) tt /\
    7 * sh / 10 - 1 <= height <= 7 * sh / 10 /\
    0 <= left /\ left + width <= sw /\ 0 <= top /\ 0 <= height /\ top + height <= sh.
Proof.
  intros Hs Hsize Hw Hh Hsw Hsh.
  destruct (scaled_between_spec _ _ _ sw tenth_of_size Hsw) as (l & Hl & Hlb).
  destruct (scaled_between_spec _ _ _ sh three_twentieths_of_size Hsh) as (t & Ht & Htb).
  destruct (scaled_between_spec _ _ _ sw four_fifths_of_size Hsw) as (w & Hwd & Hwb).
  destruct (scaled_between_spec _ _ _ sh seven_tenths_of_size Hsh) as (h & Hht & Hhb).
  cbv beta in *.
  assert (l = sw / 10) as -> by lia. assert (w = 4 * sw / 5) as -> by lia.
  assert (t = 3 * sh / 20) as -> by lia.
  exists h. split.
  - unfold scroll_top_bottom. unfold bind at 1. rewrite Hs.
    by apply (scroll_gesture_eq _ _ _ _ _ _ _ _ size sw sh).
  - pose proof (Z.div_mod sw 10 ltac:(lia)). pose proof (Z.mod_pos_bound sw 10 ltac:(lia)).
    pose proof (Z.div_mod (4 * sw) 5 ltac:(lia)).
    pose proof (Z.mod_pos_bound (4 * sw) 5 ltac:(lia)).
    pose proof (Z.div_mod (3 * sh) 20 ltac:(lia)).
    pose proof (Z.mod_pos_bound (3 * sh) 20 ltac:(lia)).
    pose proof (Z.div_mod (7 * sh) 10 ltac:(lia)).
    pose proof (Z.mod_pos_bound (7 * sh) 10 ltac:(lia)).
    lia.
Qed.

End Gestures.

(** ** Keys *)

Lemma string_of_uint_no_space u : no_space (NilEmpty.string_of_uint u) = true.
Proof. induction u; simpl; done. Qed.

Lemma digits_token n : is_token (digits n) = true.
Proof.
  unfold digits. pose proof (string_of_uint_no_space (N.to_uint (Z.to_N n))) as Hns.
  destruct (N.to_uint (Z.to_N n)) eqn:E; try exact Hns.
  exfalso. destruct (Z.to_N n) as [|p]; [discriminate|].
  by apply (DecimalPos.Unsigned.to_uint_nonnil p).
Qed.

(** [str] of an [int] is one token. *)
Lemma str_of_int_token n : is_token (str_of_int n) = true.
Proof.
  unfold str_of_int. destruct (n <? 0).
  - pose proof (digits_token (- n)) as H. destruct (digits (- n)); [done|].
    rewrite append_cons. simpl in *. exact H.
  - apply digits_token.
Qed.

Section Keys.
Context (W : World).

(** X16.  [press_key] sends what [run_command] sends for the command
    line [input keyevent <keycode>]: with a session at hand, the two make
    one [mobile: shell] call each, with the same command and the same
    arguments, [run_command] adding its timeout; and [press_key] returns
    whenever the call does, whatever the shell answers. *)
Theorem press_key_is_input_keyevent keycode dut timeout_ms st driver st1 :
  start_appium_session W dut st = (Ok driver, st1) ->
  let command := VStr "input" in
  let args := VList [VStr "keyevent"; VStr (str_of_int keycode)] in
  press_key W keycode dut st =
    after_script W st1 driver "mobile: shell"
      (VDict [("command", command); ("args", args)]) tt /\
  snd (run_command W ("input keyevent " +:+ str_of_int keycode) dut timeout_ms st) =
    record_event (ExecuteScript driver "mobile: shell"
                    (VDict [("command", command); ("args", args); ("timeout", timeout_ms)]))
      st1.
Proof.
  intros Hs command args. split.
  - unfold press_key. unfold bind at 1. rewrite Hs.
    unfold driver_execute_script, after_script, bind, get, emit, modify, lift, ret. simpl.
    by destruct (w_execute_script W _ _ _ _).
  - assert (Hsplit : split ("input keyevent " +:+ str_of_int keycode)
                     = ["input"; "keyevent"; str_of_int keycode]).
    { change ("input keyevent " +:+ str_of_int keycode)
        with ("input" +:+ String " " ("keyevent" +:+ String " " (str_of_int keycode))).
      rewrite split_token by reflexivity. rewrite split_space by reflexivity.
      rewrite split_token by reflexivity. rewrite split_space by reflexivity.
      rewrite <- (append_empty_r (str_of_int keycode)) at 1.
      rewrite split_token; [done | apply str_of_int_token | done]. }
    unfold run_command. unfold bind at 1. rewrite Hs. rewrite Hsplit.
    unfold driver_execute_script, bind, get, emit, modify, lift, ret. simpl.
    destruct (w_execute_script W _ _ _ _) as [[| | | | |l|d]|e]; simpl; try done.
    by destruct (dict_get d "stdout") as [[]|].
Qed.

End Keys.

(** ** The dependency check, called directly *)

Section DirectCheck.
Context (W : World).

Lemma check_packages_first_missing before pkg import rest st :
  (forall p i, (p, i) ∈ before -> w_find_spec W i = true) ->
  w_find_spec W import = false ->
  check_packages W (before ++ (pkg, import) :: rest) st =
    (Raise (MissingDependency pkg),
     record_events (map FindSpec (map snd before ++ [import])) st).
Proof.
  revert st. induction before as [|[p i] before IH]; intros st Hbefore Hmiss; simpl.
  - unfold bind, emit, modify. simpl. by rewrite Hmiss.
  - unfold bind, emit, modify. simpl.
    rewrite (Hbefore p i) by apply list_elem_of_here. simpl.
    apply IH; [|done]. intros p' i' Hin. apply (Hbefore p' i'). by apply list_elem_of_further.
Qed.

Lemma check_packages_all_found pkgs st :
  (forall p i, (p, i) ∈ pkgs -> w_find_spec W i = true) ->
  check_packages W pkgs st = (Ok tt, record_events (map FindSpec (map snd pkgs)) st).
Proof.
  revert st. induction pkgs as [|[p i] pkgs IH]; intros st Hall; simpl; [done|].
  unfold bind, emit, modify. simpl.
  rewrite (Hall p i) by apply list_elem_of_here. simpl.
  apply IH. intros p' i' Hin. apply (Hall p' i'). by apply list_elem_of_further.
Qed.

(** X17.  Called on an object, [_check_runtime_dependencies] looks up the
    imports in the order of [required_packages] and stops at the first
    that is not installed: it raises the error that names that package,
    and has by then looked up the imports before it and this one, no
    other, logged nothing and left the object alone. *)
Theorem dependency_check_stops_at_first_missing st before pkg import rest :
  required_packages = (before ++ (pkg, import) :: rest)%list ->
  (forall p i, (p, i) ∈ before -> w_find_spec W i = true) ->
  w_find_spec W import = false ->
  _check_runtime_dependencies W st =
    (Raise (MissingDependency pkg),
     record_events (map FindSpec (map snd before ++ [import])) st).
Proof.
  intros Hpkgs Hbefore Hmiss. unfold _check_runtime_dependencies. unfold bind at 1.
  rewrite Hpkgs. by rewrite (check_packages_first_missing _ _ _ _ _ Hbefore Hmiss).
Qed.

(** X18.  With the five imports installed, [_check_runtime_dependencies]
    returns, whatever else is missing: it looks up the five imports, logs
    that they are there, then logs whether [adb] is on [PATH], as a
    warning when it is not, then settles the Tesseract binary: a
    non-empty [TESSERACT_CMD] wins over [PATH], an empty one counts as
    unset, the path found becomes [pytesseract]'s command, and when none
    is found the command stays as it was and a warning is logged. *)
Theorem dependency_check_passes st :
  (forall p i, (p, i) ∈ required_packages -> w_find_spec W i = true) ->
  let env := w_getenv W "TESSERACT_CMD" in
  let tesseract_path := if truthy env then env else w_which W "tesseract" in
  let adb_log :=
    match w_which W "adb" with
    | None => Log WARN AdbNotFound
    | Some _ => Log INFO AdbDetected
    end in
  let tesseract_log :=
    if truthy tesseract_path
    then Log INFO (TesseractDetected (default EmptyString tesseract_path))
    else Log WARN TesseractNotFound in
  let outcome := _check_runtime_dependencies W st in
  fst outcome = Ok tt /\
  trace (snd outcome) =
    (trace st ++ map FindSpec ["robot"; "appium"; "selenium"; "cv2"; "pytesseract"]
     ++ [Log INFO AllDependenciesInstalled; adb_log; tesseract_log])%list /\
  tesseract_cmd (snd outcome) =
    (if truthy tesseract_path then tesseract_path else tesseract_cmd st) /\
  drivers (snd outcome) = drivers st /\ recording (snd outcome) = recording st.
Proof.
  intros Hall env tesseract_path adb_log tesseract_log outcome.
  subst outcome. unfold _check_runtime_dependencies, bind.
  rewrite (check_packages_all_found _ _ Hall).
  unfold emit, modify. simpl. fold env. fold tesseract_path.
  subst adb_log tesseract_log.
  destruct (w_which W "adb"); simpl;
    destruct tesseract_path as [[|c p]|]; simpl; rewrite <- ?app_assoc; done.
Qed.

End DirectCheck.

(** ** Device sections *)



(** ** Answers and files that are not what the keyword expects *)

Section Unexpected.
Context (W : World).

(** X20.  [run_command] sends the command before it looks at the answer.
    When the shell bridge answers something that is neither a [str] nor a
    [dict], or a [dict] whose [stdout] is not a [str], the keyword raises
    [AttributeError] for the missing [strip]: the command ran on the
    device all the same. *)
Theorem run_command_answer_must_be_text command dut timeout_ms st driver st1 head args answer :
  start_appium_session W dut st = (Ok driver, st1) ->
  split command = head :: args ->
  let request :=
    VDict [("command", VStr head); ("args", VList (map VStr args));
           ("timeout", timeout_ms)] in
  w_execute_script W (trace st1) driver "mobile: shell" request = Ok answer ->
  let outcome := run_command W command dut timeout_ms st in
  let sent := record_event (ExecuteScript driver "mobile: shell" request) st1 in
  (is_str answer = false -> (forall d, answer <> VDict d) ->
   outcome = (Raise (no_strip answer), sent)) /\
  (forall d out, answer = VDict d -> dict_get d "stdout" = Some out -> is_str out = false ->
   outcome = (Raise (no_strip out), sent)).
Proof.
  intros Hs Hsplit request Hanswer outcome sent.
  assert (Hrun : outcome =
            match answer with
            | VDict d =>
                match dict_get d "stdout" with
                | Some out => (value_strip out, sent)
                | None => (Ok (VStr EmptyString), sent)
                end
            | _ => (value_strip answer, sent)
            end).
  { subst outcome. unfold run_command. unfold bind at 1. rewrite Hs. rewrite Hsplit.
    unfold driver_execute_script, bind, get, emit, modify, lift, ret. simpl.
    fold request. rewrite Hanswer.
    destruct answer as [| | | | |l|d]; try reflexivity.
    by destruct (dict_get d "stdout"). }
  rewrite Hrun. split.
  - intros Hstr Hdict. destruct answer; try done. by destruct (Hdict d).
  - intros d out -> Hout Hstr. rewrite Hout. by destruct out.
Qed.

(** X21.  When the reference image cannot be read, [cv2.imread] gives
    [None] without a word, and both image keywords go on: they take
    their screenshot and then fail inside OpenCV with [cv2.error], not
    with the [AssertionError] of a failed match; no gesture is sent. *)
Theorem missing_reference_image_is_a_cv2_error image dut threshold st driver st1 root out :
  start_appium_session W dut st = (Ok driver, st1) ->
  w_get_variable_value W "${EXECDIR}" = Ok (Some root) ->
  w_get_variable_value W "${OUTPUTDIR}" = Ok (Some out) ->
  w_imread W (trace st1) (w_path_join W [root; "Resources"; "images"; image]) = None ->
  let shot prefix := w_path_join W [out; prefix +:+ w_time W (trace st1) +:+ ".png"] in
  w_save_screenshot W (trace st1) driver (shot "verify_") = None ->
  w_save_screenshot W (trace st1) driver (shot "click_") = None ->
  verify_image_element W image dut threshold st =
    (Raise cv2_empty_image, record_event (SaveScreenshot driver (shot "verify_")) st1) /\
  click_by_image W image dut threshold st =
    (Raise cv2_empty_image, record_event (SaveScreenshot driver (shot "click_")) st1).
Proof.
  intros Hs Hr Ho Href shot Hv Hc. split.
  - unfold verify_image_element. unfold bind at 1. rewrite Hs.
    run_monad. rewrite Hr, Ho. simpl. rewrite Href. fold (shot "verify_"). rewrite Hv. simpl.
    destruct (w_imread W (trace st1 ++ _)%list _); reflexivity.
  - unfold click_by_image. unfold bind at 1. rewrite Hs.
    run_monad. rewrite Hr, Ho. simpl. rewrite Href. fold (shot "click_"). rewrite Hc. simpl.
    destruct (w_imread W (trace st1 ++ _)%list _); reflexivity.
Qed.

End Unexpected.

(** ** The further statements on the second installation *)

Lemma lab_object_constructed : __init__ lab_world blank = (Ok tt, lab_object).
Proof. reflexivity. Defined.

Lemma lab_sessions_reachable : reachable lab_world lab_sessions.
Proof.
  exists lab_object, [Start_Appium_Session "Phone"; Start_Appium_Session "Cluster"].
  split; reflexivity.
Defined.

(** X1 on the installation: [Phone] and [Cluster] hold the drivers 0 and
    1. *)
Lemma sessions_are_distinct_objects_witness :
  reachable lab_world lab_sessions /\
  dict_get (drivers lab_sessions) "Phone" = Some 0%nat /\
  dict_get (drivers lab_sessions) "Cluster" = Some 1%nat /\
  StronglySorted lt (dict_values (drivers lab_sessions)) /\
  0%nat <> 1%nat.
Proof.
  split; [exact lab_sessions_reachable|]. split; [reflexivity|]. split; [reflexivity|].
  destruct (sessions_are_distinct_objects lab_world lab_sessions lab_sessions_reachable)
    as (Hsorted & _ & Hdistinct).
  split; [exact Hsorted|].
  apply (Hdistinct "Phone" "Cluster"); [reflexivity | reflexivity | discriminate].
Defined.

(** X2 on the installation: after the teardown [Phone] gets driver 2. *)
Lemma session_after_teardown_is_new_witness :
  let st1 := snd (stop_appium_session lab_world lab_sessions) in
  let st2 := snd (start_appium_session lab_world "Phone" st1) in
  stop_appium_session lab_world lab_sessions = (Ok tt, st1) /\
  start_appium_session lab_world "Phone" st1 = (Ok 2%nat, st2) /\
  (2%nat ∉ dict_values (drivers lab_sessions)) /\
  drivers st2 = [("Phone", 2%nat)].
Proof.
  intros st1 st2. split; [reflexivity|]. split; [reflexivity|].
  destruct (session_after_teardown_is_new lab_world lab_sessions st1 "Phone" 2%nat st2
              lab_sessions_reachable eq_refl eq_refl) as (Hnew & Hdrivers & _).
  split; [exact Hnew | exact Hdrivers].
Defined.

Lemma lab_sessions_reachable_quit_fails : reachable lab_world_quit_fails lab_sessions.
Proof.
  exists lab_object, [Start_Appium_Session "Phone"; Start_Appium_Session "Cluster"].
  split; reflexivity.
Defined.

(** X3 on the installation, when the driver of [Cluster] refuses to
    quit: the driver of [Phone], which did quit, is what a later tap
    gets. *)
Lemma failed_teardown_keeps_sessions_witness :
  let st1 := snd (stop_appium_session lab_world_quit_fails lab_sessions) in
  let cs := [Tap_By_Text "Login" "Phone"] in
  stop_appium_session lab_world_quit_fails lab_sessions = (Raise session_gone, st1) /\
  Quit 0%nat ∈ trace st1 /\
  start_appium_session lab_world_quit_fails "Phone" (after_all lab_world_quit_fails cs st1)
    = (Ok 0%nat, after_all lab_world_quit_fails cs st1).
Proof.
  intros st1 cs. split; [reflexivity|]. split.
  - apply list_elem_of_In. vm_compute. tauto.
  - apply (proj2 (failed_teardown_keeps_sessions lab_world_quit_fails lab_sessions
                    session_gone st1 lab_sessions_reachable_quit_fails eq_refl)
             "Phone" 0%nat cs eq_refl).
    intros H. apply elem_of_cons in H as [H|H]; [discriminate|].
    by apply elem_of_nil in H.
Defined.

(** X4 on the installation: a tap on [Phone], a key on [Cluster], a
    recording and a lookup open no connection. *)
Lemma open_sessions_are_not_reconnected_witness :
  let cs := [Tap_By_Text "Login" "Phone"; Press_Key 4 "Cluster";
             Start_Screen_Recording "Phone" "login"; Get_Device_Id "Tablet"] in
  connects (trace (after_all lab_world cs lab_sessions)) = connects (trace lab_sessions).
Proof.
  intros cs. apply open_sessions_are_not_reconnected.
  - intros H. repeat (apply elem_of_cons in H as [H|H]; [discriminate|]).
    by apply elem_of_nil in H.
  - intros c name Hc Hname.
    repeat (apply elem_of_cons in Hc as [->|Hc];
            [simpl in Hname; first [discriminate | injection Hname as <-; by eexists]|]).
    by apply elem_of_nil in Hc.
Defined.

(** X5 on the installation: no recording was started. *)
Lemma stop_screen_recording_needs_a_start_witness :
  let cs := [Start_Appium_Session "Phone"; Test_Video_ "/out/login.mp4" 480 "Login"] in
  stop_screen_recording lab_world "Phone" "/out/login.mp4" (after_all lab_world cs lab_object) =
    (Raise (AttributeError "'AppiumKeywords' object has no attribute '_screen_proc'"),
     after_all lab_world cs lab_object).
Proof.
  intros cs.
  exact (stop_screen_recording_needs_a_start lab_world lab_object cs "Phone" "/out/login.mp4"
           lab_object_constructed eq_refl).
Defined.


Lemma lab_object_reachable : reachable lab_world lab_object.
Proof. exists lab_object, []. split; reflexivity. Defined.

(** X7 on the installation: a recording of [Phone], then one of
    [Cluster]; two stops later the first process was not terminated. *)
Lemma second_recording_orphans_first_witness :
  let st1 := snd (start_screen_recording lab_world "Phone" "login" lab_object) in
  let cs := [Tap_By_Text "Login" "Phone"] in
  let st2 := snd (start_screen_recording lab_world "Cluster" "login" (after_all lab_world cs st1)) in
  let stops := [Stop_Screen_Recording "Phone" "/out/phone.mp4";
                Stop_Screen_Recording "Cluster" "/out/cluster.mp4"] in
  start_screen_recording lab_world "Phone" "login" lab_object
    = (Ok "/sdcard/emulator-5554_20240101_120000_login.mp4", st1) /\
  start_screen_recording lab_world "Cluster" "login" (after_all lab_world cs st1)
    = (Ok "/sdcard/emulator-5556_20240101_120000_login.mp4", st2) /\
  next_object lab_object <> next_object (after_all lab_world cs st1) /\
  (Terminate (next_object lab_object) ∉ trace (after_all lab_world stops st2)).
Proof.
  intros st1 cs st2 stops.
  assert (H1 : start_screen_recording lab_world "Phone" "login" lab_object
               = (Ok "/sdcard/emulator-5554_20240101_120000_login.mp4", st1))
    by (vm_compute; reflexivity).
  assert (H2 : start_screen_recording lab_world "Cluster" "login" (after_all lab_world cs st1)
               = (Ok "/sdcard/emulator-5556_20240101_120000_login.mp4", st2))
    by (vm_compute; reflexivity).
  split; [exact H1|]. split; [exact H2|].
  destruct (second_recording_orphans_first lab_world lab_object "Phone" "login" _ st1 cs
              "Cluster" "login" _ st2 lab_object_reachable H1 eq_refl H2)
    as (Hne & _ & Hnever).
  split; [exact Hne | exact (Hnever stops)].
Defined.

Lemma lab_phone_session :
  start_appium_session lab_world "Phone" lab_object
    = (Ok 0%nat, snd (start_appium_session lab_world "Phone" lab_object)).
Proof. vm_compute. reflexivity. Defined.

(** X8 on the installation: three elements, the second blank; [Wi-Fi] is
    the third once stripped, and with its trailing blank it is not
    found. *)
Lemma verify_text_appium_full_iff_witness :
  let st1 := snd (start_appium_session lab_world "Phone" lab_object) in
  let query := FindElements 0%nat "xpath" "//*[normalize-space(@text) != '']" in
  let st2 := record_events (query :: text_reads 0%nat lab_text [0; 1; 2]%nat) st1 in
  verify_text_appium_full lab_world "Wi-Fi" "Phone" lab_object
    = (Ok true, record_event (Log INFO (TextVerified "Wi-Fi")) st2) /\
  verify_text_appium_full lab_world "Wi-Fi " "Phone" lab_object
    = (Raise (AssertionError "Exact text 'Wi-Fi ' not found"), st2).
Proof.
  intros st1 query st2. split.
  - apply (proj1 (verify_text_appium_full_iff lab_world "Wi-Fi" "Phone" lab_object 0%nat st1
                    [0; 1; 2]%nat lab_text lab_phone_session eq_refl
                    (fun tr el _ => eq_refl))).
    split; [discriminate|]. exists 2%nat. split; [|reflexivity].
    apply list_elem_of_In. simpl. tauto.
  - apply (proj2 (verify_text_appium_full_iff lab_world "Wi-Fi " "Phone" lab_object 0%nat st1
                    [0; 1; 2]%nat lab_text lab_phone_session eq_refl
                    (fun tr el _ => eq_refl))).
    intros (_ & el & _ & Hel).
    destruct el as [|[|el]]; discriminate.
Defined.

(** X9 on the installation: the OCR result has a box that reads
    [ Login ], and the target [ Login ] is not found. *)
Lemma padded_target_is_never_found_witness :
  strip " Login " <> " Login " /\
  " Login " ∈ ocr_text demo_ocr /\
  tap_by_text demo_world " Login " "Phone" demo_object =
    (Raise (AssertionError "Text ' Login ' not found via OCR"),
     demo_after_shot "/out/ocr_screen.png").
Proof.
  split; [discriminate|]. split; [apply list_elem_of_In; simpl; tauto|].
  apply (proj2 (proj2 (padded_target_is_never_found demo_world " Login " "Phone" demo_object
                         ltac:(discriminate)))
           0%nat demo_ocr _ demo_reaches_ocr).
Defined.

(** X10 on the installation: score [0.85] against threshold [0.9]. *)
Lemma click_by_image_below_threshold_witness :
  float_lt f085 f09 = true /\
  click_by_image (demo_world_with (fun _ => None) (fun _ => None) f085 VNone)
      "logo.png" "Phone" f09 demo_object
    = (Raise (AssertionError "Image not found"),
       demo_after_shot "/out/click_1700000000.25.png").
Proof.
  split; [reflexivity|].
  apply (proj1 (click_by_image_below_threshold _ "logo.png" "Phone" f09 demo_object _ _ _ _
                  (demo_reaches_match "click_" "logo.png" f085))).
  reflexivity.
Defined.

(** X11 on the installation: the score is NaN, the threshold [0.8]. *)
Lemma nan_score_fails_verify_but_clicks_witness :
  let W := demo_world_with (fun _ => None) (fun _ => None) S754_nan VNone in
  SFcompare S754_nan f08 = None /\
  verify_image_element W "logo.png" "Phone" f08 demo_object
    = (Raise (AssertionError "Image match failed: score=nan"),
       demo_after_shot "/out/verify_1700000000.25.png") /\
  trace (snd (click_by_image W "logo.png" "Phone" f08 demo_object))
    = (trace (demo_after_shot "/out/click_1700000000.25.png")
       ++ [click_gesture 0%nat 130 220])%list.
Proof.
  intros W. split; [reflexivity|].
  destruct (nan_score_fails_verify_but_clicks W "logo.png" "Phone" f08 demo_object _ _ _ _ _ _
              (demo_reaches_match "verify_" "logo.png" S754_nan)
              (demo_reaches_match "click_" "logo.png" S754_nan) eq_refl eq_refl)
    as [Hverify Hclick].
  split; [exact Hverify | exact (proj2 Hclick)].
Defined.

(** X12 on the installation: the message names the point of the
    gesture. *)
Lemma tap_by_coordinates_reports_its_tap_witness :
  let outcome := tap_by_coordinates demo_world "home.json" "login_button" "Phone" demo_object in
  fst outcome = Ok "Tapped at (100,200) on Phone" /\
  exists driver st1 root x y,
    start_appium_session demo_world "Phone" demo_object = (Ok driver, st1) /\
    w_isfile demo_world (w_path_join demo_world [root; "Resources"; "Coordinates"; "home.json"])
      = true /\
    snd outcome = record_event (click_gesture driver x y) st1 /\
    "Tapped at (100,200) on Phone"
      = "Tapped at (" +:+ str_of_int x +:+ "," +:+ str_of_int y +:+ ") on " +:+ "Phone".
Proof.
  intros outcome. split; [reflexivity|].
  apply (tap_by_coordinates_reports_its_tap demo_world "home.json" "login_button" "Phone"
           demo_object "Tapped at (100,200) on Phone" (snd outcome)).
  reflexivity.
Defined.

Lemma lab_phone_session_odd_coordinates :
  start_appium_session lab_world_odd_coordinates "Phone" lab_object
    = (Ok 0%nat, snd (start_appium_session lab_world "Phone" lab_object)).
Proof. vm_compute. reflexivity. Defined.

(** X13 on the installation, with a coordinate file whose entries lack
    a coordinate or are lists. *)
Lemma tap_by_coordinates_malformed_entry_witness :
  let W := lab_world_odd_coordinates in
  let st1 := snd (start_appium_session lab_world "Phone" lab_object) in
  tap_by_coordinates W "keys.json" "back" "Phone" lab_object = (Raise (KeyError "x"), st1) /\
  tap_by_coordinates W "keys.json" "menu" "Phone" lab_object = (Raise (KeyError "y"), st1) /\
  tap_by_coordinates W "keys.json" "home" "Phone" lab_object
    = (Raise (TypeError "list indices must be integers or slices, not str"), st1).
Proof.
  intros W st1. split; [|split].
  - apply (proj1 (tap_by_coordinates_malformed_entry W "keys.json" "back" "Phone" lab_object
                    0%nat st1 "/proj" _ lab_phone_session_odd_coordinates eq_refl eq_refl eq_refl)
             [("y", VInt 40)]); reflexivity.
  - apply (proj1 (proj2 (tap_by_coordinates_malformed_entry W "keys.json" "menu" "Phone"
                           lab_object 0%nat st1 "/proj" _ lab_phone_session_odd_coordinates
                           eq_refl eq_refl eq_refl))
             [("x", VInt 30)] 30); reflexivity.
  - apply (proj2 (proj2 (tap_by_coordinates_malformed_entry W "keys.json" "home" "Phone"
                           lab_object 0%nat st1 "/proj" _ lab_phone_session_odd_coordinates
                           eq_refl eq_refl eq_refl))
             [VInt 540; VInt 1800]); reflexivity.
Defined.

(** X14 on the installation: a screen of 1080 by 1920. *)
Lemma swipe_left_right_band_witness :
  let st1 := snd (start_appium_session lab_world "Phone" lab_object) in
  exists top,
    swipe_left_right lab_world "Phone" "left" f09 lab_object =
      after_script lab_world (record_event (GetWindowSize 0%nat) st1) 0%nat
        "mobile: scrollGesture"
        (VDict [("direction", VStr "left"); ("percent", VFloat f09);
                ("left", VInt (1080 / 10)); ("top", VInt top);
                ("width", VInt (4 * 1080 / 5)); ("height", VInt (3 * 1920 / 10))]) tt /\
    7 * 1920 / 20 - 1 <= top <= 7 * 1920 / 20.
Proof.
  intros st1.
  destruct (swipe_left_right_band lab_world "Phone" "left" f09 lab_object 0%nat st1
              [("width", VInt 1080); ("height", VInt 1920)] 1080 1920
              lab_phone_session eq_refl eq_refl eq_refl ltac:(lia) ltac:(lia))
    as (top & Heq & Htop & _).
  exists top. split; [exact Heq | exact Htop].
Defined.

(** X15 on the installation. *)
Lemma scroll_top_bottom_band_witness :
  let st1 := snd (start_appium_session lab_world "Phone" lab_object) in
  exists height,
    scroll_top_bottom lab_world "Phone" "down" f09 lab_object =
      after_script lab_world (record_event (GetWindowSize 0%nat) st1) 0%nat
        "mobile: scrollGesture"
        (VDict [("direction", VStr "down"); ("percent", VFloat f09);
                ("left", VInt (1080 / 10)); ("top", VInt (3 * 1920 / 20));
                ("width", VInt (4 * 1080 / 5)); ("height", VInt height)]) tt /\
    7 * 1920 / 10 - 1 <= height <= 7 * 1920 / 10.
Proof.
  intros st1.
  destruct (scroll_top_bottom_band lab_world "Phone" "down" f09 lab_object 0%nat st1
              [("width", VInt 1080); ("height", VInt 1920)] 1080 1920
              lab_phone_session eq_refl eq_refl eq_refl ltac:(lia) ltac:(lia))
    as (height & Heq & Hheight & _).
  exists height. split; [exact Heq | exact Hheight].
Defined.

(** X16 on the installation: the key [BACK], keycode 4. *)
Lemma press_key_is_input_keyevent_witness :
  let st1 := snd (start_appium_session lab_world "Phone" lab_object) in
  press_key lab_world 4 "Phone" lab_object =
    after_script lab_world st1 0%nat "mobile: shell"
      (VDict [("command", VStr "input");
              ("args", VList [VStr "keyevent"; VStr (str_of_int 4)])]) tt /\
  snd (run_command lab_world ("input keyevent " +:+ str_of_int 4) "Phone" (VInt 5000) lab_object) =
    record_event (ExecuteScript 0%nat "mobile: shell"
                    (VDict [("command", VStr "input");
                            ("args", VList [VStr "keyevent"; VStr (str_of_int 4)]);
                            ("timeout", VInt 5000)]))
      st1.
Proof.
  intros st1.
  exact (press_key_is_input_keyevent lab_world 4 "Phone" (VInt 5000) lab_object 0%nat st1
           lab_phone_session).
Defined.

(** X17 on the installation, without OpenCV: three imports are found,
    the fourth is not, the fifth is not looked up. *)
Lemma dependency_check_stops_at_first_missing_witness :
  _check_runtime_dependencies lab_world_no_cv2 lab_object =
    (Raise (MissingDependency "opencv-python"),
     record_events [FindSpec "robot"; FindSpec "appium"; FindSpec "selenium"; FindSpec "cv2"]
       lab_object).
Proof.
  apply (dependency_check_stops_at_first_missing lab_world_no_cv2 lab_object
           [("robotframework", "robot"); ("appium-python-client", "appium");
            ("selenium", "selenium")]
           "opencv-python" "cv2" [("pytesseract", "pytesseract")]).
  - reflexivity.
  - intros p i Hin.
    repeat (apply elem_of_cons in Hin as [[= -> ->]|Hin]; [reflexivity|]).
    by apply elem_of_nil in Hin.
  - reflexivity.
Defined.

(** X18 on the installation with Tesseract both in [TESSERACT_CMD] and
    on [PATH], and no [adb]: the check passes, warns about [adb], and the
    environment's binary is set. *)
Lemma dependency_check_passes_witness :
  let outcome := _check_runtime_dependencies lab_world_tesseract lab_object in
  fst outcome = Ok tt /\
  tesseract_cmd (snd outcome) = Some "/opt/tesseract/bin/tesseract" /\
  trace (snd outcome) =
    (trace lab_object
     ++ map FindSpec ["robot"; "appium"; "selenium"; "cv2"; "pytesseract"]
     ++ [Log INFO AllDependenciesInstalled; Log WARN AdbNotFound;
         Log INFO (TesseractDetected "/opt/tesseract/bin/tesseract")])%list.
Proof.
  intros outcome.
  destruct (dependency_check_passes lab_world_tesseract lab_object (fun p i _ => eq_refl))
    as (Hok & Htrace & Hcmd & _).
  split; [exact Hok|]. split; [exact Hcmd | exact Htrace].
Defined.

(** X20 on the installation: the shell bridge answers [None]. *)
Lemma run_command_answer_must_be_text_witness :
  let st1 := snd (start_appium_session lab_world "Phone" lab_object) in
  let request :=
    VDict [("command", VStr "ls"); ("args", VList [VStr "/sdcard"]); ("timeout", VInt 5000)] in
  run_command lab_world "ls /sdcard" "Phone" (VInt 5000) lab_object =
    (Raise (AttributeError "'NoneType' object has no attribute 'strip'"),
     record_event (ExecuteScript 0%nat "mobile: shell" request) st1).
Proof.
  intros st1 request.
  apply (proj1 (run_command_answer_must_be_text lab_world "ls /sdcard" "Phone" (VInt 5000)
                  lab_object 0%nat st1 "ls" ["/sdcard"] VNone lab_phone_session
                  eq_refl eq_refl)).
  - reflexivity.
  - discriminate.
Defined.

Lemma lab_phone_session_no_reference :
  start_appium_session lab_world_no_reference "Phone" lab_object
    = (Ok 0%nat, snd (start_appium_session lab_world "Phone" lab_object)).
Proof. vm_compute. reflexivity. Defined.

(** X21 on the installation, without [logo.png]. *)
Lemma missing_reference_image_is_a_cv2_error_witness :
  let W := lab_world_no_reference in
  let st1 := snd (start_appium_session lab_world "Phone" lab_object) in
  verify_image_element W "logo.png" "Phone" f09 lab_object =
    (Raise cv2_empty_image,
     record_event (SaveScreenshot 0%nat "/out/verify_1700000000.25.png") st1) /\
  click_by_image W "logo.png" "Phone" f08 lab_object =
    (Raise cv2_empty_image,
     record_event (SaveScreenshot 0%nat "/out/click_1700000000.25.png") st1).
Proof.
  intros W st1. split.
  - exact (proj1 (missing_reference_image_is_a_cv2_error W "logo.png" "Phone" f09 lab_object
                    0%nat st1 "/proj" "/out" lab_phone_session_no_reference
                    eq_refl eq_refl eq_refl eq_refl eq_refl)).
  - exact (proj2 (missing_reference_image_is_a_cv2_error W "logo.png" "Phone" f08 lab_object
                    0%nat st1 "/proj" "/out" lab_phone_session_no_reference
                    eq_refl eq_refl eq_refl eq_refl eq_refl)).
Defined.
